(** * The RabbitMQ check ([rabbitmq/check.py]): a shallow embedding

    The check polls the RabbitMQ management API, filters the queue and node
    records it gets back, and turns them into gauges, service checks and
    events.  The embedding keeps the shape of the Python code:

    - JSON values as an inductive type, with [dict.get] written out;
    - one state-and-exception monad [M] for the methods of the class
      [RabbitMQ]: the state holds the Python list objects the
      configuration refers to (a small heap, so that copying a list and
      aliasing it are different things), the field [already_alerted], and
      the sequence of everything the check sent out (HTTP requests, gauges,
      service checks, events, log lines);
    - what the code takes from libraries ([re], [urllib], [urlparse],
      [requests], [float] and [int] on strings, [%s] on arbitrary values)
      as the fields of one class [Env]. *)

From Stdlib Require Import ZArith QArith String Ascii List Bool Lia.
From Stdlib Require Import DecimalString Floats Uint63.
From stdpp Require Import base list strings.

Local Set Warnings "-register-all,-inexact-float".
Local Open Scope string_scope.
Local Open Scope list_scope.
Local Open Scope Z_scope.

(** ** JSON values, as [r.json()] returns them *)

Inductive pynum :=
| PyInt (z : Z)
| PyFloat (q : Q).

Inductive json :=
| JNull
| JBool (b : bool)
| JNum (n : pynum)
| JStr (s : string)
| JArr (items : list json)
| JObj (fields : list (string * json)).

(** A JSON object is kept as its list of fields; a key is looked up from
    the left. *)
Fixpoint dict_lookup (key : string) (fields : list (string * json)) : option json :=
  match fields with
  | [] => None
  | (k, v) :: rest => if String.eqb k key then Some v else dict_lookup key rest
  end.

(** [d[key] = v] *)
Fixpoint dict_set (key : string) (v : json) (fields : list (string * json))
  : list (string * json) :=
  match fields with
  | [] => [(key, v)]
  | (k, w) :: rest =>
      if String.eqb k key then (k, v) :: rest else (k, w) :: dict_set key v rest
  end.

(** Python's truth value of a JSON value ([if tag:]). *)
Definition truthy (v : json) : bool :=
  match v with
  | JNull => false
  | JBool b => b
  | JNum (PyInt z) => negb (z =? 0)
  | JNum (PyFloat q) => negb (Qeq_bool q (inject_Z 0))
  | JStr s => negb (String.eqb s "")
  | JArr l => match l with [] => false | _ => true end
  | JObj l => match l with [] => false | _ => true end
  end.

(** ** Exceptions and what the check sends out *)

Inductive exn :=
| RabbitMQException (msg : string)
| Exception (msg : string)
| ValueError
| TypeError
| AttributeError
| KeyError
| OverflowError
| ReError.

Inductive sc_status := OK | CRITICAL.

(** The dictionary [alert] hands to [self.event]. *)
Record event := {
  timestamp : Z;
  event_type : string;
  msg_title : string;
  msg_text : string;
  alert_type : string;
  source_type_name : string;
  host : string;
  tags : list string;
  event_object : string
}.

Inductive effect :=
| HttpGet (url : string)
| Gauge (name : string) (value : pynum) (gtags : list string)
| ServiceCheck (name : string) (status : sc_status) (sctags : list string)
    (message : option string)
| Event (ev : event)
| Warning (msg : string)
| LogWarning (msg : string)
| LogError (msg : string)
| LogDebug (msg : string).

(** ** The state of a check instance and the monad of its methods *)

(** A reference to a Python list object: its index in the heap. *)
Abbreviation loc := nat.

Record state := {
  heap : list (list string);
  already_alerted : list string;
  trace : list effect
}.

Inductive result (A : Type) :=
| Ret (a : A)
| Raise (e : exn).
Arguments Ret {A} a.
Arguments Raise {A} e.

Definition M (A : Type) : Type := state -> result A * state.

Definition ret {A} (a : A) : M A := fun s => (Ret a, s).

Definition raise {A} (e : exn) : M A := fun s => (Raise e, s).

Definition bind {A B} (c : M A) (k : A -> M B) : M B :=
  fun s => match c s with
           | (Ret a, s') => k a s'
           | (Raise e, s') => (Raise e, s')
           end.

Declare Scope py_scope.
Delimit Scope py_scope with py.
Notation "x <- c1 ;; c2" := (bind c1 (fun x => c2))
  (at level 100, c1 at next level, right associativity) : py_scope.
Notation "c1 ;; c2" := (bind c1 (fun _ => c2))
  (at level 100, right associativity) : py_scope.
Local Open Scope py_scope.

(** [try: body except RabbitMQException as e: handler(e)]: every other
    exception goes through. *)
Definition try_except_RabbitMQException {A} (body : M A) (handler : string -> M A) : M A :=
  fun s => match body s with
           | (Raise (RabbitMQException msg), s') => handler msg s'
           | other => other
           end.

(** [try: body except ValueError: handler] *)
Definition try_except_ValueError {A} (body : M A) (handler : M A) : M A :=
  fun s => match body s with
           | (Raise ValueError, s') => handler s'
           | other => other
           end.

Definition emit (e : effect) : M unit :=
  fun s => (Ret tt, {| heap := heap s;
                       already_alerted := already_alerted s;
                       trace := trace s ++ [e] |}).

Definition lift {A} (r : result A) : M A := fun s => (r, s).

Fixpoint for_each {A} (l : list A) (body : A -> M unit) : M unit :=
  match l with
  | [] => ret tt
  | x :: rest => body x ;; for_each rest body
  end.

(** *** Python list objects *)

(** [list(xs)], or a list display: a new object. *)
Definition new_list (xs : list string) : M loc :=
  fun s => (Ret (length (heap s)),
            {| heap := heap s ++ [xs];
               already_alerted := already_alerted s;
               trace := trace s |}).

Definition read_list (l : loc) : M (list string) :=
  fun s => (Ret (default [] (heap s !! l)), s).

Definition write_list (l : loc) (xs : list string) : M unit :=
  fun s => (Ret tt, {| heap := <[l := xs]> (heap s);
                       already_alerted := already_alerted s;
                       trace := trace s |}).

(** [x in xs] on a list of strings *)
Definition mem (x : string) (xs : list string) : bool :=
  existsb (String.eqb x) xs.

(** [xs.remove(x)]: the first occurrence goes. *)
Fixpoint remove_first (x : string) (xs : list string) : list string :=
  match xs with
  | [] => []
  | y :: rest => if String.eqb x y then rest else y :: remove_first x rest
  end.

(** [explicit_filters.remove(name)]; Python raises [ValueError] when the
    name is not in the list. *)
Definition list_remove (l : loc) (x : string) : M unit :=
  xs <- read_list l ;;
  if mem x xs then write_list l (remove_first x xs) else raise ValueError.

(** ** What the code takes from libraries and from the outside *)

Inductive http_reply :=
| Response (body : json)
| RequestFailed (detail : string)
| InvalidJson (detail : string).

Class Env := {
  (** [urlparse.urljoin] *)
  urljoin : string -> string -> string;
  (** [urlparse.urlparse(url).scheme] *)
  url_scheme : string -> string;
  (** [urllib.quote_plus] *)
  quote_plus : string -> string;
  (** [re]: [None] for a pattern that does not compile; the compiled
      pattern searches a string and gives [match.groups()] on a match. *)
  re_compile : string -> option (string -> option (list json));
  (** [float] on a string: [None] when Python raises [ValueError]. *)
  float_of_str : string -> option Q;
  (** [int] on a string: [None] when Python raises [ValueError]. *)
  int_of_str : string -> option Z;
  (** [str] of a value that is not a string *)
  py_repr : json -> string;
  (** [requests.get(url, ...)], [raise_for_status] and [r.json()] *)
  http_get : string -> http_reply;
  (** [self.hostname] *)
  hostname : string;
  (** [int(time.time())] *)
  time_now : Z
}.

(** ['%s' % v] *)
Definition format_s `{Env} (v : json) : string :=
  match v with
  | JStr s => s
  | _ => py_repr v
  end.

(** ['%d' % n] and ['%s' % n] on an integer *)
Definition str_of_Z (z : Z) : string := NilZero.string_of_int (Z.to_int z).

(** ** Constants of the module *)

Inductive object_type := QUEUE_TYPE | NODE_TYPE.

Definition type_name (t : object_type) : string :=
  match t with
  | QUEUE_TYPE => "queues"
  | NODE_TYPE => "nodes"
  end.

Definition EVENT_TYPE : string := "rabbitmq".
Definition SOURCE_TYPE_NAME : string := "rabbitmq".
Definition MAX_DETAILED_QUEUES : Z := 200.
Definition MAX_DETAILED_NODES : Z := 100.

Section Check.
Context `{Env}.

(** ** [alert] *)

Definition alert_key (base_url : string) (t : object_type) : string :=
  base_url +:+ type_name t.

Definition alert_event (base_url : string) (max_detailed size : Z) (t : object_type)
  : event :=
  {| timestamp := time_now;
     event_type := EVENT_TYPE;
     msg_title :=
       "RabbitMQ integration is approaching the limit on the number of "
         +:+ type_name t +:+ " that can be collected from on " +:+ hostname;
     msg_text :=
       str_of_Z size +:+ " " +:+ type_name t +:+ " are present. The limit is "
         +:+ str_of_Z max_detailed
         +:+ ".
        Please get in touch with Datadog support to increase the limit.";
     alert_type := "warning";
     source_type_name := SOURCE_TYPE_NAME;
     host := hostname;
     tags := ["base_url:" +:+ base_url; "host:" +:+ hostname];
     event_object := "rabbitmq.limit." +:+ type_name t |}.

Definition remember_alert (key : string) : M unit :=
  fun s => (Ret tt, {| heap := heap s;
                       already_alerted := already_alerted s ++ [key];
                       trace := trace s |}).

Definition get_already_alerted : M (list string) :=
  fun s => (Ret (already_alerted s), s).

Definition alert (base_url : string) (max_detailed size : Z) (t : object_type) : M unit :=
  let key := alert_key base_url t in
  alerted <- get_already_alerted ;;
  if mem key alerted then ret tt
  else
    remember_alert key ;;
    emit (Event (alert_event base_url max_detailed size t)).

(** ** [_get_data] *)

Definition _get_data (url : string) : M json :=
  emit (HttpGet url) ;;
  match http_get url with
  | Response body => ret body
  | RequestFailed detail =>
      raise (RabbitMQException
               ("Cannot open RabbitMQ API url: " +:+ url +:+ " " +:+ detail))
  | InvalidJson detail =>
      raise (RabbitMQException
               ("Cannot parse JSON response from API url: " +:+ url +:+ " " +:+ detail))
  end.

(** ** [_get_metrics] *)

Inductive operation := op_float | op_len.

Definition QUEUE_ATTRIBUTES : list (string * string * operation) :=
  [ ("active_consumers", "active_consumers", op_float);
    ("consumers", "consumers", op_float);
    ("consumer_utilisation", "consumer_utilisation", op_float);
    ("memory", "memory", op_float);
    ("messages", "messages", op_float);
    ("messages_details/rate", "messages.rate", op_float);
    ("messages_ready", "messages_ready", op_float);
    ("messages_ready_details/rate", "messages_ready.rate", op_float);
    ("messages_unacknowledged", "messages_unacknowledged", op_float);
    ("messages_unacknowledged_details/rate", "messages_unacknowledged.rate", op_float);
    ("message_stats/ack", "messages.ack.count", op_float);
    ("message_stats/ack_details/rate", "messages.ack.rate", op_float);
    ("message_stats/deliver", "messages.deliver.count", op_float);
    ("message_stats/deliver_details/rate", "messages.deliver.rate", op_float);
    ("message_stats/deliver_get", "messages.deliver_get.count", op_float);
    ("message_stats/deliver_get_details/rate", "messages.deliver_get.rate", op_float);
    ("message_stats/publish", "messages.publish.count", op_float);
    ("message_stats/publish_details/rate", "messages.publish.rate", op_float);
    ("message_stats/redeliver", "messages.redeliver.count", op_float);
    ("message_stats/redeliver_details/rate", "messages.redeliver.rate", op_float) ].

Definition NODE_ATTRIBUTES : list (string * string * operation) :=
  [ ("fd_used", "fd_used", op_float);
    ("mem_used", "mem_used", op_float);
    ("run_queue", "run_queue", op_float);
    ("sockets_used", "sockets_used", op_float);
    ("partitions", "partitions", op_len) ].

Definition ATTRIBUTES (t : object_type) : list (string * string * operation) :=
  match t with
  | QUEUE_TYPE => QUEUE_ATTRIBUTES
  | NODE_TYPE => NODE_ATTRIBUTES
  end.

(** The tag maps, in the order the source writes them (the order in which
    Python 2 walks the dictionary only permutes the tags of a gauge). *)
Definition TAGS_MAP (t : object_type) : list (string * string) :=
  match t with
  | QUEUE_TYPE =>
      [ ("node", "node"); ("name", "queue"); ("vhost", "vhost");
        ("policy", "policy"); ("queue_family", "queue_family") ]
  | NODE_TYPE => [ ("name", "node") ]
  end.

Definition METRIC_SUFFIX (t : object_type) : string :=
  match t with
  | QUEUE_TYPE => "queue"
  | NODE_TYPE => "node"
  end.

(** [v.get(key)] and [v.get(key, dflt)]: only a mapping has [get]. *)
Definition py_get (v : json) (key : string) : result json :=
  match v with
  | JObj fields => Ret (default JNull (dict_lookup key fields))
  | _ => Raise AttributeError
  end.

Definition py_get_default (v : json) (key : string) (dflt : json) : result json :=
  match v with
  | JObj fields => Ret (default dflt (dict_lookup key fields))
  | _ => Raise AttributeError
  end.

(** [attribute.split('/')] *)
Fixpoint split_on (sep : ascii) (s : string) : list string :=
  match s with
  | EmptyString => [EmptyString]
  | String c rest =>
      if Ascii.eqb c sep then EmptyString :: split_on sep rest
      else match split_on sep rest with
           | [] => [String c EmptyString]
           | w :: ws => String c w :: ws
           end
  end.

(** The double nearest to an integer, as the integer it is: an integer of
    more than 53 bits loses its low bits, rounded to nearest, ties to the
    even significand. *)
Definition round_binary64 (z : Z) : Z :=
  let a := Z.abs z in
  let shift := Z.log2 a - 52 in
  if shift <=? 0 then z
  else
    let q := Z.shiftr a shift in
    let r := Z.land a (Z.ones shift) in
    let half := Z.shiftl 1 (shift - 1) in
    let q' := if (half <? r) || ((r =? half) && Z.odd q) then q + 1 else q in
    Z.sgn z * Z.shiftl q' shift.

(** [float] on an integer: the integers that round to a double convert,
    to the nearest double; the others raise [OverflowError].  A double is
    written as the rational it is. *)
Definition float_of_int (z : Z) : result pynum :=
  if Z.abs z <? 2 ^ 1024 - 2 ^ 970
  then Ret (PyFloat (inject_Z (round_binary64 z)))
  else Raise OverflowError.

(** [float(value)] and [len(value)] on a JSON value *)
Definition apply_operation (op : operation) (value : json) : result pynum :=
  match op, value with
  | op_float, JNum (PyInt z) => float_of_int z
  | op_float, JNum (PyFloat q) => Ret (PyFloat q)
  | op_float, JBool b => Ret (PyFloat (inject_Z (if b then 1 else 0)))
  | op_float, JStr s =>
      match float_of_str s with
      | Some q => Ret (PyFloat q)
      | None => Raise ValueError
      end
  | op_float, _ => Raise TypeError
  | op_len, JStr s => Ret (PyInt (Z.of_nat (String.length s)))
  | op_len, JArr items => Ret (PyInt (Z.of_nat (length items)))
  | op_len, JObj fields => Ret (PyInt (Z.of_nat (length fields)))
  | op_len, _ => Raise TypeError
  end.

Definition is_None (v : json) : bool :=
  match v with
  | JNull => true
  | _ => false
  end.

(** The first loop of [_get_metrics]. *)
Fixpoint collect_tags (data : json) (tag_list : list (string * string))
  (tags : list string) : M (list string) :=
  match tag_list with
  | [] => ret tags
  | (t, label) :: rest =>
      tag <- lift (py_get data t) ;;
      if truthy tag
      then collect_tags data rest (tags ++ ["rabbitmq_" +:+ label +:+ ":" +:+ format_s tag])
      else collect_tags data rest tags
  end.

(** [for path in keys[:-1]: root = root.get(path, {})] *)
Fixpoint walk (root : json) (keys : list string) : M json :=
  match keys with
  | [] => ret root
  | path :: rest =>
      root' <- lift (py_get_default root path (JObj [])) ;;
      walk root' rest
  end.

(** [root = data; keys = attribute.split('/'); ...;
    value = root.get(keys[-1], None)] *)
Definition attribute_value (data : json) (attribute : string) : M json :=
  let keys := split_on "/" attribute in
  root <- walk data (removelast keys) ;;
  lift (py_get root (List.last keys "")).

(** [self.log.debug("Caught ValueError for %s %s = %s  with tags: %s" % ...)] *)
Definition log_debug_ValueError (t : object_type) (attribute : string)
  (value : json) (tags : list string) : effect :=
  LogDebug ("Caught ValueError for " +:+ METRIC_SUFFIX t +:+ " "
              +:+ attribute +:+ " = " +:+ format_s value
              +:+ "  with tags: " +:+ format_s (JArr (map JStr tags))).

(** The body of the second loop of [_get_metrics]. *)
Definition get_metric (data : json) (t : object_type) (tags : list string)
  (a : string * string * operation) : M unit :=
  let '(attribute, metric_name, operation) := a in
  value <- attribute_value data attribute ;;
  if is_None value then ret tt
  else
    try_except_ValueError
      (v <- lift (apply_operation operation value) ;;
       emit (Gauge ("rabbitmq." +:+ METRIC_SUFFIX t +:+ "." +:+ metric_name) v tags))
      (emit (log_debug_ValueError t attribute value tags)).

Definition _get_metrics (data : json) (t : object_type) : M unit :=
  tags <- collect_tags data (TAGS_MAP t) [] ;;
  for_each (ATTRIBUTES t) (get_metric data t tags).

(** ** [get_stats] *)

(** The value of [filters]: a dictionary holding two list objects. *)
Record filters := {
  explicit : loc;
  regexes : loc
}.

(** [re.search(p, v)]: the pattern is compiled first, then the subject
    must be a string. *)
Definition re_search (p : string) (v : json) : M (option (list json)) :=
  match re_compile p with
  | None => raise ReError
  | Some search =>
      match v with
      | JStr s => ret (search s)
      | _ => raise TypeError
      end
  end.

(** [for p in regex_filters: match = re.search(p, v); if match: ... break] *)
Fixpoint first_match (ps : list string) (v : json) : M (option (list json)) :=
  match ps with
  | [] => ret None
  | p :: rest =>
      m <- re_search p v ;;
      match m with
      | Some groups => ret (Some groups)
      | None => first_match rest v
      end
  end.

(** [if tag_families and match.groups(): data_line["queue_family"] = match.groups()[0]] *)
Definition tag_family (tag_families : bool) (groups : list json) (data_line : json)
  : json :=
  match tag_families, groups, data_line with
  | true, g :: _, JObj fields => JObj (dict_set "queue_family" g fields)
  | _, _, _ => data_line
  end.

(** [v in explicit_filters], for a value that need not be a string: the
    entry of the list the value is equal to, if any. *)
Definition entry_of (v : json) (xs : list string) : option string :=
  match v with
  | JStr s => if mem s xs then Some s else None
  | _ => None
  end.

(** Which statement of the loop appended a record to [matching_lines]: the
    explicit entry that was then removed, or a regular expression. *)
Inductive match_kind :=
| ExplicitEntry (entry : string)
| RegexMatch.

(** One turn of the loop over [data]: [None] when the record is dropped,
    otherwise the record as appended and the statement that appended it. *)
Definition filter_line (tag_families : bool) (t : object_type)
  (explicit_filters regex_filters : loc) (data_line : json)
  : M (option (json * match_kind)) :=
  name <- lift (py_get data_line "name") ;;
  remaining <- read_list explicit_filters ;;
  match entry_of name remaining with
  | Some entry =>
      list_remove explicit_filters entry ;;
      ret (Some (data_line, ExplicitEntry entry))
  | None =>
      ps <- read_list regex_filters ;;
      m <- first_match ps name ;;
      match m with
      | Some groups => ret (Some (tag_family tag_families groups data_line, RegexMatch))
      | None =>
          match t with
          | NODE_TYPE => ret None
          | QUEUE_TYPE =>
              vhost <- lift (py_get data_line "vhost") ;;
              let absolute_name := format_s vhost +:+ "/" +:+ format_s name in
              remaining <- read_list explicit_filters ;;
              if mem absolute_name remaining then
                list_remove explicit_filters absolute_name ;;
                ret (Some (data_line, ExplicitEntry absolute_name))
              else
                ps <- read_list regex_filters ;;
                m <- first_match ps (JStr absolute_name) ;;
                match m with
                | Some groups =>
                    ret (Some (tag_family tag_families groups data_line, RegexMatch))
                | None => ret None
                end
          end
      end
  end.

(** [for data_line in data: ...], with [matching_lines] as accumulator *)
Fixpoint filter_lines (tag_families : bool) (t : object_type)
  (explicit_filters regex_filters : loc) (data : list json)
  (matching_lines : list (json * match_kind)) : M (list (json * match_kind)) :=
  match data with
  | [] => ret matching_lines
  | data_line :: rest =>
      kept <- filter_line tag_families t explicit_filters regex_filters data_line ;;
      filter_lines tag_families t explicit_filters regex_filters rest
        (match kept with
         | Some line => matching_lines ++ [line]
         | None => matching_lines
         end)
  end.

(** [len(data) > ALERT_THRESHOLD * max_detailed], with [ALERT_THRESHOLD = 0.9].
    Python compares the integer with the double exactly; the comparison is
    written here on integers, as [10 * len(data) > 9 * max_detailed]
    ([threshold_as_in_binary64] below checks it against the product in
    binary64 arithmetic). *)
Definition above_alert_threshold (size max_detailed : Z) : bool :=
  9 * max_detailed <? 10 * size.

(** [data[:n]]: a negative [n] counts from the end. *)
Definition slice_to {A} (data : list A) (n : Z) : list A :=
  if 0 <=? n then take (Z.to_nat n) data
  else take (length data - Z.to_nat (- n))%nat data.

Definition len {A} (l : list A) : Z := Z.of_nat (length l).

(** The response as the list the code takes it for: the code's own
    comment gives its shape, a list of nodes or queues.  A response that
    is JSON and no list is not followed further: this raises [TypeError]
    at once, as Python does for a number, a boolean or [null]; with a
    dictionary or a string Python goes on, by its length, its keys or its
    characters, and fails later. *)
Definition as_list (data : json) : M (list json) :=
  match data with
  | JArr items => ret items
  | _ => raise TypeError
  end.

Definition too_many_message (t : object_type) (max_detailed : Z) : string :=
  "The maximum number of " +:+ type_name t +:+ " you can specify is "
    +:+ str_of_Z max_detailed +:+ ".".

Definition too_many_warning (t : object_type) : string :=
  "Too many queues to fetch. You must choose the " +:+ type_name t
    +:+ " you are interested in by editing the rabbitmq.yaml configuration file or get in touch with Datadog Support".

(** Lines 258 to 269: the alert, the warning, and the metrics of the
    first [max_detailed] records. *)
Definition report (base_url : string) (t : object_type) (max_detailed : Z)
  (data : list json) : M unit :=
  (if above_alert_threshold (len data) max_detailed
   then alert base_url max_detailed (len data) t
   else ret tt) ;;
  (if max_detailed <? len data
   then emit (Warning (too_many_warning t))
   else ret tt) ;;
  for_each (slice_to data max_detailed) (fun data_line => _get_metrics data_line t).

(** Lines 212 to 255: the filtered list of records. *)
Definition select (tag_families : bool) (t : object_type)
  (explicit_filters regex_filters : loc) (data : list json) : M (list json) :=
  given <- read_list explicit_filters ;;
  ps <- read_list regex_filters ;;
  match given, ps with
  | [], [] => ret data
  | _, _ =>
      matching_lines <-
        filter_lines tag_families t explicit_filters regex_filters data [] ;;
      ret (map fst matching_lines)
  end.

(** Lines 190 to 255: the request, the copy of the explicit list, the
    check of its length, and the filtering; the result is [data] as line
    258 finds it. *)
Definition fetch_matching (tag_families : bool) (base_url : string) (t : object_type)
  (max_detailed : Z) (f : filters) : M (list json) :=
  data <- _get_data (urljoin base_url (type_name t)) ;;
  given <- read_list (explicit f) ;;
  explicit_filters <- new_list given ;;
  let regex_filters := regexes f in
  working <- read_list explicit_filters ;;
  if max_detailed <? len working
  then raise (Exception (too_many_message t max_detailed))
  else
    lines <- as_list data ;;
    select tag_families t explicit_filters regex_filters lines.

(** [tag_families] stands for
    [_is_affirmative(instance.get("tag_families", False))]; the proxy
    settings of [get_instance_proxy] only shape the request. *)
Definition get_stats (tag_families : bool) (base_url : string) (t : object_type)
  (max_detailed : Z) (f : filters) : M unit :=
  data <- fetch_matching tag_families base_url t max_detailed f ;;
  report base_url t max_detailed data.

(** ** [_check_aliveness] *)

Definition json_eqb_str (v : json) (s : string) : bool :=
  match v with
  | JStr s' => String.eqb s' s
  | _ => false
  end.

(** [v['name']] *)
Definition py_item (v : json) (key : string) : result json :=
  match v with
  | JObj fields =>
      match dict_lookup key fields with
      | Some x => Ret x
      | None => Raise KeyError
      end
  | _ => Raise TypeError
  end.

(** [[v['name'] for v in vhosts_response]] *)
Fixpoint vhost_names (vs : list json) : M (list json) :=
  match vs with
  | [] => ret []
  | v :: rest =>
      n <- lift (py_item v "name") ;;
      ns <- vhost_names rest ;;
      ret (n :: ns)
  end.

(** The body of the loop over the vhosts. *)
Definition check_vhost (base_url : string) (vhost : json) : M unit :=
  let tags := ["vhost:" +:+ format_s vhost] in
  quoted <- match vhost with
            | JStr s => ret (quote_plus s)
            | _ => raise TypeError
            end ;;
  let path := "aliveness-test/" +:+ quoted in
  let aliveness_url := urljoin base_url path in
  aliveness_response <- _get_data aliveness_url ;;
  let message := "Response from aliveness API: " +:+ format_s aliveness_response in
  st <- lift (py_get aliveness_response "status") ;;
  let status := if json_eqb_str st "ok" then OK else CRITICAL in
  emit (ServiceCheck "rabbitmq.aliveness" status tags (Some message)).

Definition _check_aliveness (base_url : string) (vhosts : option (list string))
  : M unit :=
  vhosts <- match vhosts with
            | Some (v :: vs) => ret (map JStr (v :: vs))
            | _ =>
                vhosts_response <- _get_data (urljoin base_url "vhosts") ;;
                vs <- as_list vhosts_response ;;
                vhost_names vs
            end ;;
  for_each vhosts (check_vhost base_url).

(** ** [_get_config] and [check] *)

(** A value of the instance for a list of names or of patterns: a list
    object, or a value that is no list. *)
Inductive setting :=
| ListObject (l : loc)
| NotAList.

(** One entry of [instances] in the YAML file.  The URL and the limits
    are the values of the file, of whatever type; [ssl_verify] and
    [tag_families] are the flags after [_is_affirmative]. *)
Record instance := {
  rabbitmq_api_url : option json;
  ssl_verify : bool;
  max_detailed_queues : option json;
  max_detailed_nodes : option json;
  queues : option setting;
  queues_regexes : option setting;
  nodes : option setting;
  nodes_regexes : option setting;
  vhosts : option (list string);
  tag_families : bool
}.

Record config := {
  base_url : string;
  max_detailed : object_type -> Z;
  specified : object_type -> filters
}.

Definition dquote : string := String (ascii_of_nat 34) EmptyString.

Fixpoint endswith_slash (s : string) : bool :=
  match s with
  | EmptyString => false
  | String c EmptyString => Ascii.eqb c "/"
  | String _ rest => endswith_slash rest
  end.

(** [int(value)]: a float is cut towards zero. *)
Definition py_int (v : json) : result Z :=
  match v with
  | JNum (PyInt z) => Ret z
  | JNum (PyFloat q) => Ret (Z.quot (Qnum q) (Z.pos (Qden q)))
  | JBool b => Ret (if b then 1 else 0)
  | JStr s =>
      match int_of_str s with
      | Some z => Ret z
      | None => Raise ValueError
      end
  | _ => Raise TypeError
  end.

(** [instance.get(key, [])] *)
Definition get_setting (o : option setting) : M setting :=
  match o with
  | Some v => ret v
  | None => l <- new_list [] ;; ret (ListObject l)
  end.

(** [if type(filter_objects) != list: raise TypeError(...)] *)
Definition list_of (v : setting) : M loc :=
  match v with
  | ListObject l => ret l
  | NotAList => raise TypeError
  end.

(** The user name, the password and the proxy flag only shape the
    requests.  A URL that is true for Python and is no string has no
    [endswith]. *)
Definition _get_config (inst : instance) : M config :=
  url <- match rabbitmq_api_url inst with
         | Some v =>
             if truthy v
             then match v with
                  | JStr url => ret url
                  | _ => raise AttributeError
                  end
             else raise (Exception ("Missing " +:+ dquote +:+ "rabbitmq_api_url" +:+ dquote
                                      +:+ " in RabbitMQ config."))
         | None =>
             raise (Exception ("Missing " +:+ dquote +:+ "rabbitmq_api_url" +:+ dquote
                                 +:+ " in RabbitMQ config."))
         end ;;
  let base_url := if endswith_slash url then url else url +:+ "/" in
  (if negb (ssl_verify inst) && String.eqb (url_scheme base_url) "https"
   then emit (LogWarning ("Skipping SSL cert validation for " +:+ base_url
                            +:+ " based on configuration."))
   else ret tt) ;;
  max_queues <- lift (py_int (default (JNum (PyInt MAX_DETAILED_QUEUES))
                                (max_detailed_queues inst))) ;;
  max_nodes <- lift (py_int (default (JNum (PyInt MAX_DETAILED_NODES))
                               (max_detailed_nodes inst))) ;;
  q <- get_setting (queues inst) ;;
  qr <- get_setting (queues_regexes inst) ;;
  n <- get_setting (nodes inst) ;;
  nr <- get_setting (nodes_regexes inst) ;;
  q <- list_of q ;;
  qr <- list_of qr ;;
  n <- list_of n ;;
  nr <- list_of nr ;;
  ret {| base_url := base_url;
         max_detailed := fun t => match t with
                                  | QUEUE_TYPE => max_queues
                                  | NODE_TYPE => max_nodes
                                  end;
         specified := fun t => match t with
                               | QUEUE_TYPE => {| explicit := q; regexes := qr |}
                               | NODE_TYPE => {| explicit := n; regexes := nr |}
                               end |}.

(** The three collection steps inside the [try] of [check]. *)
Definition collect (inst : instance) (c : config) : M unit :=
  get_stats (tag_families inst) (base_url c) QUEUE_TYPE
    (max_detailed c QUEUE_TYPE) (specified c QUEUE_TYPE) ;;
  get_stats (tag_families inst) (base_url c) NODE_TYPE
    (max_detailed c NODE_TYPE) (specified c NODE_TYPE) ;;
  _check_aliveness (base_url c) (vhosts inst).

Definition status_error (msg : string) : M unit :=
  let msg := "Error executing check: " +:+ msg in
  emit (ServiceCheck "rabbitmq.status" CRITICAL [] (Some msg)) ;;
  emit (LogError msg).

Definition check (inst : instance) : M unit :=
  c <- _get_config inst ;;
  try_except_RabbitMQException
    (collect inst c ;;
     emit (ServiceCheck "rabbitmq.status" OK [] None))
    status_error.

End Check.

(** ** Vocabulary of the properties *)

(** A check instance as [__init__] leaves it. *)
Definition init_state (h : list (list string)) : state :=
  {| heap := h; already_alerted := []; trace := [] |}.

(** A sequence of calls of [alert], as the invocations of a process make
    them one after the other: [(base_url, object_type, max_detailed, size)]. *)
Definition alert_calls `{Env} (calls : list (string * object_type * Z * Z)) : M unit :=
  for_each calls (fun '(b, t, max_detailed, size) => alert b max_detailed size t).

Definition object_type_eqb (t u : object_type) : bool :=
  match t, u with
  | QUEUE_TYPE, QUEUE_TYPE | NODE_TYPE, NODE_TYPE => true
  | _, _ => false
  end.

(** The events of a trace that warn about [t] on [b]. *)
Definition is_alert_for (b : string) (t : object_type) (e : effect) : bool :=
  match e with
  | Event ev =>
      String.eqb (event_object ev) ("rabbitmq.limit." +:+ type_name t)
      && String.eqb (alert_type ev) "warning"
      && match tags ev with
         | tg :: _ => String.eqb tg ("base_url:" +:+ b)
         | [] => false
         end
  | _ => false
  end.

Definition alerts_for (b : string) (t : object_type) (tr : list effect) : nat :=
  length (filter (fun e => is_alert_for b t e = true) tr).

(** What [already_alerted] remembers is what the trace shows. *)
Definition alerted_as_traced (s : state) : Prop :=
  forall b t,
    alerts_for b t (trace s) = if mem (alert_key b t) (already_alerted s) then 1%nat else 0%nat.

Definition called_for (b : string) (t : object_type)
  (calls : list (string * object_type * Z * Z)) : bool :=
  existsb (fun '(b', t', _, _) => String.eqb b' b && object_type_eqb t' t) calls.

(** A path that leads nowhere in a record: a key before the last is not
    in the mapping reached so far, or every key before the last leads to a
    mapping and the last key is not in it or holds [null]. *)
Fixpoint missing_path (fields : list (string * json)) (keys : list string) : bool :=
  match keys with
  | [] => false
  | k :: ks =>
      match ks with
      | [] =>
          match dict_lookup k fields with
          | None | Some JNull => true
          | Some _ => false
          end
      | _ :: _ =>
          match dict_lookup k fields with
          | None => true
          | Some (JObj sub) => missing_path sub ks
          | Some _ => false
          end
      end
  end.

(** A computation [c] keeps the part [f] of the state. *)
Definition keeps {A B} (f : state -> B) (c : M A) : Prop :=
  forall s, f (snd (c s)) = f s.

Definition whole (s : state) : state := s.

(** The heap but for the list object at [l]. *)
Definition heap_but (l : loc) (s : state) : list (list string) :=
  <[l := []]> (heap s).

(** The list object at [l], as [read_list] finds it. *)
Definition list_at (l : loc) (s : state) : list string :=
  default [] (heap s !! l).




(** A record as the filtering hands it on: itself, or itself with the
    family the regular expression captured. *)
Definition tagged (tag_families : bool) (r r' : json) : Prop :=
  r' = r \/ exists groups, r' = tag_family tag_families groups r.


(** A record with no name: the key is absent or holds [null]. *)
Definition nameless (r : json) : bool :=
  match r with
  | JObj fields =>
      match dict_lookup "name" fields with
      | None | Some JNull => true
      | Some _ => false
      end
  | _ => false
  end.

(** What [re.search] raises on a subject that is not a string. *)
Definition search_error `{Env} (p : string) : exn :=
  match re_compile p with
  | Some _ => TypeError
  | None => ReError
  end.

(** The state once the request for [url] has gone out. *)
Definition requested (url : string) (s : state) : state :=
  {| heap := heap s;
     already_alerted := already_alerted s;
     trace := trace s ++ [HttpGet url] |}.

(** The state once [get_stats] has requested [url] and copied the explicit
    list [given] into a new list object. *)
Definition copied (url : string) (given : list string) (s : state) : state :=
  {| heap := heap s ++ [given];
     already_alerted := already_alerted s;
     trace := trace s ++ [HttpGet url] |}.

(** What [_get_data] raises when the reply is not a JSON document. *)
Definition collection_error (url : string) (reply : http_reply) : exn :=
  match reply with
  | Response _ => Exception ""
  | RequestFailed detail =>
      RabbitMQException ("Cannot open RabbitMQ API url: " +:+ url +:+ " " +:+ detail)
  | InvalidJson detail =>
      RabbitMQException
        ("Cannot parse JSON response from API url: " +:+ url +:+ " " +:+ detail)
  end.

Definition is_response (reply : http_reply) : bool :=
  match reply with
  | Response _ => true
  | _ => false
  end.

(** The state after lines 258 to 260, and after lines 262 to 265. *)
Definition after_alert `{Env} (b : string) (t : object_type) (max_detailed size : Z)
  (s : state) : state :=
  if above_alert_threshold size max_detailed
  then snd (alert b max_detailed size t s)
  else s.

Definition after_warning (t : object_type) (max_detailed size : Z) (s : state) : state :=
  if max_detailed <? size
  then snd (emit (Warning (too_many_warning t)) s)
  else s.

(** The URL [_check_aliveness] requests for a vhost. *)
Definition aliveness_url `{Env} (base : string) (vhost : string) : string :=
  urljoin base ("aliveness-test/" +:+ quote_plus vhost).

(** The [status] of an aliveness response is the string [ok]. *)
Definition status_ok (fields : list (string * json)) : bool :=
  match dict_lookup "status" fields with
  | Some (JStr st) => String.eqb st "ok"
  | _ => false
  end.

(** What the check of one vhost sends when the reply is a JSON object. *)
Definition aliveness_effects `{Env} (base : string) (vhost : string) : list effect :=
  match http_get (aliveness_url base vhost) with
  | Response (JObj fields) =>
      [ HttpGet (aliveness_url base vhost);
        ServiceCheck "rabbitmq.aliveness"
          (if status_ok fields then OK else CRITICAL)
          ["vhost:" +:+ vhost]
          (Some ("Response from aliveness API: " +:+ py_repr (JObj fields))) ]
  | _ => []
  end.

Definition replies_object `{Env} (base : string) (vhost : string) : bool :=
  match http_get (aliveness_url base vhost) with
  | Response (JObj _) => true
  | _ => false
  end.

(** The vhosts [_check_aliveness] goes through, and what it sends to have
    them: the configured ones when there are some, else the names of the
    listing of the server. *)
Definition checks_vhosts `{Env} (base : string) (configured : option (list string))
  (vhosts : list string) (asked : list effect) : Prop :=
  match configured with
  | Some (v :: vs) => vhosts = v :: vs /\ asked = []
  | _ =>
      exists listed,
        http_get (urljoin base "vhosts") = Response (JArr listed)
        /\ Forall2 (fun entry name => py_item entry "name" = Ret (JStr name)) listed vhosts
        /\ asked = [HttpGet (urljoin base "vhosts")]
  end.

Definition sent (es : list effect) (s : state) : state :=
  {| heap := heap s;
     already_alerted := already_alerted s;
     trace := trace s ++ es |}.

(** The state once [check] has reported the message of a
    [RabbitMQException]. *)
Definition status_reported (msg : string) (s : state) : state :=
  sent [ ServiceCheck "rabbitmq.status" CRITICAL [] (Some ("Error executing check: " +:+ msg));
         LogError ("Error executing check: " +:+ msg) ] s.

Definition error_text (e : exn) : string :=
  match e with
  | RabbitMQException msg | Exception msg => msg
  | _ => ""
  end.

(** The events and warnings of a trace. *)
Definition is_alarm (e : effect) : bool :=
  match e with
  | Event _ | Warning _ => true
  | _ => false
  end.

Definition alarms (s : state) : list effect := List.filter is_alarm (trace s).

(** The comparison of line 258 as Python computes it: the product of the
    double nearest to 0.9 and the limit, rounded to a double, against the
    number of records. *)
Definition ALERT_THRESHOLD : float := 0.9%float.

Definition float_of_Z (z : Z) : float := PrimFloat.of_uint63 (Uint63.of_Z z).

Definition above_alert_threshold_binary64 (size max_detailed : Z) : bool :=
  PrimFloat.ltb (PrimFloat.mul ALERT_THRESHOLD (float_of_Z max_detailed))
    (float_of_Z size).

Definition threshold_grid (n : nat) : bool :=
  let upto := map Z.of_nat (seq 0 n) in
  forallb
    (fun m =>
       forallb
         (fun k =>
            Bool.eqb (above_alert_threshold k m) (above_alert_threshold_binary64 k m))
         upto)
    upto.

(** A double that is an integer, read back from its significand and its
    exponent. *)
Definition Z_of_float (f : float) : Z :=
  let (m, e) := PrimFloat.frshiftexp f in
  Z.shiftl (Uint63.to_Z (PrimFloat.normfr_mantissa m)) (Uint63.to_Z e - 2101 - 53).

(** [round_binary64] against the conversion of the machine, on the [n]
    integers from [from] on. *)
Definition rounding_grid (from : Z) (n : nat) : bool :=
  forallb
    (fun i => Z_of_float (float_of_Z (from + i)) =? round_binary64 (from + i))
    (map Z.of_nat (seq 0 n)).

(** ** An environment to run the model in

    A regular expression engine for patterns without metacharacters (the
    pattern is searched as a substring and has no group), [float] and
    [int] for strings of decimal digits, and a web server given as a
    function of the URL. *)

Definition literal_search (p s : string) : option (list json) :=
  match String.index 0 p s with
  | Some _ => Some []
  | None => None
  end.

Definition digits_to_Q (s : string) : option Q :=
  match NilZero.uint_of_string s with
  | Some u => Some (inject_Z (Z.of_uint u))
  | None => None
  end.

Definition digits_to_Z (s : string) : option Z :=
  match NilZero.uint_of_string s with
  | Some u => Some (Z.of_uint u)
  | None => None
  end.

Definition simple_repr (v : json) : string :=
  match v with
  | JNull => "None"
  | JBool true => "True"
  | JBool false => "False"
  | JNum (PyInt z) => str_of_Z z
  | JStr s => s
  | JArr [] => "[]"
  | JObj [] => "{}"
  | _ => "<value>"
  end.

Definition scheme_of (url : string) : string :=
  if String.prefix "https:" url then "https" else "http".

Definition demo_env (web : string -> http_reply) : Env :=
  {| urljoin := fun base path => base +:+ path;
     url_scheme := scheme_of;
     quote_plus := fun s => if String.eqb s "/" then "%2F" else s;
     re_compile := fun p => Some (literal_search p);
     float_of_str := digits_to_Q;
     int_of_str := digits_to_Z;
     py_repr := simple_repr;
     http_get := web;
     hostname := "agent-1";
     time_now := 1478217600 |}.

(** ** Inputs the properties are run on *)

Definition no_web (url : string) : http_reply := RequestFailed "connection refused".

Definition queue (name vhost : string) (messages : Z) : json :=
  JObj [("name", JStr name); ("vhost", JStr vhost); ("messages", JNum (PyInt messages))].

(** Ninety-five queues, [q1] to [q95]. *)
Definition queues95 : list json :=
  map (fun i => queue ("q" +:+ str_of_Z (Z.of_nat i)) "/" 1) (seq 1 95).

Definition web_of (routes : list (string * http_reply)) (url : string) : http_reply :=
  match List.find (fun route => String.eqb (fst route) url) routes with
  | Some route => snd route
  | None => RequestFailed "404 Client Error: Not Found"
  end.

(** An instance whose two lists of names are the list objects 0 and 1. *)
Definition two_lists (names patterns : list string) : state :=
  {| heap := [names; patterns]; already_alerted := []; trace := [] |}.

Definition the_lists : filters := {| explicit := 0%nat; regexes := 1%nat |}.

(** A server that answers for the nodes and the vhost [/] but not for the
    queues. *)
Definition queues_down : string -> http_reply :=
  web_of [ ("http://mq/api/queues", RequestFailed "504 Server Error: Gateway Timeout");
           ("http://mq/api/nodes",
            Response (JArr [JObj [("name", JStr "rabbit@mq"); ("fd_used", JNum (PyInt 31))]]));
           ("http://mq/api/aliveness-test/%2F", Response (JObj [("status", JStr "ok")])) ].

Definition one_instance : instance :=
  {| rabbitmq_api_url := Some (JStr "http://mq/api");
     ssl_verify := true;
     max_detailed_queues := None;
     max_detailed_nodes := None;
     queues := None;
     queues_regexes := None;
     nodes := None;
     nodes_regexes := None;
     vhosts := Some ["/"];
     tag_families := false |}.

(** A server that answers for the queues and the nodes and knows no
    vhost, and one that answers for the vhost [/] too. *)
Definition aliveness_down : string -> http_reply :=
  web_of [ ("http://mq/api/queues", Response (JArr []));
           ("http://mq/api/nodes",
            Response (JArr [JObj [("name", JStr "rabbit@mq"); ("fd_used", JNum (PyInt 31))]])) ].

Definition all_up : string -> http_reply :=
  web_of [ ("http://mq/api/queues", Response (JArr []));
           ("http://mq/api/nodes",
            Response (JArr [JObj [("name", JStr "rabbit@mq"); ("fd_used", JNum (PyInt 31))]]));
           ("http://mq/api/aliveness-test/%2F", Response (JObj [("status", JStr "ok")])) ].

Definition aliveness_down_message : string :=
  "Error executing check: Cannot open RabbitMQ API url: http://mq/api/aliveness-test/%2F 404 Client Error: Not Found".

Definition queues_down_message : string :=
  "Error executing check: Cannot open RabbitMQ API url: http://mq/api/queues 504 Server Error: Gateway Timeout".

(** ** Vocabulary of the further properties *)

(** A computation [c] takes every state to one related to it by [R]. *)
Definition preserves {A} (R : state -> state -> Prop) (c : M A) : Prop :=
  forall s, R s (snd (c s)).

(** [s'] has what [s] had sent, and after it only effects that satisfy [Q]. *)
Definition sends (Q : effect -> Prop) (s s' : state) : Prop :=
  exists new, trace s' = trace s ++ new /\ Forall Q new.

(** Every list object of [s] is in [s'] as it was. *)
Definition grows (s s' : state) : Prop :=
  forall (l : loc) (xs : list string), heap s !! l = Some xs -> heap s' !! l = Some xs.

(** [s'] satisfies [I] if [s] did. *)
Definition maintains (I : state -> Prop) (s s' : state) : Prop := I s -> I s'.

(** The names of the gauges of an object type. *)
Definition gauge_name (t : object_type) (a : string * string * operation) : string :=
  "rabbitmq." +:+ METRIC_SUFFIX t +:+ "." +:+ snd (fst a).

(** What [_get_metrics] may send for a record whose tags are [tags]. *)
Definition metrics_effect (t : object_type) (tags : list string) (e : effect) : Prop :=
  match e with
  | Gauge name _ gtags => In name (map (gauge_name t) (ATTRIBUTES t)) /\ gtags = tags
  | LogDebug _ => True
  | _ => False
  end.

(** What [get_stats] may send after its request. *)
Definition report_effect `{Env} (base : string) (t : object_type) (e : effect) : Prop :=
  match e with
  | Event ev => exists max_detailed size, ev = alert_event base max_detailed size t
  | Warning msg => msg = too_many_warning t
  | Gauge name _ _ => In name (map (gauge_name t) (ATTRIBUTES t))
  | LogDebug _ => True
  | _ => False
  end.

(** What [_check_aliveness] may send. *)
Definition aliveness_effect (e : effect) : Prop :=
  match e with
  | HttpGet _ => True
  | ServiceCheck name _ _ _ => name = "rabbitmq.aliveness"
  | _ => False
  end.

Definition is_status_check (e : effect) : bool :=
  match e with
  | ServiceCheck name _ _ _ => String.eqb name "rabbitmq.status"
  | _ => false
  end.

Definition is_request (e : effect) : bool :=
  match e with
  | HttpGet _ => true
  | _ => false
  end.

Definition is_event (e : effect) : bool :=
  match e with
  | Event _ => true
  | _ => false
  end.

(** The part of the trace that satisfies [P]. *)
Definition shown (P : effect -> bool) (s : state) : list effect :=
  List.filter P (trace s).

(** What [check] may send before it reports the status. *)
Definition collect_effect `{Env} (base : string) (e : effect) : Prop :=
  report_effect base QUEUE_TYPE e \/ report_effect base NODE_TYPE e \/ aliveness_effect e.

(** The state after the invocations of [check] on the instances of a
    list, one after the other, whether they return or raise. *)
Definition invocations `{Env} (insts : list instance) (s : state) : state :=
  fold_left (fun s inst => snd (check inst s)) insts s.

(** The list object a filter of the configuration refers to: the one the
    instance names, or else a new, empty one. *)
Definition refers (o : option setting) (l : loc) (s s' : state) : Prop :=
  match o with
  | Some (ListObject l0) => l = l0
  | Some NotAList => False
  | None => heap s !! l = None /\ heap s' !! l = Some []
  end.

(** The filters of the instance are lists, where it gives them. *)
Definition is_list (o : option setting) : bool :=
  match o with
  | Some NotAList => false
  | _ => true
  end.

Definition lists_given (inst : instance) : bool :=
  is_list (queues inst) && is_list (queues_regexes inst)
  && is_list (nodes inst) && is_list (nodes_regexes inst).

Definition missing_url_message : string :=
  "Missing " +:+ dquote +:+ "rabbitmq_api_url" +:+ dquote +:+ " in RabbitMQ config.".

Definition is_log_warning (e : effect) : Prop :=
  match e with
  | LogWarning _ => True
  | _ => False
  end.

(** The tags of a record, as the first loop of [_get_metrics] builds them. *)
Definition tags_of `{Env} (fields : list (string * json))
  (tag_list : list (string * string)) : list string :=
  flat_map
    (fun '(k, label) =>
       match dict_lookup k fields with
       | Some v => if truthy v then ["rabbitmq_" +:+ label +:+ ":" +:+ format_s v] else []
       | None => []
       end)
    tag_list.

(** A pattern that compiles and is not found in [n]. *)
Definition no_match `{Env} (n : string) (p : string) : Prop :=
  exists search, re_compile p = Some search /\ search n = None.

(** The state once the entry [x] has been taken out of the list at [l]. *)
Definition removed (l : loc) (x : string) (s : state) : state :=
  {| heap := <[l := remove_first x (list_at l s)]> (heap s);
     already_alerted := already_alerted s;
     trace := trace s |}.

(** ** Further inputs *)

(** A regular expression engine for patterns [(literal)] as well: the
    literal is searched as a substring and is the one group of a match. *)
Definition group_search (p s : string) : option (list json) :=
  match p with
  | String "("%char rest =>
      let literal := String.substring 0 (String.length rest - 1) rest in
      match String.index 0 literal s with
      | Some _ => Some [JStr literal]
      | None => None
      end
  | _ => literal_search p s
  end.

Definition group_env (web : string -> http_reply) : Env :=
  {| urljoin := fun base path => base +:+ path;
     url_scheme := scheme_of;
     quote_plus := fun s => if String.eqb s "/" then "%2F" else s;
     re_compile := fun p => Some (group_search p);
     float_of_str := digits_to_Q;
     int_of_str := digits_to_Z;
     py_repr := simple_repr;
     http_get := web;
     hostname := "agent-1";
     time_now := 1478217600 |}.

(** An instance that lists its queues in the list object 0 and has no
    other list. *)
Definition listing_instance : instance :=
  {| rabbitmq_api_url := Some (JStr "http://mq/api");
     ssl_verify := true;
     max_detailed_queues := Some (JNum (PyInt 50));
     max_detailed_nodes := None;
     queues := Some (ListObject 0%nat);
     queues_regexes := None;
     nodes := None;
     nodes_regexes := None;
     vhosts := Some ["/"];
     tag_families := false |}.


(** A server with two queues. *)
Definition two_queues : string -> http_reply :=
  web_of [("http://mq/api/queues", Response (JArr [queue "q1" "/" 5; queue "q2" "/" 12]))].

(** A server whose vhost [/] is alive and that knows no other. *)
Definition one_vhost : string -> http_reply :=
  web_of [ ("http://mq/api/aliveness-test/%2F", Response (JObj [("status", JStr "ok")])) ].

(** A server whose listing of the vhosts has an entry without a name. *)
Definition bad_listing : string -> http_reply :=
  web_of [ ("http://mq/api/vhosts",
            Response (JArr [JObj [("name", JStr "/")]; JObj [("tracing", JBool false)]])) ].

(** * Properties *)

(** ** Strings *)

Lemma list_ascii_app (a b : string) :
  list_ascii_of_string (a +:+ b) = list_ascii_of_string a ++ list_ascii_of_string b.
Proof. induction a as [|c a IH]; simpl; [reflexivity | now rewrite IH]. Qed.

Lemma list_ascii_inj (a b : string) :
  list_ascii_of_string a = list_ascii_of_string b -> a = b.
Proof.
  intros E. rewrite <- (string_of_list_ascii_of_string a),
    <- (string_of_list_ascii_of_string b). now rewrite E.
Qed.

Lemma append_inj_l (p a b : string) : p +:+ a = p +:+ b -> a = b.
Proof. induction p as [|c p IH]; simpl; intros E; [exact E | injection E; auto]. Qed.

Lemma append_inj_r (a b q : string) : a +:+ q = b +:+ q -> a = b.
Proof.
  intros E. apply list_ascii_inj.
  apply (f_equal list_ascii_of_string) in E. rewrite !list_ascii_app in E.
  now apply app_inv_tail in E.
Qed.

Lemma type_name_inj (t u : object_type) : type_name t = type_name u -> t = u.
Proof. destruct t, u; simpl; intros E; first [reflexivity | discriminate E]. Qed.

(** The key of [alert] determines the pair it was built from: no URL
    followed by [queues] is a URL followed by [nodes]. *)
Lemma alert_key_inj (b b' : string) (t t' : object_type) :
  alert_key b t = alert_key b' t' -> b = b' /\ t = t'.
Proof.
  unfold alert_key. intros E.
  destruct t, t'; simpl in E.
  - split; [now apply append_inj_r in E | reflexivity].
  - exfalso. apply (f_equal list_ascii_of_string) in E.
    rewrite !list_ascii_app in E. apply (f_equal (@rev ascii)) in E.
    rewrite !rev_app_distr in E. simpl in E. discriminate E.
  - exfalso. apply (f_equal list_ascii_of_string) in E.
    rewrite !list_ascii_app in E. apply (f_equal (@rev ascii)) in E.
    rewrite !rev_app_distr in E. simpl in E. discriminate E.
  - split; [now apply append_inj_r in E | reflexivity].
Qed.

Lemma mem_app (x : string) (xs ys : list string) :
  mem x (xs ++ ys) = mem x xs || mem x ys.
Proof. unfold mem. apply existsb_app. Qed.

Lemma mem_one (x y : string) : mem x [y] = String.eqb x y.
Proof. unfold mem. simpl. apply orb_false_r. Qed.

(** ** [alert] *)

Section AlertProperties.
Context `{Env}.

Lemma alert_first (b : string) (t : object_type) (max_detailed size : Z) (s : state) :
  mem (alert_key b t) (already_alerted s) = false ->
  alert b max_detailed size t s =
    (Ret tt, {| heap := heap s;
                already_alerted := already_alerted s ++ [alert_key b t];
                trace := trace s ++ [Event (alert_event b max_detailed size t)] |}).
Proof. intros E. unfold alert, bind, get_already_alerted. now rewrite E. Qed.

Lemma alert_again (b : string) (t : object_type) (max_detailed size : Z) (s : state) :
  mem (alert_key b t) (already_alerted s) = true ->
  alert b max_detailed size t s = (Ret tt, s).
Proof. intros E. unfold alert, bind, get_already_alerted. now rewrite E. Qed.

Lemma is_alert_for_event (b b' : string) (t t' : object_type) (m n : Z) :
  is_alert_for b t (Event (alert_event b' m n t')) =
    String.eqb (alert_key b' t') (alert_key b t).
Proof.
  unfold is_alert_for, alert_event. cbn [event_object alert_type tags].
  rewrite (String.eqb_refl "warning"), andb_true_r.
  destruct (String.eqb_spec (alert_key b' t') (alert_key b t)) as [E|N].
  - apply alert_key_inj in E as [-> ->]. now rewrite !String.eqb_refl.
  - destruct (String.eqb_spec ("rabbitmq.limit." +:+ type_name t')
                ("rabbitmq.limit." +:+ type_name t)) as [E1|]; [|reflexivity].
    destruct (String.eqb_spec ("base_url:" +:+ b') ("base_url:" +:+ b)) as [E2|];
      [|now rewrite andb_false_r].
    exfalso. apply N. apply append_inj_l in E1, E2. apply type_name_inj in E1.
    now subst.
Qed.

Lemma alerts_for_app (b : string) (t : object_type) (tr tr' : list effect) :
  alerts_for b t (tr ++ tr') = (alerts_for b t tr + alerts_for b t tr')%nat.
Proof. unfold alerts_for. now rewrite filter_app, length_app. Qed.

Lemma alerts_for_one (b : string) (t : object_type) (e : effect) :
  alerts_for b t [e] = if is_alert_for b t e then 1%nat else 0%nat.
Proof.
  unfold alerts_for. rewrite filter_cons, filter_nil.
  destruct (is_alert_for b t e).
  - now rewrite decide_True.
  - now rewrite decide_False.
Qed.

Lemma alert_keeps_record (b : string) (t : object_type) (m n : Z) (s : state) :
  alerted_as_traced s -> alerted_as_traced (snd (alert b m n t s)).
Proof.
  intros I. destruct (mem (alert_key b t) (already_alerted s)) eqn:E.
  - now rewrite alert_again.
  - rewrite alert_first by exact E. intros b0 t0. simpl.
    rewrite alerts_for_app, mem_app, I, alerts_for_one, is_alert_for_event.
    rewrite mem_one, (String.eqb_sym (alert_key b0 t0)).
    destruct (String.eqb_spec (alert_key b t) (alert_key b0 t0)) as [K|K].
    + now rewrite <- K, E.
    + destruct (mem (alert_key b0 t0) (already_alerted s)); simpl; lia.
Qed.

Lemma alert_returns (b : string) (t : object_type) (m n : Z) (s : state) :
  fst (alert b m n t s) = Ret tt.
Proof.
  destruct (mem (alert_key b t) (already_alerted s)) eqn:E.
  - now rewrite alert_again.
  - now rewrite alert_first.
Qed.

Lemma alert_remembers (b b0 : string) (t t0 : object_type) (m n : Z) (s : state) :
  mem (alert_key b0 t0) (already_alerted (snd (alert b m n t s))) =
    mem (alert_key b0 t0) (already_alerted s)
    || (String.eqb b b0 && object_type_eqb t t0).
Proof.
  assert (K : String.eqb (alert_key b0 t0) (alert_key b t)
              = String.eqb b b0 && object_type_eqb t t0).
  { destruct (String.eqb_spec (alert_key b0 t0) (alert_key b t)) as [E|N].
    - apply alert_key_inj in E as [-> ->]. rewrite String.eqb_refl. now destruct t.
    - destruct (String.eqb_spec b b0) as [->|]; [|reflexivity].
      destruct t, t0; simpl; try reflexivity; now contradiction N. }
  destruct (mem (alert_key b t) (already_alerted s)) eqn:E.
  - rewrite alert_again by exact E. simpl.
    rewrite <- K. destruct (String.eqb_spec (alert_key b0 t0) (alert_key b t)) as [Q|].
    + now rewrite Q, E.
    + now rewrite orb_false_r.
  - rewrite alert_first by exact E. simpl. now rewrite mem_app, mem_one, K.
Qed.

Lemma alert_calls_cons (b : string) (t : object_type) (m n : Z)
  (calls : list (string * object_type * Z * Z)) (s : state) :
  alert_calls ((b, t, m, n) :: calls) s = alert_calls calls (snd (alert b m n t s)).
Proof.
  unfold alert_calls. cbn [for_each]. unfold bind.
  pose proof (alert_returns b t m n s) as R.
  destruct (alert b m n t s) as [r s1]. simpl in R. now subst r.
Qed.

Lemma alert_calls_record (calls : list (string * object_type * Z * Z)) (s : state) :
  alerted_as_traced s ->
  alerted_as_traced (snd (alert_calls calls s))
  /\ forall b t,
       mem (alert_key b t) (already_alerted (snd (alert_calls calls s))) =
         mem (alert_key b t) (already_alerted s) || called_for b t calls.
Proof.
  revert s. induction calls as [|[[[b t] m] n] calls IH]; intros s I.
  - split; [exact I|]. intros. simpl. now rewrite orb_false_r.
  - rewrite alert_calls_cons.
    destruct (IH _ (alert_keeps_record b t m n s I)) as [I2 Q2]. split; [exact I2|].
    intros b0 t0. rewrite Q2, alert_remembers. cbn [called_for existsb].
    now rewrite orb_assoc.
Qed.

(** C4. [alert] posts at most one event for a key, the base URL followed
    by the object type, as long as the check instance lives: a call for a
    key that [already_alerted] does not hold posts one event of alert type
    [warning] and records the key; a call for a key it holds does nothing;
    and over any sequence of calls made on an instance since [__init__],
    the events posted for a pair of base URL and object type are exactly
    one when the pair was called and none otherwise, whatever the other
    calls were. *)
Theorem alert_once_per_key :
  (forall b t m n s,
      mem (alert_key b t) (already_alerted s) = false ->
      alert b m n t s =
        (Ret tt, {| heap := heap s;
                    already_alerted := already_alerted s ++ [alert_key b t];
                    trace := trace s ++ [Event (alert_event b m n t)] |})
      /\ alert_type (alert_event b m n t) = "warning")
  /\ (forall b t m n s,
         mem (alert_key b t) (already_alerted s) = true ->
         alert b m n t s = (Ret tt, s))
  /\ (forall calls h b t,
         alerts_for b t (trace (snd (alert_calls calls (init_state h)))) =
           if called_for b t calls then 1%nat else 0%nat).
Proof.
  split; [|split].
  - intros b t m n s E. split; [now apply alert_first | reflexivity].
  - intros b t m n s E. now apply alert_again.
  - intros calls h b t.
    assert (I : alerted_as_traced (init_state h)) by (intros ? ?; reflexivity).
    destruct (alert_calls_record calls _ I) as [I' Q].
    rewrite I', Q. reflexivity.
Qed.

End AlertProperties.

(** Two checks of [http://mq/api/] and one of another server: the second
    call for the queues of the first server posts nothing. *)
Lemma alert_once_per_key_witness :
  let env := demo_env (fun _ => RequestFailed "") in
  let calls := [ ("http://mq/api/", QUEUE_TYPE, 100, 95);
                 ("http://mq/api/", NODE_TYPE, 10, 10);
                 ("http://mq/api/", QUEUE_TYPE, 100, 97);
                 ("http://other/api/", QUEUE_TYPE, 100, 99) ] in
  alerts_for "http://mq/api/" QUEUE_TYPE
    (trace (snd (@alert_calls env calls (init_state [])))) = 1%nat
  /\ @alert env "http://mq/api/" 100 97 QUEUE_TYPE
       {| heap := []; already_alerted := ["http://mq/api/queues"]; trace := [] |}
     = (Ret tt, {| heap := []; already_alerted := ["http://mq/api/queues"]; trace := [] |}).
Proof.
  intros env calls.
  destruct (@alert_once_per_key env) as (_ & again & counted).
  split.
  - exact (counted calls [] "http://mq/api/" QUEUE_TYPE).
  - apply again. reflexivity.
Defined.

(** ** [_get_metrics] *)

Section MetricsProperties.
Context `{Env}.

Lemma for_each_cons {A} (x : A) (l : list A) (body : A -> M unit) (s : state) :
  for_each (x :: l) body s =
    match body x s with
    | (Ret _, s') => for_each l body s'
    | (Raise e, s') => (Raise e, s')
    end.
Proof. reflexivity. Qed.

(** A turn of a loop that returns without touching the state can be left
    out of the loop. *)
Lemma for_each_skip {A} (before after : list A) (x : A) (body : A -> M unit) :
  (forall s, body x s = (Ret tt, s)) ->
  forall s, for_each (before ++ x :: after) body s = for_each (before ++ after) body s.
Proof.
  intros Hx. induction before as [|y before IH]; intros s.
  - simpl app. now rewrite for_each_cons, Hx.
  - simpl app. rewrite !for_each_cons.
    destruct (body y s) as [[[]|e] s']; [apply IH | reflexivity].
Qed.

Lemma missing_path_empty (k : string) (keys : list string) :
  missing_path [] (k :: keys) = true.
Proof. now destruct keys. Qed.

Lemma missing_path_value (keys : list string) :
  forall fields s,
    missing_path fields keys = true ->
    (root <- walk (JObj fields) (removelast keys) ;;
     lift (py_get root (List.last keys ""))) s = (Ret JNull, s).
Proof.
  induction keys as [|k keys IH]; intros fields s Hm; [discriminate Hm|].
  destruct keys as [|k' keys].
  - simpl in Hm |- *. unfold bind, ret, lift. simpl.
    destruct (dict_lookup k fields) as [[]|]; first [reflexivity | discriminate Hm].
  - change (removelast (k :: k' :: keys)) with (k :: removelast (k' :: keys)).
    change (List.last (k :: k' :: keys) "") with (List.last (k' :: keys) "").
    cbn [walk]. unfold bind at 2. unfold lift at 1. cbn [py_get_default].
    cbn [missing_path] in Hm.
    destruct (dict_lookup k fields) as [v|]; cbn [default].
    + destruct v; try discriminate Hm. now apply IH.
    + apply IH. apply missing_path_empty.
Qed.

Lemma get_metric_missing (fields : list (string * json)) (t : object_type)
  (tags : list string) (attribute metric_name : string) (op : operation) (s : state) :
  missing_path fields (split_on "/" attribute) = true ->
  get_metric (JObj fields) t tags (attribute, metric_name, op) s = (Ret tt, s).
Proof.
  intros Hm. unfold get_metric, attribute_value. unfold bind at 1.
  now rewrite (missing_path_value _ _ s Hm).
Qed.

(** C6. An attribute whose path leads nowhere in the record, because a key
    before the last is absent or because the last key is absent or holds
    [null], gives no gauge and raises nothing: its turn of the loop returns
    and leaves the state, hence everything sent so far, as it was; and the
    loop over the attributes, in [_get_metrics] as over any list of
    attributes, goes exactly as it goes without this attribute. *)
Theorem missing_attribute_is_skipped
  (fields : list (string * json)) (t : object_type)
  (attribute metric_name : string) (op : operation) :
  missing_path fields (split_on "/" attribute) = true ->
  (forall tags s,
      get_metric (JObj fields) t tags (attribute, metric_name, op) s = (Ret tt, s))
  /\ (forall tags before after s,
         for_each (before ++ (attribute, metric_name, op) :: after)
           (get_metric (JObj fields) t tags) s =
         for_each (before ++ after) (get_metric (JObj fields) t tags) s)
  /\ (forall before after s,
         ATTRIBUTES t = before ++ (attribute, metric_name, op) :: after ->
         _get_metrics (JObj fields) t s =
           (tags <- collect_tags (JObj fields) (TAGS_MAP t) [] ;;
            for_each (before ++ after) (get_metric (JObj fields) t tags)) s).
Proof.
  intros Hm.
  assert (Skip : forall tags s,
             get_metric (JObj fields) t tags (attribute, metric_name, op) s = (Ret tt, s))
    by (intros; now apply get_metric_missing).
  split; [exact Skip | split].
  - intros tags before after s. now apply for_each_skip.
  - intros before after s E. unfold _get_metrics, bind. rewrite E.
    destruct (collect_tags (JObj fields) (TAGS_MAP t) [] s) as [[tags|e] s'];
      [now apply for_each_skip | reflexivity].
Qed.

Lemma get_metric_ValueError (data : json) (t : object_type) (tags : list string)
  (attribute metric_name : string) (op : operation) (value : json) (s : state) :
  attribute_value data attribute s = (Ret value, s) ->
  is_None value = false ->
  apply_operation op value = Raise ValueError ->
  get_metric data t tags (attribute, metric_name, op) s =
    emit (log_debug_ValueError t attribute value tags) s.
Proof.
  intros Hv Hn Ho. unfold get_metric. unfold bind at 1. rewrite Hv, Hn.
  unfold try_except_ValueError, bind, lift. now rewrite Ho.
Qed.

(** Only [float] on a string raises [ValueError]. *)
Lemma apply_operation_ValueError (op : operation) (value : json) :
  apply_operation op value = Raise ValueError <->
  op = op_float /\ exists str, value = JStr str /\ float_of_str str = None.
Proof.
  split.
  - destruct op, value as [| |[]| | |]; simpl; intros E; try discriminate E.
    + unfold float_of_int in E. destruct (Z.abs z <? _); discriminate E.
    + destruct (float_of_str s) eqn:F; [discriminate E|]. eauto.
  - intros (-> & str & -> & F). simpl. now rewrite F.
Qed.

(** C7, as the code has it. When the value of an attribute is present and
    the transform raises [ValueError] on it, which only [float] on a string
    that is not a number does, the exception is caught: the turn of the
    loop returns, having sent one debug line and no gauge, and the loop
    goes on with the attributes that follow. *)
Theorem value_error_is_caught
  (data : json) (t : object_type) (tags : list string)
  (attribute metric_name : string) (op : operation) (value : json) :
  (forall s, attribute_value data attribute s = (Ret value, s)) ->
  is_None value = false ->
  apply_operation op value = Raise ValueError ->
  forall s,
    let logged :=
      {| heap := heap s;
         already_alerted := already_alerted s;
         trace := trace s ++ [log_debug_ValueError t attribute value tags] |} in
    get_metric data t tags (attribute, metric_name, op) s = (Ret tt, logged)
    /\ (forall after,
           for_each ((attribute, metric_name, op) :: after) (get_metric data t tags) s =
           for_each after (get_metric data t tags) logged)
    /\ op = op_float
    /\ exists str, value = JStr str /\ float_of_str str = None.
Proof.
  intros Hv Hn Ho s logged.
  assert (E : get_metric data t tags (attribute, metric_name, op) s = (Ret tt, logged))
    by (now rewrite (get_metric_ValueError _ _ _ _ _ _ value s (Hv s) Hn Ho)).
  split; [exact E | split].
  - intros after. now rewrite for_each_cons, E.
  - now apply apply_operation_ValueError.
Qed.

End MetricsProperties.

(** A queue that never saw a message has no [message_stats]: the gauges
    of the rates are left out. *)
Lemma missing_attribute_is_skipped_witness :
  let env := demo_env (fun _ => RequestFailed "") in
  let fields := [("name", JStr "q1"); ("messages", JNum (PyInt 5))] in
  @get_metric env (JObj fields) QUEUE_TYPE ["rabbitmq_queue:q1"]
    ("message_stats/ack_details/rate", "messages.ack.rate", op_float) (init_state [])
  = (Ret tt, init_state [])
  /\ @_get_metrics env (JObj fields) QUEUE_TYPE (init_state []) =
       (Ret tt,
        sent [Gauge "rabbitmq.queue.messages" (PyFloat (inject_Z 5)) ["rabbitmq_queue:q1"]]
          (init_state [])).
Proof.
  intros env fields. split; [|reflexivity].
  exact (proj1 (@missing_attribute_is_skipped env fields QUEUE_TYPE
                  "message_stats/ack_details/rate" "messages.ack.rate" op_float
                  eq_refl) ["rabbitmq_queue:q1"] (init_state [])).
Defined.

(** A queue whose [consumer_utilisation] is the empty string, as RabbitMQ
    reports it for a queue without consumers: the gauge of [messages] is
    still sent. *)
Lemma value_error_is_caught_witness :
  let env := demo_env (fun _ => RequestFailed "") in
  let data := JObj [("name", JStr "q1"); ("consumer_utilisation", JStr "");
                    ("messages", JNum (PyInt 5))] in
  let tags := ["rabbitmq_queue:q1"] in
  @get_metric env data QUEUE_TYPE tags
    ("consumer_utilisation", "consumer_utilisation", op_float) (init_state []) =
    (Ret tt,
     sent [@log_debug_ValueError env QUEUE_TYPE "consumer_utilisation" (JStr "") tags]
       (init_state []))
  /\ @_get_metrics env data QUEUE_TYPE (init_state []) =
       (Ret tt,
        sent [ @log_debug_ValueError env QUEUE_TYPE "consumer_utilisation" (JStr "") tags;
               Gauge "rabbitmq.queue.messages" (PyFloat (inject_Z 5)) tags ]
          (init_state [])).
Proof.
  intros env data tags. split; [|reflexivity].
  assert (Hv : forall s, attribute_value data "consumer_utilisation" s
                         = (Ret (JStr ""), s)) by reflexivity.
  exact (proj1 (@value_error_is_caught env data QUEUE_TYPE tags
                  "consumer_utilisation" "consumer_utilisation" op_float (JStr "")
                  Hv eq_refl eq_refl (init_state []))).
Defined.

(** C7, as the claim states it, fails: [float] raises [TypeError] on a
    list, the handler is for [ValueError] only, and [_get_metrics] ends
    with the exception before it comes to [messages]. *)
Lemma type_error_is_not_caught :
  let env := demo_env (fun _ => RequestFailed "") in
  let data := JObj [("name", JStr "q1"); ("memory", JArr []);
                    ("messages", JNum (PyInt 5))] in
  (forall s, attribute_value data "memory" s = (Ret (JArr []), s))
  /\ @apply_operation env op_float (JArr []) = Raise TypeError
  /\ @_get_metrics env data QUEUE_TYPE (init_state []) = (Raise TypeError, init_state []).
Proof. intros env data. repeat split. Qed.

(** ** What a computation leaves alone *)

Lemma keeps_bind {A B C} (f : state -> C) (c : M A) (k : A -> M B) :
  keeps f c -> (forall a, keeps f (k a)) -> keeps f (bind c k).
Proof.
  intros Hc Hk s. unfold bind. specialize (Hc s).
  destruct (c s) as [[a|e] s1]; simpl in *; [now rewrite Hk | exact Hc].
Qed.

Lemma keeps_for_each {A C} (f : state -> C) (l : list A) (body : A -> M unit) :
  (forall x, keeps f (body x)) -> keeps f (for_each l body).
Proof.
  intros Hb. induction l as [|x l IH]; [intros s; reflexivity|].
  simpl. apply keeps_bind; [apply Hb | intros _; exact IH].
Qed.

Lemma keeps_try_ValueError {A C} (f : state -> C) (body handler : M A) :
  keeps f body -> keeps f handler -> keeps f (try_except_ValueError body handler).
Proof.
  intros Hb Hh s. unfold try_except_ValueError. specialize (Hb s).
  destruct (body s) as [[a|[]] s1]; simpl in *; try exact Hb. now rewrite Hh.
Qed.

Lemma keeps_try_RabbitMQException {A C} (f : state -> C) (body : M A)
  (handler : string -> M A) :
  keeps f body -> (forall msg, keeps f (handler msg)) ->
  keeps f (try_except_RabbitMQException body handler).
Proof.
  intros Hb Hh s. unfold try_except_RabbitMQException. specialize (Hb s).
  destruct (body s) as [[a|[]] s1]; simpl in *; try exact Hb. now rewrite Hh.
Qed.

Lemma keeps_whole {A C} (f : state -> C) (c : M A) : keeps whole c -> keeps f c.
Proof. intros Hc s. unfold whole in Hc. now rewrite Hc. Qed.

Lemma heap_but_write (l : loc) (xs : list string) : keeps (heap_but l) (write_list l xs).
Proof. intros s. unfold heap_but. simpl. apply list_insert_insert_eq. Qed.

(** Splits a computation along its binds, loops, handlers and case
    distinctions, and closes the steps that compute. *)
Ltac keeps_step :=
  first
    [ apply keeps_bind; [|intros ?]
    | apply keeps_for_each; intros ?
    | apply keeps_try_ValueError
    | apply keeps_try_RabbitMQException; [|intros ?]
    | apply heap_but_write
    | assumption
    | match goal with
      | |- keeps _ (match ?x with _ => _ end) => destruct x
      | |- keeps _ (let (_, _) := ?x in _) => destruct x
      end
    | intros ?; reflexivity ].
Ltac keeps_all := repeat keeps_step.

Section Frames.
Context `{Env}.

Lemma walk_keeps (root : json) (keys : list string) : keeps whole (walk root keys).
Proof.
  revert root. induction keys as [|k keys IH]; intros root; simpl; [keeps_all|].
  apply keeps_bind; [keeps_all | intros a; apply IH].
Qed.

Lemma collect_tags_keeps (data : json) (tag_list : list (string * string))
  (tags : list string) : keeps whole (collect_tags data tag_list tags).
Proof.
  revert tags. induction tag_list as [|[t label] l IH]; intros tags; simpl; [keeps_all|].
  apply keeps_bind; [keeps_all | intros a; destruct (truthy a); apply IH].
Qed.

Lemma first_match_keeps (ps : list string) (v : json) : keeps whole (first_match ps v).
Proof.
  induction ps as [|p ps IH]; simpl; [keeps_all|].
  apply keeps_bind; [unfold re_search; keeps_all | intros [g|]; [keeps_all | exact IH]].
Qed.

Lemma get_metric_keeps {C} (f : state -> C) (data : json) (t : object_type)
  (tags : list string) (a : string * string * operation) :
  (forall e, is_alarm e = false -> keeps f (emit e)) ->
  keeps f (get_metric data t tags a).
Proof.
  intros He. destruct a as [[attribute metric_name] op]. unfold get_metric, attribute_value.
  pose proof (walk_keeps data (removelast (split_on "/" attribute))) as W.
  apply (keeps_whole f) in W.
  keeps_all; apply He; reflexivity.
Qed.

Lemma _get_metrics_keeps {C} (f : state -> C) (data : json) (t : object_type) :
  (forall e, is_alarm e = false -> keeps f (emit e)) ->
  keeps f (_get_metrics data t).
Proof.
  intros He. unfold _get_metrics.
  apply keeps_bind; [apply keeps_whole, collect_tags_keeps|].
  intros tags. apply keeps_for_each. intros a. now apply get_metric_keeps.
Qed.

Lemma alarms_emit (e : effect) : is_alarm e = false -> keeps alarms (emit e).
Proof.
  intros He s. unfold alarms. simpl. rewrite List.filter_app. simpl. rewrite He.
  apply app_nil_r.
Qed.

Lemma alert_keeps_heap (b : string) (m n : Z) (t : object_type) :
  keeps heap (alert b m n t).
Proof. unfold alert, get_already_alerted, remember_alert. keeps_all. Qed.

Lemma report_keeps_heap (b : string) (t : object_type) (m : Z) (data : list json) :
  keeps heap (report b t m data).
Proof.
  unfold report.
  apply keeps_bind; [destruct (above_alert_threshold _ _);
                     [apply alert_keeps_heap | keeps_all] |].
  intros _. apply keeps_bind; [keeps_all|]. intros _.
  apply keeps_for_each. intros d. apply _get_metrics_keeps. intros e _ s. reflexivity.
Qed.

End Frames.

(** ** The filtering loop *)




Lemma list_at_in_range (l : loc) (x : string) (s : state) :
  mem x (list_at l s) = true -> (l < length (heap s))%nat.
Proof.
  unfold list_at. intros Hm. destruct (heap s !! l) as [xs|] eqn:E.
  - now apply lookup_lt_Some in E.
  - discriminate Hm.
Qed.

Lemma lookup_heap_but (l l' : loc) (s s' : state) :
  l <> l' -> heap_but l s' = heap_but l s -> heap s' !! l' = heap s !! l'.
Proof.
  unfold heap_but. intros N E.
  apply (f_equal (fun h : list (list string) => h !! l')) in E. simpl in E.
  now rewrite !list_lookup_insert_ne in E by exact N.
Qed.

Lemma list_at_heap_but (l l' : loc) (s s' : state) :
  l <> l' -> heap_but l s' = heap_but l s -> list_at l' s' = list_at l' s.
Proof. intros N E. unfold list_at. now rewrite (lookup_heap_but l l' s s' N E). Qed.

Lemma list_remove_run (l : loc) (x : string) (s : state) :
  mem x (list_at l s) = true ->
  exists s',
    list_remove l x s = (Ret tt, s')
    /\ list_at l s' = remove_first x (list_at l s).
Proof.
  intros Hm. pose proof (list_at_in_range _ _ _ Hm) as Hl.
  unfold list_remove, bind, read_list. fold (list_at l s). rewrite Hm.
  eexists. split; [reflexivity|].
  unfold list_at at 1. simpl. now rewrite list_lookup_insert_eq.
Qed.

Section FilterProperties.
Context `{Env}.

Lemma first_match_run (ps : list string) (v : json) (s : state) :
  first_match ps v s = (fst (first_match ps v s), s).
Proof.
  pose proof (first_match_keeps ps v s) as K. unfold whole in K.
  destruct (first_match ps v s). simpl in *. now subst.
Qed.

(** What a turn of the loop can do when it returns: keep the record by an
    entry of the working list, which it takes out; keep it, with its
    family, by a regular expression; or drop it. *)
Lemma filter_line_inv tf t ef rf r s v s' :
  filter_line tf t ef rf r s = (Ret v, s') ->
  (exists k, v = Some (r, ExplicitEntry k)
             /\ mem k (list_at ef s) = true
             /\ list_at ef s' = remove_first k (list_at ef s))
  \/ (exists groups, v = Some (tag_family tf groups r, RegexMatch) /\ s' = s)
  \/ (v = None /\ s' = s).
Proof.
  unfold filter_line. unfold bind at 1. unfold lift at 1.
  destruct (py_get r "name") as [name|e]; [|discriminate].
  unfold bind at 1. unfold read_list at 1. cbn [fst snd]. fold (list_at ef s).
  destruct (entry_of name (list_at ef s)) as [entry|] eqn:Hm.
  - assert (Hm' : mem entry (list_at ef s) = true).
    { destruct name; try discriminate Hm. simpl in Hm.
      destruct (mem s0 (list_at ef s)) eqn:Q; [|discriminate Hm]. now injection Hm as <-. }
    destruct (list_remove_run ef _ s Hm') as (s1 & R & L).
    unfold bind. rewrite R. unfold ret. intros [= <- <-]. left. eauto.
  - unfold bind at 1. unfold read_list at 1. cbn [fst snd]. fold (list_at rf s).
    unfold bind at 1. rewrite first_match_run.
    destruct (fst (first_match (list_at rf s) name s)) as [[groups|]|e]; [| |discriminate].
    + unfold ret. intros [= <- <-]. right. left. eauto.
    + destruct t; [|unfold ret; intros [= <- <-]; right; right; eauto].
      unfold bind at 1. unfold lift at 1.
      destruct (py_get r "vhost") as [vhost|e]; [|discriminate].
      unfold bind at 1. unfold read_list at 1. cbn [fst snd]. fold (list_at ef s).
      destruct (mem _ (list_at ef s)) eqn:Ha.
      * destruct (list_remove_run ef _ s Ha) as (s1 & R & L).
        unfold bind. rewrite R. unfold ret. intros [= <- <-]. left. eauto.
      * unfold bind at 1. unfold read_list at 1. cbn [fst snd]. fold (list_at rf s).
        unfold bind at 1. rewrite first_match_run.
        destruct (fst (first_match (list_at rf s) _ s)) as [[groups|]|e]; [| |discriminate];
          unfold ret; intros [= <- <-]; right; [left | right]; eauto.
Qed.


Lemma filter_line_tagged tf t ef rf r s r' kind s' :
  filter_line tf t ef rf r s = (Ret (Some (r', kind)), s') -> tagged tf r r'.
Proof.
  intros R.
  destruct (filter_line_inv _ _ _ _ _ _ _ _ R)
    as [(e & E & _) | [(groups & E & _) | (E & _)]]; try discriminate E;
    injection E as -> _; [now left | right; eauto].
Qed.


(** A record with no name makes the first regular expression raise. *)
Lemma filter_line_nameless tf t ef rf r s p ps :
  nameless r = true ->
  list_at rf s = p :: ps ->
  filter_line tf t ef rf r s = (Raise (search_error p), s).
Proof.
  intros Hn Hr. unfold filter_line. unfold bind at 1. unfold lift at 1.
  assert (E : py_get r "name" = Ret JNull).
  { destruct r; try discriminate Hn. simpl in *.
    destruct (dict_lookup "name" fields) as [[]|]; first [reflexivity | discriminate Hn]. }
  rewrite E. unfold bind at 1. unfold read_list at 1. cbn [fst snd entry_of].
  unfold bind at 1. unfold read_list at 1. cbn [fst snd]. fold (list_at rf s).
  rewrite Hr. unfold bind at 1. cbn [first_match]. unfold bind at 1.
  unfold re_search, search_error. now destruct (re_compile p).
Qed.

Lemma filter_line_keeps {C} (f : state -> C) tf t ef rf r :
  (forall xs, keeps f (write_list ef xs)) ->
  keeps f (filter_line tf t ef rf r).
Proof.
  intros Hw. unfold filter_line, list_remove.
  pose proof (fun ps v => keeps_whole f _ (first_match_keeps ps v)) as Hf.
  keeps_all; first [apply Hw | apply Hf].
Qed.

Lemma filter_lines_keeps {C} (f : state -> C) tf t ef rf data acc :
  (forall xs, keeps f (write_list ef xs)) ->
  keeps f (filter_lines tf t ef rf data acc).
Proof.
  intros Hw. revert acc. induction data as [|r data IH]; intros acc; simpl; [keeps_all|].
  apply keeps_bind; [now apply filter_line_keeps | intros v; apply IH].
Qed.

Lemma filter_lines_cons tf t ef rf r data acc s :
  filter_lines tf t ef rf (r :: data) acc s =
    match filter_line tf t ef rf r s with
    | (Ret v, s1) =>
        filter_lines tf t ef rf data
          (match v with Some line => acc ++ [line] | None => acc end) s1
    | (Raise e, s1) => (Raise e, s1)
    end.
Proof. reflexivity. Qed.




(** The kept records come in the order of the reply. *)
Lemma filter_lines_order tf t ef rf data :
  forall acc s kept s',
    filter_lines tf t ef rf data acc s = (Ret kept, s') ->
    exists sub new,
      kept = acc ++ new /\ sub `sublist_of` data /\ Forall2 (tagged tf) sub (map fst new).
Proof.
  induction data as [|r data IH]; intros acc s kept s' R.
  - injection R as <- <-. exists [], []. rewrite app_nil_r. repeat constructor.
  - rewrite filter_lines_cons in R.
    destruct (filter_line tf t ef rf r s) as [[v|e] s1] eqn:L; [|discriminate R].
    destruct (IH _ _ _ _ R) as (sub & new & -> & Hsub & Htag).
    destruct v as [[r' kind]|].
    + exists (r :: sub), ((r', kind) :: new). rewrite <- app_assoc. split; [reflexivity|].
      split; [now constructor|]. constructor; [|exact Htag].
      exact (filter_line_tagged _ _ _ _ _ _ _ _ _ L).
    + exists sub, new. split; [reflexivity|]. split; [now constructor | exact Htag].
Qed.


(** A record with no name stops the loop with an exception, unless an
    earlier record did. *)
Lemma filter_lines_nameless tf t ef rf data :
  forall acc s r p ps,
    ef <> rf ->
    list_at rf s = p :: ps ->
    In r data -> nameless r = true ->
    exists e, fst (filter_lines tf t ef rf data acc s) = Raise e.
Proof.
  induction data as [|r0 data IH]; intros acc s r p ps N Hr Hin Hn; [destruct Hin|].
  rewrite filter_lines_cons.
  destruct Hin as [->|Hin].
  - rewrite (filter_line_nameless tf t ef rf r s p ps Hn Hr). eauto.
  - destruct (filter_line tf t ef rf r0 s) as [[v|e] s1] eqn:L; [|eauto].
    apply (IH _ _ r p ps N); [|exact Hin|exact Hn].
    rewrite <- Hr. apply (list_at_heap_but ef); [exact N|].
    pose proof (filter_line_keeps (heap_but ef) tf t ef rf r0 (heap_but_write ef) s) as K.
    now rewrite L in K.
Qed.

End FilterProperties.

(** ** [get_stats] *)

Section StatsProperties.
Context `{Env}.

Lemma _get_data_run (url : string) (s : state) :
  _get_data url s =
    match http_get url with
    | Response body => (Ret body, requested url s)
    | reply => (Raise (collection_error url reply), requested url s)
    end.
Proof. unfold _get_data, bind, emit. simpl. now destruct (http_get url). Qed.

Lemma select_keeps {C} (f : state -> C) tf t ef rf data :
  (forall xs, keeps f (write_list ef xs)) ->
  keeps f (select tf t ef rf data).
Proof.
  intros Hw. unfold select.
  pose proof (fun acc => filter_lines_keeps f tf t ef rf data acc Hw) as Hf.
  keeps_all; apply Hf.
Qed.

(** The steps of [fetch_matching] after the request and the copy. *)
Lemma fetch_matching_run tf base t max f s :
  let url := urljoin base (type_name t) in
  let given := list_at (explicit f) s in
  fetch_matching tf base t max f s =
    match http_get url with
    | Response data =>
        if max <? len given
        then (Raise (Exception (too_many_message t max)), copied url given s)
        else (lines <- as_list data ;;
              select tf t (length (heap s)) (regexes f) lines) (copied url given s)
    | reply => (Raise (collection_error url reply), requested url s)
    end.
Proof.
  intros url given. unfold fetch_matching. unfold bind at 1. fold url.
  rewrite _get_data_run.
  destruct (http_get url) as [data|d|d]; try reflexivity.
  unfold bind at 1. unfold read_list at 1. cbn [fst snd].
  change (default [] (heap (requested url s) !! explicit f)) with given.
  unfold bind at 1. unfold new_list at 1. cbn [fst snd heap requested].
  unfold bind at 1. unfold read_list at 1. cbn [fst snd heap].
  rewrite lookup_app_r by reflexivity. rewrite Nat.sub_diag.
  cbn [lookup list_lookup default from_option id].
  unfold copied. cbn [requested already_alerted trace].
  now destruct (max <? len given).
Qed.

Lemma select_filtering tf t ef rf data s p ps :
  list_at rf s = p :: ps ->
  select tf t ef rf data s =
    (matching_lines <- filter_lines tf t ef rf data [] ;;
     ret (map fst matching_lines)) s.
Proof.
  intros Hr. unfold select. unfold bind at 1. unfold read_list at 1. cbn [fst snd].
  unfold bind at 1. unfold read_list at 1. cbn [fst snd]. fold (list_at rf s).
  rewrite Hr. now destruct (default [] (heap s !! ef)).
Qed.

Lemma get_stats_raises tf base t max f s e s1 :
  fetch_matching tf base t max f s = (Raise e, s1) ->
  get_stats tf base t max f s = (Raise e, s1).
Proof. intros E. unfold get_stats, bind. now rewrite E. Qed.

(** C1, as the code has it. With more explicit names than [max_detailed],
    [get_stats] sends the request for the object type first and nothing
    else; when the reply is a JSON document it then raises the error about
    the number of names, before any filtering, alert or metric; when the
    request fails it raises the collection error instead. *)
Theorem too_many_explicit_filters tf base t max f s :
  max < len (list_at (explicit f) s) ->
  let url := urljoin base (type_name t) in
  let s' := snd (get_stats tf base t max f s) in
  trace s' = trace s ++ [HttpGet url]
  /\ already_alerted s' = already_alerted s
  /\ (is_response (http_get url) = true ->
      get_stats tf base t max f s =
        (Raise (Exception (too_many_message t max)),
         copied url (list_at (explicit f) s) s))
  /\ (is_response (http_get url) = false ->
      get_stats tf base t max f s =
        (Raise (collection_error url (http_get url)), requested url s)).
Proof.
  intros Hmax url s'. apply Z.ltb_lt in Hmax.
  pose proof (fetch_matching_run tf base t max f s) as R. cbv zeta in R. fold url in R.
  rewrite Hmax in R. subst s'.
  destruct (http_get url) as [data|d|d]; cbn [is_response];
    rewrite (get_stats_raises _ _ _ _ _ _ _ _ R);
    repeat split; intros; first [reflexivity | discriminate].
Qed.

(** C9. [get_stats] leaves every list object that was there before the
    call as it was, the list of explicit names and the list of regular
    expressions among them: the names are taken out of a copy. *)
Theorem get_stats_leaves_the_lists tf base t max f s (l : loc) (xs : list string) :
  heap s !! l = Some xs ->
  heap (snd (get_stats tf base t max f s)) !! l = Some xs.
Proof.
  intros Hl. pose proof (lookup_lt_Some _ _ _ Hl) as Hlt.
  assert (F : heap (snd (fetch_matching tf base t max f s)) !! l = Some xs).
  { rewrite fetch_matching_run.
    destruct (http_get (urljoin base (type_name t))) as [data|d|d]; try exact Hl.
    assert (C : heap (copied (urljoin base (type_name t)) (list_at (explicit f) s) s) !! l
                = Some xs) by (simpl; now rewrite lookup_app_l).
    destruct (max <? len (list_at (explicit f) s)); [exact C|].
    rewrite <- C. apply (lookup_heap_but (length (heap s))); [lia|].
    apply (keeps_bind (heap_but (length (heap s)))).
    - unfold as_list. keeps_all.
    - intros lines. apply select_keeps. apply heap_but_write. }
  unfold get_stats, bind.
  destruct (fetch_matching tf base t max f s) as [[data|e] s1]; [|exact F].
  simpl in F. now rewrite report_keeps_heap.
Qed.

(** C10. With a regular expression configured and a record with no name
    in the reply, [get_stats] raises and sends nothing but the request;
    when the explicit list is within the limit the exception comes out of
    the filtering; and the turn of the loop on the record itself never
    drops it: the first regular expression is searched in [None] and
    raises ([TypeError], or the error of the pattern if it does not
    compile). *)
Theorem nameless_record_raises tf base t max f s lines r p ps :
  http_get (urljoin base (type_name t)) = Response (JArr lines) ->
  heap s !! regexes f = Some (p :: ps) ->
  In r lines ->
  nameless r = true ->
  let url := urljoin base (type_name t) in
  let given := list_at (explicit f) s in
  (exists e, fst (get_stats tf base t max f s) = Raise e)
  /\ trace (snd (get_stats tf base t max f s)) = trace s ++ [HttpGet url]
  /\ (len given <= max ->
      exists e,
        fst (select tf t (length (heap s)) (regexes f) lines (copied url given s))
        = Raise e)
  /\ (forall ef s1,
         list_at (regexes f) s1 = p :: ps ->
         filter_line tf t ef (regexes f) r s1 = (Raise (search_error p), s1)).
Proof.
  intros Hweb Hrf Hin Hn url given.
  pose proof (lookup_lt_Some _ _ _ Hrf) as Hlt.
  set (c := copied url given s).
  assert (Hc : list_at (regexes f) c = p :: ps).
  { unfold list_at, c. simpl. now rewrite lookup_app_l, Hrf. }
  assert (Sel : exists e,
             fst (select tf t (length (heap s)) (regexes f) lines c) = Raise e
             /\ trace (snd (select tf t (length (heap s)) (regexes f) lines c))
                = trace c).
  { destruct (filter_lines_nameless tf t (length (heap s)) (regexes f) lines [] c
                r p ps) as [e He]; try assumption; [lia|].
    exists e. split.
    - rewrite (select_filtering _ _ _ _ _ _ p ps Hc). unfold bind.
      destruct (filter_lines _ _ _ _ _ _ c) as [[v|e'] s1]; [discriminate He|].
      simpl in *. now injection He as ->.
    - apply (select_keeps trace). intros xs s0. reflexivity. }
  destruct Sel as (e & Se & St).
  pose proof (fetch_matching_run tf base t max f s) as R. cbv zeta in R.
  rewrite Hweb in R. fold url given in R. fold c in R.
  assert (G : exists e', fst (fetch_matching tf base t max f s) = Raise e'
                         /\ trace (snd (fetch_matching tf base t max f s))
                            = trace s ++ [HttpGet url]).
  { rewrite R. destruct (max <? len given); [eexists; split; reflexivity|].
    exists e. unfold bind, as_list, ret.
    destruct (select _ _ _ _ _ c) as [[v|e'] s1]; simpl in *; [discriminate Se|].
    split; [exact Se | exact St]. }
  destruct G as (e' & Ge & Gt).
  destruct (fetch_matching tf base t max f s) as [[v|e''] s1] eqn:F; [discriminate Ge|].
  rewrite (get_stats_raises _ _ _ _ _ _ _ _ F). simpl in *.
  split; [eauto | split; [exact Gt | split]].
  - intros _. now exists e.
  - intros ef s1' Hr. now apply filter_line_nameless with (ps := ps).
Qed.


Lemma report_run b t max data s :
  report b t max data s =
    for_each (slice_to data max) (fun data_line => _get_metrics data_line t)
      (after_warning t max (len data) (after_alert b t max (len data) s)).
Proof.
  unfold report, after_alert, after_warning. unfold bind at 1.
  destruct (above_alert_threshold (len data) max).
  - pose proof (alert_returns b t max (len data) s) as A.
    destruct (alert b max (len data) t s) as [r s1]. simpl in A. subst r. cbn [snd].
    unfold bind at 1. now destruct (max <? len data).
  - unfold ret at 1. unfold bind at 1. now destruct (max <? len data).
Qed.

Lemma fetch_matching_limit tf base t max f s data s1 :
  fetch_matching tf base t max f s = (Ret data, s1) -> 0 <= max.
Proof.
  rewrite fetch_matching_run.
  destruct (http_get _); try discriminate.
  destruct (Z.ltb_spec max (len (list_at (explicit f) s))); [discriminate|].
  intros _. unfold len in *. lia.
Qed.

Lemma alarms_after b t max size s :
  alarms (after_warning t max size (after_alert b t max size s)) =
    alarms s
    ++ (if above_alert_threshold size max && negb (mem (alert_key b t) (already_alerted s))
        then [Event (alert_event b max size t)] else [])
    ++ (if max <? size then [Warning (too_many_warning t)] else []).
Proof.
  unfold after_warning, after_alert, alarms.
  destruct (above_alert_threshold size max); cbn [andb].
  - destruct (mem (alert_key b t) (already_alerted s)) eqn:E; cbn [negb].
    + rewrite alert_again by exact E. cbn [snd].
      destruct (max <? size); simpl; [now rewrite List.filter_app | now rewrite app_nil_r].
    + rewrite alert_first by exact E. cbn [snd].
      destruct (max <? size); simpl; rewrite !List.filter_app; simpl;
        [now rewrite <- app_assoc | reflexivity].
  - destruct (max <? size); simpl; [now rewrite List.filter_app | now rewrite app_nil_r].
Qed.

Lemma alerted_after b t max size s :
  already_alerted (after_warning t max size (after_alert b t max size s)) =
    if above_alert_threshold size max && negb (mem (alert_key b t) (already_alerted s))
    then already_alerted s ++ [alert_key b t]
    else already_alerted s.
Proof.
  unfold after_warning, after_alert.
  destruct (above_alert_threshold size max); cbn [andb].
  - destruct (mem (alert_key b t) (already_alerted s)) eqn:E; cbn [negb].
    + rewrite alert_again by exact E. now destruct (max <? size).
    + rewrite alert_first by exact E. now destruct (max <? size).
  - now destruct (max <? size).
Qed.

Lemma tagged_all tf (data : list json) : Forall2 (tagged tf) data data.
Proof. induction data; constructor; [now left | assumption]. Qed.

Lemma select_order tf t ef rf data s selected s' :
  select tf t ef rf data s = (Ret selected, s') ->
  exists sub, sub `sublist_of` data /\ Forall2 (tagged tf) sub selected.
Proof.
  unfold select. unfold bind at 1. unfold read_list at 1. cbn [fst snd].
  unfold bind at 1. unfold read_list at 1. cbn [fst snd].
  assert (Filtered :
           (matching_lines <- filter_lines tf t ef rf data [] ;;
            ret (map fst matching_lines)) s = (Ret selected, s') ->
           exists sub, sub `sublist_of` data /\ Forall2 (tagged tf) sub selected).
  { unfold bind, ret.
    destruct (filter_lines tf t ef rf data [] s) as [[kept|e] s1] eqn:R; [|discriminate].
    intros [= <- <-].
    destruct (filter_lines_order _ _ _ _ _ _ _ _ _ R) as (sub & new & -> & Hsub & Htag).
    now exists sub. }
  destruct (default [] (heap s !! ef)), (default [] (heap s !! rf)); try exact Filtered.
  unfold ret. intros [= <- <-]. exists data. split; [reflexivity | apply tagged_all].
Qed.

Lemma fetch_matching_order tf base t max f s data s1 :
  fetch_matching tf base t max f s = (Ret data, s1) ->
  exists lines sub,
    http_get (urljoin base (type_name t)) = Response (JArr lines)
    /\ sub `sublist_of` lines /\ Forall2 (tagged tf) sub data.
Proof.
  rewrite fetch_matching_run.
  destruct (http_get (urljoin base (type_name t))) as [body|d|d]; try discriminate.
  destruct (max <? len (list_at (explicit f) s)); [discriminate|].
  unfold bind at 1. unfold as_list.
  destruct body; try discriminate. unfold ret at 1. intros R.
  destruct (select_order _ _ _ _ _ _ _ _ R) as (sub & Hsub & Htag).
  now exists items, sub.
Qed.

(** C3. Once the filtering has given [data], [get_stats] extracts the
    metrics of the first [max_detailed] records of [data], in the order of
    the list, which is the order of the reply ([data] is made of records
    of the reply, in their order, some with their family added); hence of
    at most [max_detailed] records and of all of them when they are no
    more than that; it sends the warning exactly when
    there are more than [max_detailed]; and it calls [alert] for the base
    URL and the object type exactly when ten times their number exceeds
    nine times [max_detailed], which posts the event unless the key was
    alerted before and leaves the key recorded. *)
Theorem metrics_of_the_first_records tf base t max f s data s1 :
  fetch_matching tf base t max f s = (Ret data, s1) ->
  let size := len data in
  let processed := take (Z.to_nat max) data in
  let s' := snd (get_stats tf base t max f s) in
  get_stats tf base t max f s =
    for_each processed (fun data_line => _get_metrics data_line t)
      (after_warning t max size (after_alert base t max size s1))
  /\ len processed <= max
  /\ processed `prefix_of` data
  /\ (exists lines sub,
         http_get (urljoin base (type_name t)) = Response (JArr lines)
         /\ sub `sublist_of` lines /\ Forall2 (tagged tf) sub data)
  /\ (size <= max -> processed = data)
  /\ alarms s' =
       alarms s1
       ++ (if above_alert_threshold size max
              && negb (mem (alert_key base t) (already_alerted s1))
           then [Event (alert_event base max size t)] else [])
       ++ (if max <? size then [Warning (too_many_warning t)] else [])
  /\ (above_alert_threshold size max = true <-> 9 * max < 10 * size)
  /\ (above_alert_threshold size max = true ->
      mem (alert_key base t) (already_alerted s') = true)
  /\ (above_alert_threshold size max = false ->
      already_alerted s' = already_alerted s1).
Proof.
  intros F size processed s'.
  pose proof (fetch_matching_limit _ _ _ _ _ _ _ _ F) as Hmax.
  assert (G : get_stats tf base t max f s =
              for_each processed (fun data_line => _get_metrics data_line t)
                (after_warning t max size (after_alert base t max size s1))).
  { unfold get_stats, bind. rewrite F, report_run. unfold slice_to.
    now destruct (Z.leb_spec 0 max); [|lia]. }
  assert (Ka : already_alerted s' =
               already_alerted (after_warning t max size (after_alert base t max size s1))).
  { subst s'. rewrite G. apply (keeps_for_each already_alerted). intros d.
    apply _get_metrics_keeps. intros e _ s0. reflexivity. }
  split; [exact G|]. split; [|split; [|split; [|split; [|split; [|split; [|split]]]]]].
  - unfold len, processed. rewrite length_take. lia.
  - exists (drop (Z.to_nat max) data). unfold processed. now rewrite take_drop.
  - exact (fetch_matching_order _ _ _ _ _ _ _ _ F).
  - intros Hs. unfold processed. apply take_ge. unfold size, len in Hs. lia.
  - subst s'. rewrite G, <- alarms_after. apply (keeps_for_each alarms). intros d.
    apply _get_metrics_keeps. apply alarms_emit.
  - unfold above_alert_threshold. apply Z.ltb_lt.
  - intros A. rewrite Ka, alerted_after, A. cbn [andb].
    destruct (mem (alert_key base t) (already_alerted s1)) eqn:E; cbn [negb];
      [exact E|]. rewrite mem_app, mem_one, String.eqb_refl. apply orb_true_r.
  - intros A. now rewrite Ka, alerted_after, A.
Qed.

End StatsProperties.

(** ** [_check_aliveness] and [check] *)

Section CheckProperties.
Context `{Env}.

Lemma status_ok_spec (fields : list (string * json)) :
  status_ok fields = true <-> dict_lookup "status" fields = Some (JStr "ok").
Proof.
  unfold status_ok. destruct (dict_lookup "status" fields) as [[]|]; try (split; discriminate).
  destruct (String.eqb_spec s "ok") as [->|N]; split; try reflexivity; try discriminate.
  intros [= E]. now contradiction N.
Qed.

Lemma check_vhost_run base vhost s :
  replies_object base vhost = true ->
  check_vhost base (JStr vhost) s = (Ret tt, sent (aliveness_effects base vhost) s).
Proof.
  unfold replies_object, aliveness_effects, aliveness_url, check_vhost. cbv zeta.
  unfold bind at 1. unfold ret at 1. unfold bind at 1. rewrite _get_data_run.
  destruct (http_get _) as [[]|d|d]; try discriminate. intros _.
  unfold bind, lift, emit, sent, status_ok.
  cbn [py_get requested fst snd heap already_alerted trace format_s].
  rewrite <- app_assoc. cbn [app].
  destruct (dict_lookup "status" fields) as [[]|]; reflexivity.
Qed.

Lemma vhost_names_run (listed : list json) (vhosts : list string) (s : state) :
  Forall2 (fun v name => py_item v "name" = Ret (JStr name)) listed vhosts ->
  vhost_names listed s = (Ret (map JStr vhosts), s).
Proof.
  intros Hn. induction Hn as [|v name listed vhosts Hv Hn IH]; [reflexivity|].
  cbn [vhost_names map]. unfold bind at 1. unfold lift at 1. rewrite Hv.
  unfold bind at 1. now rewrite IH.
Qed.

Lemma sent_sent (es es' : list effect) (s : state) :
  sent es' (sent es s) = sent (es ++ es') s.
Proof. unfold sent. simpl. now rewrite app_assoc. Qed.

Lemma sent_nil (s : state) : sent [] s = s.
Proof. unfold sent. rewrite app_nil_r. now destruct s. Qed.

(** C5. For a vhost whose aliveness request is answered by a JSON object,
    the check sends the request and then one service check
    [rabbitmq.aliveness]: it is OK exactly when the field [status] of the
    answer is the string [ok], and critical for any other value or without
    the field; it bears the tag [vhost:<name>] and, after a fixed prefix,
    the answer as its message.  Over a list of vhosts that are all
    answered so, each one has its service check, in the order of the
    list, be the list configured or, when none is, fetched from the
    server. *)
Theorem aliveness_service_check base :
  (forall vhost fields s,
      http_get (aliveness_url base vhost) = Response (JObj fields) ->
      check_vhost base (JStr vhost) s =
        (Ret tt,
         sent [ HttpGet (aliveness_url base vhost);
                ServiceCheck "rabbitmq.aliveness"
                  (if status_ok fields then OK else CRITICAL)
                  ["vhost:" +:+ vhost]
                  (Some ("Response from aliveness API: " +:+ py_repr (JObj fields))) ] s)
      /\ (status_ok fields = true <-> dict_lookup "status" fields = Some (JStr "ok")))
  /\ (forall vhosts s,
         forallb (replies_object base) vhosts = true ->
         for_each (map JStr vhosts) (check_vhost base) s =
           (Ret tt, sent (flat_map (aliveness_effects base) vhosts) s))
  /\ (forall v vhosts s,
         forallb (replies_object base) (v :: vhosts) = true ->
         _check_aliveness base (Some (v :: vhosts)) s =
           (Ret tt, sent (flat_map (aliveness_effects base) (v :: vhosts)) s))
  /\ (forall configured listed vhosts s,
         configured = None \/ configured = Some [] ->
         http_get (urljoin base "vhosts") = Response (JArr listed) ->
         Forall2 (fun v name => py_item v "name" = Ret (JStr name)) listed vhosts ->
         forallb (replies_object base) vhosts = true ->
         _check_aliveness base configured s =
           (Ret tt,
            sent (HttpGet (urljoin base "vhosts")
                    :: flat_map (aliveness_effects base) vhosts) s)).
Proof.
  assert (Loop : forall vhosts s,
             forallb (replies_object base) vhosts = true ->
             for_each (map JStr vhosts) (check_vhost base) s =
               (Ret tt, sent (flat_map (aliveness_effects base) vhosts) s)).
  { intros vhosts. induction vhosts as [|v vhosts IH]; intros s Hall.
    - simpl. now rewrite sent_nil.
    - simpl in Hall. apply andb_prop in Hall as [Hv Hall].
      cbn [map flat_map]. rewrite for_each_cons, (check_vhost_run _ _ _ Hv), (IH _ Hall).
      now rewrite sent_sent. }
  split; [|split; [exact Loop | split]].
  - intros vhost fields s Hweb. split; [|apply status_ok_spec].
    rewrite check_vhost_run by (unfold replies_object; now rewrite Hweb).
    unfold aliveness_effects. now rewrite Hweb.
  - intros v vhosts s Hall. unfold _check_aliveness. unfold bind at 1. unfold ret at 1.
    now apply Loop.
  - intros configured listed vhosts s Hc Hweb Hnames Hall.
    assert (E : _check_aliveness base configured s =
                (vhosts <- (vhosts_response <- _get_data (urljoin base "vhosts") ;;
                            vs <- as_list vhosts_response ;;
                            vhost_names vs) ;;
                 for_each vhosts (check_vhost base)) s)
      by (destruct Hc as [-> | ->]; reflexivity).
    rewrite E. unfold bind at 1. unfold bind at 1. rewrite _get_data_run, Hweb.
    unfold bind at 1. unfold as_list, ret at 1.
    rewrite (vhost_names_run _ _ _ Hnames), Loop by exact Hall.
    change (requested (urljoin base "vhosts") s)
      with (sent [HttpGet (urljoin base "vhosts")] s).
    now rewrite sent_sent.
Qed.

Lemma for_each_app {A} (l l' : list A) (body : A -> M unit) (s : state) :
  for_each (l ++ l') body s =
    match for_each l body s with
    | (Ret _, s1) => for_each l' body s1
    | (Raise e, s1) => (Raise e, s1)
    end.
Proof.
  revert s. induction l as [|x l IH]; intros s; [reflexivity|].
  simpl app. rewrite !for_each_cons. destruct (body x s) as [[[]|e] s1]; [apply IH | reflexivity].
Qed.

Lemma aliveness_loop (base : string) (vhosts : list string) (s : state) :
  forallb (replies_object base) vhosts = true ->
  for_each (map JStr vhosts) (check_vhost base) s =
    (Ret tt, sent (flat_map (aliveness_effects base) vhosts) s).
Proof.
  revert s. induction vhosts as [|v vhosts IH]; intros s Hall.
  - simpl. now rewrite sent_nil.
  - simpl in Hall. apply andb_prop in Hall as [Hv Hall].
    cbn [map flat_map]. rewrite for_each_cons, (check_vhost_run _ _ _ Hv), (IH _ Hall).
    now rewrite sent_sent.
Qed.

Lemma check_vhost_request_fails base v s :
  is_response (http_get (aliveness_url base v)) = false ->
  check_vhost base (JStr v) s =
    (Raise (collection_error (aliveness_url base v) (http_get (aliveness_url base v))),
     requested (aliveness_url base v) s).
Proof.
  intros Hv. unfold check_vhost, aliveness_url in *. cbv zeta.
  unfold bind at 1. unfold ret at 1. unfold bind at 1. rewrite _get_data_run.
  destruct (http_get _) as [r|d|d]; [discriminate Hv | reflexivity | reflexivity].
Qed.

Lemma aliveness_loop_request_fails base before v after s :
  forallb (replies_object base) before = true ->
  is_response (http_get (aliveness_url base v)) = false ->
  for_each (map JStr (before ++ v :: after)) (check_vhost base) s =
    (Raise (collection_error (aliveness_url base v) (http_get (aliveness_url base v))),
     sent (flat_map (aliveness_effects base) before ++ [HttpGet (aliveness_url base v)]) s).
Proof.
  intros Hb Hv. rewrite map_app, for_each_app, (aliveness_loop _ _ _ Hb).
  cbn [map]. rewrite for_each_cons, (check_vhost_request_fails _ _ _ Hv).
  change (requested ?u ?x) with (sent [HttpGet u] x). now rewrite sent_sent.
Qed.

(** [_check_aliveness] is the loop over the vhosts it has found. *)
Lemma _check_aliveness_vhosts base configured vhosts asked s :
  checks_vhosts base configured vhosts asked ->
  _check_aliveness base configured s =
    for_each (map JStr vhosts) (check_vhost base) (sent asked s).
Proof.
  intros Hc.
  assert (L : (exists listed,
                  http_get (urljoin base "vhosts") = Response (JArr listed)
                  /\ Forall2 (fun entry name => py_item entry "name" = Ret (JStr name))
                       listed vhosts
                  /\ asked = [HttpGet (urljoin base "vhosts")]) ->
              (vhosts0 <- (vhosts_response <- _get_data (urljoin base "vhosts") ;;
                           vs <- as_list vhosts_response ;;
                           vhost_names vs) ;;
               for_each vhosts0 (check_vhost base)) s =
                for_each (map JStr vhosts) (check_vhost base) (sent asked s)).
  { intros (listed & Hweb & Hnames & ->).
    unfold bind at 1. unfold bind at 1. rewrite _get_data_run, Hweb.
    unfold bind at 1. unfold as_list, ret at 1.
    now rewrite (vhost_names_run _ _ _ Hnames). }
  destruct configured as [[|v vs]|]; [exact (L Hc) | | exact (L Hc)].
  destruct Hc as [-> ->]. rewrite sent_nil. reflexivity.
Qed.

Lemma _check_aliveness_listing_fails base configured s :
  configured = None \/ configured = Some [] ->
  is_response (http_get (urljoin base "vhosts")) = false ->
  _check_aliveness base configured s =
    (Raise (collection_error (urljoin base "vhosts") (http_get (urljoin base "vhosts"))),
     requested (urljoin base "vhosts") s).
Proof.
  intros Hc Hweb.
  assert (E : _check_aliveness base configured s =
              (vhosts <- (vhosts_response <- _get_data (urljoin base "vhosts") ;;
                          vs <- as_list vhosts_response ;;
                          vhost_names vs) ;;
               for_each vhosts (check_vhost base)) s)
    by (destruct Hc as [-> | ->]; reflexivity).
  rewrite E. unfold bind at 1. unfold bind at 1. rewrite _get_data_run.
  destruct (http_get _); [discriminate Hweb | reflexivity | reflexivity].
Qed.

Lemma get_stats_request_fails tf base t max f s :
  is_response (http_get (urljoin base (type_name t))) = false ->
  get_stats tf base t max f s =
    (Raise (collection_error (urljoin base (type_name t))
              (http_get (urljoin base (type_name t)))),
     requested (urljoin base (type_name t)) s).
Proof.
  intros Hweb. apply get_stats_raises.
  pose proof (fetch_matching_run tf base t max f s) as R. cbv zeta in R. rewrite R.
  destruct (http_get _); [discriminate Hweb | reflexivity | reflexivity].
Qed.

Lemma collection_error_message url reply :
  is_response reply = false ->
  collection_error url reply = RabbitMQException (error_text (collection_error url reply)).
Proof. destruct reply; [discriminate | reflexivity | reflexivity]. Qed.

Lemma status_error_run msg s : status_error msg s = (Ret tt, status_reported msg s).
Proof.
  unfold status_error, status_reported, sent, bind, emit. simpl.
  now rewrite <- app_assoc.
Qed.

Lemma check_run inst s c s0 :
  _get_config inst s = (Ret c, s0) ->
  check inst s =
    match (collect inst c ;; emit (ServiceCheck "rabbitmq.status" OK [] None)) s0 with
    | (Raise (RabbitMQException msg), s1) => (Ret tt, status_reported msg s1)
    | other => other
    end.
Proof.
  intros C. unfold check. unfold bind at 1. rewrite C.
  unfold try_except_RabbitMQException.
  destruct ((collect inst c;; emit _) s0) as [[[]|[]] s1];
    first [reflexivity | apply status_error_run].
Qed.

(** C8, as the code has it. In one invocation of [check], a failed request
    or a reply that is not JSON ends everything that was still to come in
    the invocation, the rest of the step it happened in and the steps after
    it: the statistics of the nodes and the aliveness check when it
    happened for the queues, the aliveness check when it happened for the
    nodes, the vhosts still to check when it happened for a vhost or for
    their listing.  It is reported by a critical service check
    [rabbitmq.status] whose message gives the error, and logged, and
    [check] returns.  When the three steps succeed, [check] ends with the
    service check [rabbitmq.status] OK. *)
Theorem check_reports_collection_errors inst s c s0 :
  _get_config inst s = (Ret c, s0) ->
  let queue_stats :=
    get_stats (tag_families inst) (base_url c) QUEUE_TYPE
      (max_detailed c QUEUE_TYPE) (specified c QUEUE_TYPE) in
  let node_stats :=
    get_stats (tag_families inst) (base_url c) NODE_TYPE
      (max_detailed c NODE_TYPE) (specified c NODE_TYPE) in
  let aliveness := _check_aliveness (base_url c) (vhosts inst) in
  let queues_url := urljoin (base_url c) "queues" in
  let nodes_url := urljoin (base_url c) "nodes" in
  let vhosts_url := urljoin (base_url c) "vhosts" in
  let failed url := is_response (http_get url) = false in
  let reported url s1 :=
    check inst s =
      (Ret tt, status_reported (error_text (collection_error url (http_get url))) s1) in
  (failed queues_url -> reported queues_url (requested queues_url s0))
  /\ (forall s1,
         queue_stats s0 = (Ret tt, s1) ->
         failed nodes_url -> reported nodes_url (requested nodes_url s1))
  /\ (forall s1 s2,
         queue_stats s0 = (Ret tt, s1) ->
         node_stats s1 = (Ret tt, s2) ->
         (vhosts inst = None \/ vhosts inst = Some [] ->
          failed vhosts_url -> reported vhosts_url (requested vhosts_url s2))
         /\ (forall before v after asked,
                checks_vhosts (base_url c) (vhosts inst) (before ++ v :: after) asked ->
                forallb (replies_object (base_url c)) before = true ->
                failed (aliveness_url (base_url c) v) ->
                reported (aliveness_url (base_url c) v)
                  (sent (asked ++ flat_map (aliveness_effects (base_url c)) before
                           ++ [HttpGet (aliveness_url (base_url c) v)]) s2)))
  /\ (forall msg s1,
         queue_stats s0 = (Raise (RabbitMQException msg), s1) ->
         check inst s = (Ret tt, status_reported msg s1))
  /\ (forall s1 msg s2,
         queue_stats s0 = (Ret tt, s1) ->
         node_stats s1 = (Raise (RabbitMQException msg), s2) ->
         check inst s = (Ret tt, status_reported msg s2))
  /\ (forall s1 s2 msg s3,
         queue_stats s0 = (Ret tt, s1) ->
         node_stats s1 = (Ret tt, s2) ->
         aliveness s2 = (Raise (RabbitMQException msg), s3) ->
         check inst s = (Ret tt, status_reported msg s3))
  /\ (forall s1 s2 s3,
         queue_stats s0 = (Ret tt, s1) ->
         node_stats s1 = (Ret tt, s2) ->
         aliveness s2 = (Ret tt, s3) ->
         check inst s =
           (Ret tt, sent [ServiceCheck "rabbitmq.status" OK [] None] s3)).
Proof.
  intros C queue_stats node_stats aliveness queues_url nodes_url vhosts_url failed reported.
  unfold reported. rewrite (check_run _ _ _ _ C). unfold collect.
  fold queue_stats node_stats aliveness.
  assert (Q : forall msg s1,
             queue_stats s0 = (Raise (RabbitMQException msg), s1) ->
             match ((queue_stats ;; node_stats ;; aliveness) ;;
                    emit (ServiceCheck "rabbitmq.status" OK [] None)) s0 with
             | (Raise (RabbitMQException msg), s1) => (Ret tt, status_reported msg s1)
             | other => other
             end = (Ret tt, status_reported msg s1)).
  { intros msg s1 E. unfold bind. now rewrite E. }
  assert (N : forall s1 msg s2,
             queue_stats s0 = (Ret tt, s1) ->
             node_stats s1 = (Raise (RabbitMQException msg), s2) ->
             match ((queue_stats ;; node_stats ;; aliveness) ;;
                    emit (ServiceCheck "rabbitmq.status" OK [] None)) s0 with
             | (Raise (RabbitMQException msg), s1) => (Ret tt, status_reported msg s1)
             | other => other
             end = (Ret tt, status_reported msg s2)).
  { intros s1 msg s2 E1 E2. unfold bind. now rewrite E1, E2. }
  assert (A : forall s1 s2 msg s3,
             queue_stats s0 = (Ret tt, s1) ->
             node_stats s1 = (Ret tt, s2) ->
             aliveness s2 = (Raise (RabbitMQException msg), s3) ->
             match ((queue_stats ;; node_stats ;; aliveness) ;;
                    emit (ServiceCheck "rabbitmq.status" OK [] None)) s0 with
             | (Raise (RabbitMQException msg), s1) => (Ret tt, status_reported msg s1)
             | other => other
             end = (Ret tt, status_reported msg s3)).
  { intros s1 s2 msg s3 E1 E2 E3. unfold bind. now rewrite E1, E2, E3. }
  split; [|split; [|split; [|split; [exact Q | split; [exact N | split; [exact A|]]]]]].
  - intros Hweb. apply Q. unfold queue_stats.
    rewrite (get_stats_request_fails _ _ QUEUE_TYPE) by exact Hweb.
    now rewrite <- collection_error_message.
  - intros s1 E1 Hweb. apply (N s1); [exact E1|]. unfold node_stats.
    rewrite (get_stats_request_fails _ _ NODE_TYPE) by exact Hweb.
    now rewrite <- collection_error_message.
  - intros s1 s2 E1 E2. split.
    + intros Hc Hweb. apply (A s1 s2); [exact E1 | exact E2|]. unfold aliveness.
      rewrite (_check_aliveness_listing_fails _ _ _ Hc Hweb).
      now rewrite <- collection_error_message.
    + intros before v after asked Hc Hb Hweb. apply (A s1 s2); [exact E1 | exact E2|].
      unfold aliveness.
      rewrite (_check_aliveness_vhosts _ _ _ _ _ Hc).
      rewrite (aliveness_loop_request_fails _ _ _ _ _ Hb Hweb), sent_sent.
      now rewrite <- collection_error_message.
  - intros s1 s2 s3 E1 E2 E3. unfold bind. now rewrite E1, E2, E3.
Qed.

End CheckProperties.

(** ** The threshold in binary64 arithmetic *)

Lemma threshold_grid_checked : threshold_grid (Z.to_nat 1001) = true.
Proof. vm_compute. reflexivity. Qed.

Lemma threshold_grid_sound (n : nat) :
  threshold_grid n = true ->
  forall size max_detailed,
    0 <= size < Z.of_nat n -> 0 <= max_detailed < Z.of_nat n ->
    above_alert_threshold size max_detailed
    = above_alert_threshold_binary64 size max_detailed.
Proof.
  intros G size max_detailed Hs Hm.
  assert (I : forall z, 0 <= z < Z.of_nat n -> In z (map Z.of_nat (seq 0 n))).
  { intros z Hz. apply in_map_iff. exists (Z.to_nat z). split; [lia|].
    apply in_seq. lia. }
  unfold threshold_grid in G. cbv zeta in G. rewrite forallb_forall in G.
  specialize (G max_detailed (I _ Hm)). rewrite forallb_forall in G.
  specialize (G size (I _ Hs)). now apply Bool.eqb_prop in G.
Qed.

(** For limits and numbers of records up to 1000, the comparison on
    integers is the comparison Python makes on doubles. *)
Lemma threshold_as_in_binary64 (size max_detailed : Z) :
  0 <= size <= 1000 -> 0 <= max_detailed <= 1000 ->
  above_alert_threshold size max_detailed
  = above_alert_threshold_binary64 size max_detailed.
Proof.
  intros Hs Hm. apply (threshold_grid_sound (Z.to_nat 1001) threshold_grid_checked); lia.
Qed.

(** ** The conversion of an integer to a double *)

Lemma round_binary64_exact (z : Z) : Z.abs z <= 2 ^ 53 -> round_binary64 z = z.
Proof.
  intros Hz. unfold round_binary64. cbv zeta.
  destruct (Z.leb_spec (Z.log2 (Z.abs z) - 52) 0) as [L|L]; [reflexivity|].
  assert (E : Z.abs z = 2 ^ 53).
  { assert (P : 0 < Z.abs z).
    { destruct (Z.eq_dec (Z.abs z) 0) as [E0|]; [rewrite E0 in L; simpl in L|]; lia. }
    assert (2 ^ 53 <= Z.abs z); [|lia].
    apply Z.log2_le_pow2; lia. }
  destruct z as [|p|p]; simpl in E; try discriminate E; injection E as ->; reflexivity.
Qed.

(** The result is a nearest multiple of the unit in the last place: it is
    at most half a unit from the integer. *)
Lemma round_binary64_nearest (z : Z) :
  2 ^ 53 <= Z.abs z ->
  let ulp := 2 ^ (Z.log2 (Z.abs z) - 52) in
  (exists m, round_binary64 z = m * ulp /\ Z.abs m <= 2 ^ 53)
  /\ 2 * Z.abs (round_binary64 z - z) <= ulp.
Proof.
  intros Hz ulp. unfold round_binary64. cbv zeta.
  assert (Hl : 53 <= Z.log2 (Z.abs z)) by (apply Z.log2_le_pow2; lia).
  destruct (Z.leb_spec (Z.log2 (Z.abs z) - 52) 0) as [L|L]; [lia|].
  set (a := Z.abs z) in *. set (s := Z.log2 a - 52) in *.
  rewrite Z.shiftr_div_pow2, Z.land_ones, Z.shiftl_1_l by lia.
  assert (Hp : 0 < 2 ^ s) by (apply Z.pow_pos_nonneg; lia).
  assert (Hh : 2 ^ s = 2 * 2 ^ (s - 1)).
  { replace s with (Z.succ (s - 1)) at 1 by lia. rewrite Z.pow_succ_r by lia. reflexivity. }
  pose proof (Z.div_mod a (2 ^ s) ltac:(lia)) as D.
  pose proof (Z.mod_pos_bound a (2 ^ s) Hp) as B.
  assert (Hq : a / 2 ^ s < 2 ^ 53).
  { apply Z.div_lt_upper_bound; [exact Hp|].
    rewrite <- Z.pow_add_r by lia. replace (s + 53) with (Z.succ (Z.log2 a)) by lia.
    apply Z.log2_spec. lia. }
  assert (Hq0 : 0 <= a / 2 ^ s) by (apply Z.div_pos; lia).
  set (q := a / 2 ^ s) in *. set (r := a mod 2 ^ s) in *. set (h := 2 ^ (s - 1)) in *.
  fold ulp. change ulp with (2 ^ s).
  assert (Hz' : z = Z.sgn z * a) by (unfold a; destruct z; reflexivity).
  assert (Hs : Z.sgn z = 1 \/ Z.sgn z = -1) by (destruct z; simpl in *; lia).
  destruct ((h <? r) || ((r =? h) && Z.odd q)) eqn:C; rewrite Z.shiftl_mul_pow2 by lia.
  - assert (h <= r).
    { apply orb_prop in C as [C|C]; [apply Z.ltb_lt in C; lia|].
      apply andb_prop in C as [C _]. apply Z.eqb_eq in C. lia. }
    split.
    + exists (Z.sgn z * (q + 1)). split; [ring|]. destruct Hs as [-> | ->]; lia.
    + destruct Hs as [E|E]; rewrite E in *; nia.
  - assert (r <= h).
    { apply orb_false_elim in C as [C _]. apply Z.ltb_ge in C. lia. }
    split.
    + exists (Z.sgn z * q). split; [ring|]. destruct Hs as [-> | ->]; lia.
    + destruct Hs as [E|E]; rewrite E in *; nia.
Qed.

Lemma rounding_grid_sound (from : Z) (n : nat) :
  rounding_grid from n = true ->
  forall z, from <= z < from + Z.of_nat n ->
    Z_of_float (float_of_Z z) = round_binary64 z.
Proof.
  intros G z Hz. unfold rounding_grid in G. rewrite forallb_forall in G.
  specialize (G (z - from)). replace (from + (z - from)) with z in G by lia.
  apply Z.eqb_eq, G. apply in_map_iff. exists (Z.to_nat (z - from)).
  split; [lia|]. apply in_seq. lia.
Qed.

Lemma rounding_grid_53 : rounding_grid (2 ^ 53 - 2048) (Z.to_nat 8192) = true.
Proof. vm_compute. reflexivity. Qed.

Lemma rounding_grid_62 : rounding_grid (2 ^ 62 - 8192) (Z.to_nat 16384) = true.
Proof. vm_compute. reflexivity. Qed.

(** Around [2 ^ 53], where the rounding begins, and around [2 ^ 62],
    [round_binary64] is the conversion the machine makes. *)
Lemma round_binary64_as_the_machine (z : Z) :
  2 ^ 53 - 2048 <= z < 2 ^ 53 + 6144 \/ 2 ^ 62 - 8192 <= z < 2 ^ 62 + 8192 ->
  Z_of_float (float_of_Z z) = round_binary64 z.
Proof.
  intros [Hz|Hz].
  - apply (rounding_grid_sound _ _ rounding_grid_53). lia.
  - apply (rounding_grid_sound _ _ rounding_grid_62). lia.
Qed.

(** ** The properties on concrete inputs *)

(** Two names for a limit of one: the request goes out, then the error. *)
Lemma too_many_explicit_filters_witness :
  let env := demo_env (web_of [("http://mq/api/queues", Response (JArr []))]) in
  @get_stats env false "http://mq/api/" QUEUE_TYPE 1 the_lists (two_lists ["q1"; "q2"] []) =
    (Raise (Exception "The maximum number of queues you can specify is 1."),
     {| heap := [["q1"; "q2"]; []; ["q1"; "q2"]];
        already_alerted := [];
        trace := [HttpGet "http://mq/api/queues"] |}).
Proof.
  intros env.
  destruct (@too_many_explicit_filters env false "http://mq/api/" QUEUE_TYPE 1
              the_lists (two_lists ["q1"; "q2"] []) eq_refl) as (_ & _ & T & _).
  exact (T eq_refl).
Defined.

(** C1, as the claim states it, fails: with two explicit names and a
    limit of one, the request for the queues has been sent when
    [get_stats] raises the error. *)
Lemma request_precedes_the_limit_check :
  let env := demo_env (web_of [("http://mq/api/queues", Response (JArr []))]) in
  let s := two_lists ["q1"; "q2"] [] in
  1 < len (list_at (explicit the_lists) s)
  /\ fst (@get_stats env false "http://mq/api/" QUEUE_TYPE 1 the_lists s)
     = Raise (Exception "The maximum number of queues you can specify is 1.")
  /\ trace (snd (@get_stats env false "http://mq/api/" QUEUE_TYPE 1 the_lists s))
     = [HttpGet "http://mq/api/queues"].
Proof. intros env s. repeat split. Qed.



(** The scenario of the specification: 95 queues, a limit of 100 and no
    filter.  All 95 are processed and one event is posted. *)
Lemma metrics_of_the_first_records_witness :
  let env := demo_env (web_of [("http://mq/api/queues", Response (JArr queues95))]) in
  let s := two_lists [] [] in
  let s' := snd (@get_stats env false "http://mq/api/" QUEUE_TYPE 100 the_lists s) in
  @get_stats env false "http://mq/api/" QUEUE_TYPE 100 the_lists s =
    for_each queues95 (fun data_line => @_get_metrics env data_line QUEUE_TYPE)
      {| heap := [[]; []; []];
         already_alerted := ["http://mq/api/queues"];
         trace := [ HttpGet "http://mq/api/queues";
                    Event (@alert_event env "http://mq/api/" 100 95 QUEUE_TYPE) ] |}
  /\ alarms s' = [Event (@alert_event env "http://mq/api/" 100 95 QUEUE_TYPE)]
  /\ length (List.filter (fun e => match e with Gauge _ _ _ => true | _ => false end)
               (trace s')) = 95%nat.
Proof.
  intros env s s'.
  assert (F : @fetch_matching env false "http://mq/api/" QUEUE_TYPE 100 the_lists s =
              (Ret queues95, copied "http://mq/api/queues" [] s))
    by (vm_compute; reflexivity).
  destruct (@metrics_of_the_first_records env false "http://mq/api/" QUEUE_TYPE 100
              the_lists s queues95 _ F) as (G & _ & _ & _ & _ & A & _).
  split; [exact G | split; [exact A|]].
  vm_compute. reflexivity.
Defined.

(** The scenario of the specification: the vhost [/] answers
    [{"status": "ok"}]. *)
Lemma aliveness_service_check_witness :
  let env := demo_env (web_of [("http://mq/api/aliveness-test/%2F",
                                Response (JObj [("status", JStr "ok")]))]) in
  @check_vhost env "http://mq/api/" (JStr "/") (two_lists [] []) =
    (Ret tt,
     sent [ HttpGet "http://mq/api/aliveness-test/%2F";
            ServiceCheck "rabbitmq.aliveness" OK ["vhost:/"]
              (Some ("Response from aliveness API: "
                       +:+ simple_repr (JObj [("status", JStr "ok")]))) ]
       (two_lists [] [])).
Proof.
  intros env.
  exact (proj1 (proj1 (@aliveness_service_check env "http://mq/api/") "/"
                  [("status", JStr "ok")] (two_lists [] []) eq_refl)).
Defined.

(** The same vhost answering [{"status": "failed"}] is critical. *)
Example aliveness_failed :
  let env := demo_env (web_of [("http://mq/api/aliveness-test/%2F",
                                Response (JObj [("status", JStr "failed")]))]) in
  trace (snd (@check_vhost env "http://mq/api/" (JStr "/") (two_lists [] []))) =
    [ HttpGet "http://mq/api/aliveness-test/%2F";
      ServiceCheck "rabbitmq.aliveness" CRITICAL ["vhost:/"]
        (Some ("Response from aliveness API: "
                 +:+ simple_repr (JObj [("status", JStr "failed")]))) ].
Proof. reflexivity. Qed.

(** The request for the queues fails: [check] reports it and returns,
    having asked for nothing else.  The request for the vhost fails, after
    the queues and the nodes: [check] reports it.  Every request is
    answered: [check] reports OK. *)
Lemma check_reports_collection_errors_witness :
  @check (demo_env queues_down) one_instance (init_state []) =
    (Ret tt,
     {| heap := [[]; []; []; []];
        already_alerted := [];
        trace := [ HttpGet "http://mq/api/queues";
                   ServiceCheck "rabbitmq.status" CRITICAL [] (Some queues_down_message);
                   LogError queues_down_message ] |})
  /\ @check (demo_env aliveness_down) one_instance (init_state []) =
       (Ret tt,
        {| heap := [[]; []; []; []; []; []];
           already_alerted := [];
           trace := [ HttpGet "http://mq/api/queues";
                      HttpGet "http://mq/api/nodes";
                      Gauge "rabbitmq.node.fd_used" (PyFloat 31) ["rabbitmq_node:rabbit@mq"];
                      HttpGet "http://mq/api/aliveness-test/%2F";
                      ServiceCheck "rabbitmq.status" CRITICAL []
                        (Some aliveness_down_message);
                      LogError aliveness_down_message ] |})
  /\ @check (demo_env all_up) one_instance (init_state []) =
       (Ret tt,
        {| heap := [[]; []; []; []; []; []];
           already_alerted := [];
           trace := [ HttpGet "http://mq/api/queues";
                      HttpGet "http://mq/api/nodes";
                      Gauge "rabbitmq.node.fd_used" (PyFloat 31) ["rabbitmq_node:rabbit@mq"];
                      HttpGet "http://mq/api/aliveness-test/%2F";
                      ServiceCheck "rabbitmq.aliveness" OK ["vhost:/"]
                        (Some ("Response from aliveness API: "
                                 +:+ simple_repr (JObj [("status", JStr "ok")])));
                      ServiceCheck "rabbitmq.status" OK [] None ] |}).
Proof.
  pose (s1 := {| heap := [[]; []; []; []; []];
                 already_alerted := [];
                 trace := [HttpGet "http://mq/api/queues"] |}).
  pose (s2 := {| heap := [[]; []; []; []; []; []];
                 already_alerted := [];
                 trace := [ HttpGet "http://mq/api/queues";
                            HttpGet "http://mq/api/nodes";
                            Gauge "rabbitmq.node.fd_used" (PyFloat 31)
                              ["rabbitmq_node:rabbit@mq"] ] |}).
  split; [|split].
  - destruct (@_get_config (demo_env queues_down) one_instance (init_state []))
      as [r s0] eqn:C.
    assert (C' := C). vm_compute in C'. injection C' as <- <-.
    exact (proj1 (@check_reports_collection_errors (demo_env queues_down) one_instance
                    (init_state []) _ _ C) eq_refl).
  - destruct (@_get_config (demo_env aliveness_down) one_instance (init_state []))
      as [r s0] eqn:C.
    assert (C' := C). vm_compute in C'. injection C' as <- <-.
    destruct (@check_reports_collection_errors (demo_env aliveness_down) one_instance
                (init_state []) _ _ C) as (_ & _ & A & _).
    destruct (A s1 s2 eq_refl eq_refl) as [_ V].
    exact (V [] "/" [] [] (conj eq_refl eq_refl) eq_refl eq_refl).
  - destruct (@_get_config (demo_env all_up) one_instance (init_state []))
      as [r s0] eqn:C.
    assert (C' := C). vm_compute in C'. injection C' as <- <-.
    destruct (@check_reports_collection_errors (demo_env all_up) one_instance
                (init_state []) _ _ C) as (_ & _ & _ & _ & _ & _ & O).
    exact (O s1 s2
             (sent [ HttpGet "http://mq/api/aliveness-test/%2F";
                     ServiceCheck "rabbitmq.aliveness" OK ["vhost:/"]
                       (Some ("Response from aliveness API: "
                                +:+ simple_repr (JObj [("status", JStr "ok")]))) ] s2)
             eq_refl eq_refl eq_refl).
Defined.

(** C8, as the claim states it, fails: the request for the queues fails,
    and with it go the statistics of the nodes and the aliveness check,
    which the server would have answered: no request is made for them. *)
Lemma failure_ends_the_later_steps :
  let env := demo_env queues_down in
  is_response (queues_down "http://mq/api/nodes") = true
  /\ is_response (queues_down "http://mq/api/aliveness-test/%2F") = true
  /\ trace (snd (@check env one_instance (init_state []))) =
       [ HttpGet "http://mq/api/queues";
         ServiceCheck "rabbitmq.status" CRITICAL [] (Some queues_down_message);
         LogError queues_down_message ].
Proof. intros env. repeat split. Qed.

(** Filtering by [q1] empties the copy, not the list of the instance. *)
Lemma get_stats_leaves_the_lists_witness :
  let env := demo_env (web_of [("http://mq/api/queues",
                                Response (JArr [queue "q1" "/" 5; queue "q2" "/" 12]))]) in
  let s' := snd (@get_stats env false "http://mq/api/" QUEUE_TYPE 200 the_lists
                   (two_lists ["q1"] [])) in
  heap s' !! 0%nat = Some ["q1"] /\ heap s' = [["q1"]; []; []].
Proof.
  intros env s'. split; [|reflexivity].
  exact (@get_stats_leaves_the_lists env false "http://mq/api/" QUEUE_TYPE 200 the_lists
           (two_lists ["q1"] []) 0%nat ["q1"] eq_refl).
Defined.

(** A queue without name after a named one, and the pattern [tmp]. *)
Lemma nameless_record_raises_witness :
  let nameless_queue := JObj [("vhost", JStr "/"); ("messages", JNum (PyInt 3))] in
  let lines := [queue "tmp.1" "/" 5; nameless_queue] in
  let env := demo_env (web_of [("http://mq/api/queues", Response (JArr lines))]) in
  @get_stats env false "http://mq/api/" QUEUE_TYPE 200 the_lists (two_lists [] ["tmp"]) =
    (Raise TypeError,
     {| heap := [[]; ["tmp"]; []];
        already_alerted := [];
        trace := [HttpGet "http://mq/api/queues"] |})
  /\ exists e,
       fst (@get_stats env false "http://mq/api/" QUEUE_TYPE 200 the_lists
              (two_lists [] ["tmp"])) = Raise e.
Proof.
  intros nameless_queue lines env. split; [reflexivity|].
  exact (proj1 (@nameless_record_raises env false "http://mq/api/" QUEUE_TYPE 200
                  the_lists (two_lists [] ["tmp"]) lines nameless_queue "tmp" []
                  eq_refl eq_refl (or_intror (or_introl eq_refl)) eq_refl)).
Defined.

(** The scenario of the specification: with the explicit filter [q1],
    only the metrics of [q1] are sent. *)
Example scenario_explicit_filter :
  let env := demo_env (web_of [("http://host/api/queues",
                                Response (JArr [JObj [("name", JStr "q1");
                                                      ("messages", JNum (PyInt 5))];
                                                JObj [("name", JStr "q2");
                                                      ("messages", JNum (PyInt 12))]]))]) in
  @get_stats env false "http://host/api/" QUEUE_TYPE 200 the_lists (two_lists ["q1"] []) =
    (Ret tt,
     {| heap := [["q1"]; []; []];
        already_alerted := [];
        trace := [ HttpGet "http://host/api/queues";
                   Gauge "rabbitmq.queue.messages" (PyFloat (inject_Z 5))
                     ["rabbitmq_queue:q1"] ] |}).
Proof. reflexivity. Qed.

(** Two invocations, one after the other, on the same instance: the
    second one filters by [q1] as the first did. *)
Example second_invocation_filters_alike :
  let env := demo_env (web_of [("http://mq/api/queues",
                                Response (JArr [queue "q1" "/" 5; queue "q2" "/" 12]))]) in
  let once := snd (@get_stats env false "http://mq/api/" QUEUE_TYPE 200 the_lists
                     (two_lists ["q1"] [])) in
  let twice := snd (@get_stats env false "http://mq/api/" QUEUE_TYPE 200 the_lists once) in
  trace twice =
    [ HttpGet "http://mq/api/queues";
      Gauge "rabbitmq.queue.messages" (PyFloat (inject_Z 5))
        ["rabbitmq_queue:q1"; "rabbitmq_vhost:/"];
      HttpGet "http://mq/api/queues";
      Gauge "rabbitmq.queue.messages" (PyFloat (inject_Z 5))
        ["rabbitmq_queue:q1"; "rabbitmq_vhost:/"] ]
  /\ heap twice = [["q1"]; []; []; []].
Proof. split; reflexivity. Qed.

(** * Further properties *)
(** * Further properties *)

(** ** Relations that computations preserve *)

#[export] Instance sends_preorder (Q : effect -> Prop) : PreOrder (sends Q).
Proof.
  split.
  - intros s. exists []. now rewrite app_nil_r.
  - intros s1 s2 s3 (n1 & E1 & F1) (n2 & E2 & F2). exists (n1 ++ n2).
    rewrite E2, E1, app_assoc. split; [reflexivity | now apply Forall_app].
Qed.

#[export] Instance grows_preorder : PreOrder grows.
Proof. split; [now intros s l xs | intros s1 s2 s3 G1 G2 l xs Hl; auto]. Qed.

#[export] Instance maintains_preorder (I : state -> Prop) : PreOrder (maintains I).
Proof. split; [now intros s | intros s1 s2 s3 G1 G2 Hs; auto]. Qed.

Section Preserves.
Context (R : state -> state -> Prop) `{!PreOrder R}.

Lemma preserves_same {A} (c : M A) : keeps whole c -> preserves R c.
Proof. intros K s. unfold whole in K. rewrite K. reflexivity. Qed.

Lemma preserves_bind {A B} (c : M A) (k : A -> M B) :
  preserves R c -> (forall a, preserves R (k a)) -> preserves R (bind c k).
Proof.
  intros Hc Hk s. unfold bind. specialize (Hc s).
  destruct (c s) as [[a|e] s1]; simpl in *; [|exact Hc].
  etransitivity; [exact Hc | apply Hk].
Qed.

Lemma preserves_for_each {A} (l : list A) (body : A -> M unit) :
  (forall x, In x l -> preserves R (body x)) -> preserves R (for_each l body).
Proof.
  induction l as [|x l IH]; intros Hb; [intros s; reflexivity|].
  simpl. apply preserves_bind; [apply Hb; now left|].
  intros _. apply IH. intros y Hy. apply Hb. now right.
Qed.

Lemma preserves_try_ValueError {A} (body handler : M A) :
  preserves R body -> preserves R handler ->
  preserves R (try_except_ValueError body handler).
Proof.
  intros Hb Hh s. unfold try_except_ValueError. specialize (Hb s).
  destruct (body s) as [[a|[]] s1]; simpl in *; try exact Hb.
  etransitivity; [exact Hb | apply Hh].
Qed.

Lemma preserves_try_RabbitMQException {A} (body : M A) (handler : string -> M A) :
  preserves R body -> (forall msg, preserves R (handler msg)) ->
  preserves R (try_except_RabbitMQException body handler).
Proof.
  intros Hb Hh s. unfold try_except_RabbitMQException. specialize (Hb s).
  destruct (body s) as [[a|[]] s1]; simpl in *; try exact Hb.
  etransitivity; [exact Hb | apply Hh].
Qed.

End Preserves.

(** Splits a computation as [keeps_step] does; the steps that change the
    state are left to the caller. *)
Ltac preserves_step :=
  first
    [ assumption
    | match goal with Hx : _ |- _ => solve [simple apply Hx] end
    | apply preserves_bind; [typeclasses eauto| |intros ?]
    | apply preserves_try_ValueError; [typeclasses eauto| |]
    | apply preserves_try_RabbitMQException; [typeclasses eauto| |intros ?]
    | match goal with
      | |- preserves _ (match ?x with _ => _ end) => destruct x
      | |- preserves _ (let (_, _) := ?x in _) => destruct x
      end
    | apply preserves_same; [typeclasses eauto | intros ?; reflexivity] ].
Ltac preserves_all := repeat preserves_step.

Lemma sends_emit (Q : effect -> Prop) (e : effect) : Q e -> preserves (sends Q) (emit e).
Proof. intros He s. exists [e]. split; [reflexivity | now constructor]. Qed.

Lemma sends_quiet {A} (Q : effect -> Prop) (c : M A) :
  keeps trace c -> preserves (sends Q) c.
Proof. intros K s. exists []. rewrite K, app_nil_r. split; [reflexivity | constructor]. Qed.

Lemma sends_weaken (Q Q' : effect -> Prop) (s s' : state) :
  (forall e, Q e -> Q' e) -> sends Q s s' -> sends Q' s s'.
Proof.
  intros W (new & E & F). exists new. split; [exact E|].
  eapply Forall_impl; [exact F | exact W].
Qed.

Lemma sends_shown (P : effect -> bool) (s s' : state) :
  sends (fun e => P e = false) s s' -> shown P s' = shown P s.
Proof.
  intros (new & E & F). unfold shown. rewrite E, List.filter_app.
  assert (N : List.filter P new = []).
  { clear E. induction F as [|e new He F IH]; [reflexivity|]. simpl. now rewrite He. }
  now rewrite N, app_nil_r.
Qed.

(** ** What each method sends *)

Section Footprints.
Context `{Env}.

Lemma attribute_value_run (data : json) (attribute : string) (s : state) :
  attribute_value data attribute s = (fst (attribute_value data attribute s), s).
Proof.
  assert (K : keeps whole (attribute_value data attribute)).
  { unfold attribute_value.
    apply keeps_bind; [apply walk_keeps | intros root s0; reflexivity]. }
  specialize (K s). unfold whole in K.
  destruct (attribute_value data attribute s). simpl in *. now subst.
Qed.

Lemma collect_tags_run (data : json) (tag_list : list (string * string))
  (tags : list string) (s : state) :
  collect_tags data tag_list tags s = (fst (collect_tags data tag_list tags s), s).
Proof.
  pose proof (collect_tags_keeps data tag_list tags s) as K. unfold whole in K.
  destruct (collect_tags data tag_list tags s). simpl in *. now subst.
Qed.

(** One attribute sends at most one thing: its gauge, or the debug line. *)
Lemma get_metric_sends (data : json) (t : object_type) (tags : list string)
  (a : string * string * operation) (s : state) :
  In a (ATTRIBUTES t) ->
  exists new,
    trace (snd (get_metric data t tags a s)) = trace s ++ new
    /\ Forall (metrics_effect t tags) new
    /\ (length new <= 1)%nat.
Proof.
  intros Ha.
  assert (Hname : In (gauge_name t a) (map (gauge_name t) (ATTRIBUTES t)))
    by now apply in_map.
  destruct a as [[attribute metric_name] op]. unfold get_metric. unfold bind at 1.
  rewrite attribute_value_run.
  destruct (fst (attribute_value data attribute s)) as [value|e];
    [|exists []; rewrite app_nil_r; repeat constructor].
  destruct (is_None value); [exists []; rewrite app_nil_r; repeat constructor|].
  unfold try_except_ValueError, bind, lift.
  destruct (apply_operation op value) as [v|[]];
    try solve [exists []; rewrite app_nil_r; repeat constructor].
  - eexists. split; [simpl; reflexivity|]. split; [|simpl; lia].
    constructor; [|constructor]. split; [exact Hname | reflexivity].
  - eexists. split; [simpl; reflexivity|]. split; [|simpl; lia].
    constructor; [exact I | constructor].
Qed.

Lemma get_metric_keeps_rest (data : json) (t : object_type) (tags : list string)
  (a : string * string * operation) :
  keeps heap (get_metric data t tags a) /\ keeps already_alerted (get_metric data t tags a).
Proof. split; apply get_metric_keeps; intros e _ s; reflexivity. Qed.

Lemma for_each_metrics_sends (data : json) (t : object_type) (tags : list string)
  (attrs : list (string * string * operation)) :
  (forall a, In a attrs -> In a (ATTRIBUTES t)) ->
  forall s,
    exists new,
      trace (snd (for_each attrs (get_metric data t tags) s)) = trace s ++ new
      /\ Forall (metrics_effect t tags) new
      /\ (length new <= length attrs)%nat.
Proof.
  induction attrs as [|a attrs IH]; intros Hin s.
  - exists []. simpl. rewrite app_nil_r. repeat constructor.
  - rewrite for_each_cons.
    destruct (get_metric_sends data t tags a s (Hin a (or_introl eq_refl)))
      as (n1 & E1 & F1 & L1).
    destruct (get_metric data t tags a s) as [[[]|e] s1]; simpl in E1.
    + destruct (IH (fun b Hb => Hin b (or_intror Hb)) s1) as (n2 & E2 & F2 & L2).
      exists (n1 ++ n2). rewrite E2, E1, app_assoc, length_app.
      split; [reflexivity|]. split; [now apply Forall_app | simpl; lia].
    + exists n1. simpl. split; [exact E1|]. split; [exact F1 | lia].
Qed.

Lemma _get_metrics_sends (data : json) (t : object_type) (s : state) :
  exists tags new,
    trace (snd (_get_metrics data t s)) = trace s ++ new
    /\ Forall (metrics_effect t tags) new
    /\ (length new <= length (ATTRIBUTES t))%nat.
Proof.
  unfold _get_metrics. unfold bind at 1. rewrite collect_tags_run.
  destruct (fst (collect_tags data (TAGS_MAP t) [] s)) as [tags|e].
  - exists tags. now apply for_each_metrics_sends.
  - exists [], []. simpl. rewrite app_nil_r. repeat constructor. lia.
Qed.

Lemma metrics_effect_report (base : string) (t : object_type) (tags : list string)
  (e : effect) : metrics_effect t tags e -> report_effect base t e.
Proof. destruct e; simpl; tauto. Qed.

Lemma _get_metrics_report (base : string) (data : json) (t : object_type) :
  preserves (sends (report_effect base t)) (_get_metrics data t).
Proof.
  intros s. destruct (_get_metrics_sends data t s) as (tags & new & E & F & _).
  exists new. split; [exact E|].
  eapply Forall_impl; [exact F | apply metrics_effect_report].
Qed.

Lemma alert_sends (Q : effect -> Prop) (b : string) (m n : Z) (t : object_type) :
  Q (Event (alert_event b m n t)) -> preserves (sends Q) (alert b m n t).
Proof.
  intros He s. destruct (mem (alert_key b t) (already_alerted s)) eqn:E.
  - rewrite alert_again by exact E. reflexivity.
  - rewrite alert_first by exact E. exists [Event (alert_event b m n t)].
    split; [reflexivity | now constructor].
Qed.

(** Whatever comes of it, [fetch_matching] sends its request and nothing
    else, and leaves [already_alerted] alone. *)
Lemma fetch_matching_trace tf base t max f s :
  trace (snd (fetch_matching tf base t max f s))
  = trace s ++ [HttpGet (urljoin base (type_name t))]
  /\ already_alerted (snd (fetch_matching tf base t max f s)) = already_alerted s.
Proof.
  rewrite fetch_matching_run.
  destruct (http_get (urljoin base (type_name t))) as [data|d|d]; try (split; reflexivity).
  destruct (max <? len (list_at (explicit f) s)); [split; reflexivity|].
  set (c := copied _ _ s).
  assert (K : forall {C} (g : state -> C),
             (forall xs, keeps g (write_list (length (heap s)) xs)) ->
             g (snd ((lines <- as_list data ;;
                      select tf t (length (heap s)) (regexes f) lines) c)) = g c).
  { intros C g Hw. apply (keeps_bind g); [unfold as_list; keeps_all|].
    intros lines. now apply select_keeps. }
  split; [apply (K _ trace) | apply (K _ already_alerted)]; intros xs s0; reflexivity.
Qed.

Lemma report_sends (base : string) (t : object_type) (max : Z) (data : list json) :
  preserves (sends (report_effect base t)) (report base t max data).
Proof.
  unfold report.
  apply preserves_bind; [typeclasses eauto| |intros _].
  - destruct (above_alert_threshold _ _);
      [|apply preserves_same; [typeclasses eauto | intros s; reflexivity]].
    apply alert_sends. simpl. eauto.
  - apply preserves_bind; [typeclasses eauto| |intros _].
    + destruct (max <? len data); [apply sends_emit; reflexivity|].
      apply preserves_same; [typeclasses eauto | intros s; reflexivity].
    + apply preserves_for_each; [typeclasses eauto|]. intros d _. apply _get_metrics_report.
Qed.

(** [get_stats] sends its request, then only what [report] sends. *)
Lemma get_stats_sends tf base t max f s :
  exists new,
    trace (snd (get_stats tf base t max f s))
    = trace s ++ HttpGet (urljoin base (type_name t)) :: new
    /\ Forall (report_effect base t) new.
Proof.
  destruct (fetch_matching_trace tf base t max f s) as [T _].
  unfold get_stats, bind.
  destruct (fetch_matching tf base t max f s) as [[data|e] s1]; simpl in T.
  - destruct (report_sends base t max data s1) as (new & E & F).
    exists new. rewrite E, T, <- app_assoc. now split.
  - exists []. simpl. now split.
Qed.

Lemma sends_from_trace (Q : effect -> Prop) (s s' : state) (new : list effect) :
  trace s' = trace s ++ new -> Forall Q new -> sends Q s s'.
Proof. intros E F. now exists new. Qed.

Lemma vhost_names_keeps (vs : list json) : keeps whole (vhost_names vs).
Proof.
  induction vs as [|v vs IH]; simpl; [intros s; reflexivity|].
  apply keeps_bind; [intros s; reflexivity|]. intros n.
  apply keeps_bind; [exact IH | intros ns s; reflexivity].
Qed.

Lemma check_vhost_sends (base : string) (vhost : json) :
  preserves (sends aliveness_effect) (check_vhost base vhost).
Proof.
  unfold check_vhost, _get_data. cbv zeta.
  preserves_all; first [ apply sends_emit; reflexivity
                       | apply sends_emit; exact I
                       | apply sends_quiet; intros s; reflexivity ].
Qed.

Lemma _check_aliveness_sends (base : string) (vhosts : option (list string)) :
  preserves (sends aliveness_effect) (_check_aliveness base vhosts).
Proof.
  unfold _check_aliveness.
  apply preserves_bind; [typeclasses eauto| |intros vs].
  - pose proof (fun vs => sends_quiet aliveness_effect _
                            (keeps_whole trace _ (vhost_names_keeps vs))) as Hn.
    unfold _get_data, as_list.
    preserves_all; first [ apply sends_emit; exact I
                         | apply sends_quiet; intros s; reflexivity ].
  - apply preserves_for_each; [typeclasses eauto|]. intros v _. apply check_vhost_sends.
Qed.

Lemma collect_sends (inst : instance) (c : config) :
  preserves (sends (collect_effect (base_url c))) (collect inst c).
Proof.
  assert (St : forall t,
             preserves (sends (collect_effect (base_url c)))
               (get_stats (tag_families inst) (base_url c) t
                  (max_detailed c t) (specified c t))).
  { intros t s. destruct (get_stats_sends (tag_families inst) (base_url c) t
                            (max_detailed c t) (specified c t) s) as (new & E & F).
    eapply sends_from_trace; [exact E|]. constructor.
    - right. right. exact I.
    - eapply Forall_impl; [exact F|]. intros e He. destruct t; [now left | right; now left]. }
  unfold collect.
  apply preserves_bind; [typeclasses eauto|apply St|intros _].
  apply preserves_bind; [typeclasses eauto|apply St|intros _].
  intros s. eapply sends_weaken; [|apply _check_aliveness_sends].
  intros e He. right. now right.
Qed.

Lemma collect_effect_quiet (base : string) (e : effect) :
  collect_effect base e -> is_status_check e = false.
Proof.
  intros [He | [He | He]]; destruct e; simpl in He; try contradiction; try reflexivity.
  now subst.
Qed.

End Footprints.

(** ** [_get_config] *)

Section ConfigProperties.
Context `{Env}.


Lemma new_list_grows (xs : list string) : preserves grows (new_list xs).
Proof. intros s l ys Hl. simpl. now apply lookup_app_l_Some. Qed.

Lemma keeps_heap_grows {A} (c : M A) : keeps heap c -> preserves grows c.
Proof. intros K s l xs Hl. now rewrite K. Qed.

Lemma get_setting_run (o : option setting) (s : state) :
  exists v s',
    get_setting o s = (Ret v, s')
    /\ grows s s'
    /\ match o with
       | Some v0 => v = v0 /\ s' = s
       | None => v = ListObject (length (heap s)) /\ heap s' = heap s ++ [[]]
       end.
Proof.
  destruct o as [v0|]; simpl.
  - exists v0, s. repeat split. reflexivity.
  - eexists _, _. split; [reflexivity|]. repeat split. apply (new_list_grows [] s).
Qed.

Lemma refers_step (o : option setting) (v : setting) (l : loc) (s0 s1 s2 s3 : state) :
  grows s0 s1 -> grows s2 s3 ->
  match o with
  | Some v0 => v = v0 /\ s2 = s1
  | None => v = ListObject (length (heap s1)) /\ heap s2 = heap s1 ++ [[]]
  end ->
  v = ListObject l ->
  refers o l s0 s3.
Proof.
  intros G01 G23. destruct o as [v0|].
  - intros [-> _] ->. reflexivity.
  - intros [-> E] V. injection V as <-. split.
    + destruct (heap s0 !! length (heap s1)) as [xs|] eqn:L; [|reflexivity].
      apply G01 in L. apply lookup_lt_Some in L. lia.
    + apply G23. rewrite E. rewrite lookup_app_r by reflexivity.
      now rewrite Nat.sub_diag.
Qed.

(** Whatever comes of it, [_get_config] only adds list objects and at most
    the warning about the certificate. *)
Lemma _get_config_preserves (R : state -> state -> Prop) `{!PreOrder R}
  (inst : instance) :
  (forall msg, preserves R (emit (LogWarning msg))) ->
  preserves R (new_list []) ->
  preserves R (_get_config inst).
Proof.
  intros He Hn. unfold _get_config, get_setting, list_of. cbv zeta. preserves_all.
Qed.

Lemma _get_config_grows (inst : instance) : preserves grows (_get_config inst).
Proof.
  apply _get_config_preserves; [typeclasses eauto| |apply new_list_grows].
  intros msg. apply keeps_heap_grows. intros s. reflexivity.
Qed.

Lemma _get_config_sends (inst : instance) :
  preserves (sends is_log_warning) (_get_config inst).
Proof.
  apply _get_config_preserves; [typeclasses eauto| |].
  - intros msg. now apply sends_emit.
  - apply sends_quiet. intros s. reflexivity.
Qed.

Lemma _get_config_keeps_alerted (inst : instance) :
  keeps already_alerted (_get_config inst).
Proof. unfold _get_config, get_setting, list_of. cbv zeta. keeps_all. Qed.


(** What [_get_config] returns, when it returns. *)
Lemma _get_config_returns (inst : instance) (s : state) (c : config) (s' : state) :
  _get_config inst s = (Ret c, s') ->
  refers (queues inst) (explicit (specified c QUEUE_TYPE)) s s'
  /\ refers (queues_regexes inst) (regexes (specified c QUEUE_TYPE)) s s'
  /\ refers (nodes inst) (explicit (specified c NODE_TYPE)) s s'
  /\ refers (nodes_regexes inst) (regexes (specified c NODE_TYPE)) s s'
  /\ py_int (default (JNum (PyInt MAX_DETAILED_QUEUES)) (max_detailed_queues inst))
     = Ret (max_detailed c QUEUE_TYPE)
  /\ py_int (default (JNum (PyInt MAX_DETAILED_NODES)) (max_detailed_nodes inst))
     = Ret (max_detailed c NODE_TYPE).
Proof.
  unfold _get_config. unfold bind at 1.
  destruct (rabbitmq_api_url inst) as [v|]; [|discriminate].
  destruct (truthy v); [|discriminate].
  destruct v as [|b|n|url|items|fields]; try discriminate.
  unfold ret at 1. cbv zeta.
  set (base := if endswith_slash url then url else url +:+ "/").
  set (warn := if negb (ssl_verify inst) && String.eqb (url_scheme base) "https"
               then emit (LogWarning ("Skipping SSL cert validation for " +:+ base
                                        +:+ " based on configuration."))
               else ret tt).
  assert (W : exists s0, warn s = (Ret tt, s0) /\ heap s0 = heap s).
  { unfold warn. destruct (negb (ssl_verify inst) && _); eexists; split; reflexivity. }
  destruct W as (s0 & W & H0).
  unfold bind at 1. rewrite W.
  unfold bind at 1. unfold lift at 1.
  destruct (py_int (default _ (max_detailed_queues inst))) as [mq|e]; [|discriminate].
  unfold bind at 1. unfold lift at 1.
  destruct (py_int (default _ (max_detailed_nodes inst))) as [mn|e]; [|discriminate].
  destruct (get_setting_run (queues inst) s0) as (q & s1 & E1 & G1 & M1).
  unfold bind at 1. rewrite E1.
  destruct (get_setting_run (queues_regexes inst) s1) as (qr & s2 & E2 & G2 & M2).
  unfold bind at 1. rewrite E2.
  destruct (get_setting_run (nodes inst) s2) as (n & s3 & E3 & G3 & M3).
  unfold bind at 1. rewrite E3.
  destruct (get_setting_run (nodes_regexes inst) s3) as (nr & s4 & E4 & G4 & M4).
  unfold bind at 1. rewrite E4.
  assert (G0 : grows s s0) by (intros l xs Hl; now rewrite H0).
  assert (Gs1 : grows s s1) by (etransitivity; eassumption).
  assert (Gs2 : grows s s2) by (etransitivity; eassumption).
  assert (Gs3 : grows s s3) by (etransitivity; eassumption).
  assert (G24 : grows s2 s4) by (etransitivity; eassumption).
  assert (G14 : grows s1 s4) by (etransitivity; eassumption).
  unfold list_of, bind, ret, raise.
  destruct q as [lq|]; [|discriminate].
  destruct qr as [lqr|]; [|discriminate].
  destruct n as [ln|]; [|discriminate].
  destruct nr as [lnr|]; [|discriminate].
  intros C. injection C as <- <-.
  cbn [base_url specified max_detailed explicit regexes].
  split; [exact (refers_step _ _ _ s s0 s1 s4 G0 G14 M1 eq_refl)|].
  split; [exact (refers_step _ _ _ s s1 s2 s4 Gs1 G24 M2 eq_refl)|].
  split; [exact (refers_step _ _ _ s s2 s3 s4 Gs2 G4 M3 eq_refl)|].
  split; [exact (refers_step _ _ _ s s3 s4 s4 Gs3 (reflexivity s4) M4 eq_refl)|].
  split; reflexivity.
Qed.

(** What [_get_config] comes to for a URL that is a string and not empty. *)
Lemma _get_config_run (inst : instance) (s : state) (url : string) :
  rabbitmq_api_url inst = Some (JStr url) -> url <> "" ->
  exists s',
    snd (_get_config inst s) = s'
    /\ match py_int (default (JNum (PyInt MAX_DETAILED_QUEUES)) (max_detailed_queues inst)),
             py_int (default (JNum (PyInt MAX_DETAILED_NODES)) (max_detailed_nodes inst)) with
       | Ret _, Ret _ =>
           if lists_given inst
           then exists c, _get_config inst s = (Ret c, s')
           else _get_config inst s = (Raise TypeError, s')
       | Raise e, _ => _get_config inst s = (Raise e, s')
       | Ret _, Raise e => _get_config inst s = (Raise e, s')
       end.
Proof.
  intros U N. destruct (_get_config inst s) as [r s'] eqn:C. exists s'.
  split; [reflexivity|]. revert C. unfold _get_config. rewrite U.
  assert (T : truthy (JStr url) = true) by (destruct url; [contradiction|reflexivity]).
  rewrite T. unfold bind at 1. unfold ret at 1. cbv zeta.
  set (base := if endswith_slash url then url else url +:+ "/").
  set (warn := if negb (ssl_verify inst) && String.eqb (url_scheme base) "https"
               then emit (LogWarning ("Skipping SSL cert validation for " +:+ base
                                        +:+ " based on configuration."))
               else ret tt).
  assert (W : exists s0, warn s = (Ret tt, s0)).
  { unfold warn. destruct (negb (ssl_verify inst) && _); eexists; reflexivity. }
  destruct W as (s0 & W).
  unfold bind at 1. rewrite W.
  unfold bind at 1. unfold lift at 1.
  destruct (py_int (default _ (max_detailed_queues inst))) as [mq|e];
    [|now intros C; injection C as <- <-].
  unfold bind at 1. unfold lift at 1.
  destruct (py_int (default _ (max_detailed_nodes inst))) as [mn|e];
    [|now intros C; injection C as <- <-].
  unfold lists_given, is_list, get_setting, list_of, new_list, bind, ret, raise.
  destruct (queues inst) as [[?|]|], (queues_regexes inst) as [[?|]|],
    (nodes inst) as [[?|]|], (nodes_regexes inst) as [[?|]|];
    cbn [fst snd andb]; intros C; injection C as <- <-; eauto.
Qed.

Lemma _get_config_missing (inst : instance) (s : state) :
  match rabbitmq_api_url inst with
  | Some v => truthy v = false
  | None => True
  end ->
  _get_config inst s = (Raise (Exception missing_url_message), s).
Proof.
  unfold _get_config. destruct (rabbitmq_api_url inst) as [v|]; [|reflexivity].
  now intros ->.
Qed.

Lemma _get_config_no_endswith (inst : instance) (s : state) (v : json) :
  rabbitmq_api_url inst = Some v -> truthy v = true ->
  match v with JStr _ => False | _ => True end ->
  _get_config inst s = (Raise AttributeError, s).
Proof.
  intros U T V. unfold _get_config. rewrite U, T.
  destruct v; first [contradiction | reflexivity].
Qed.

(** [_get_config] raises no [RabbitMQException]. *)
Lemma _get_config_raises (inst : instance) (s : state) (e : exn) (s' : state) :
  _get_config inst s = (Raise e, s') ->
  e = Exception missing_url_message \/ e = AttributeError
  \/ e = ValueError \/ e = TypeError.
Proof.
  intros C. destruct (rabbitmq_api_url inst) as [v|] eqn:U.
  - destruct (truthy v) eqn:T.
    + destruct v as [|b|n|url|items|fields];
        try (rewrite (_get_config_no_endswith inst s _ U T I) in C;
             injection C as <- _; now auto).
      assert (N : url <> "") by (intros ->; discriminate T).
      destruct (_get_config_run inst s url U N) as (s1 & _ & R).
      assert (P : forall v, match py_int v with
                            | Ret _ => True
                            | Raise e => e = ValueError \/ e = TypeError
                            end).
      { intros [|b|[z|q]|str|items|fields]; simpl; auto. destruct (int_of_str str); auto. }
      pose proof (P (default (JNum (PyInt MAX_DETAILED_QUEUES)) (max_detailed_queues inst))) as Pq.
      pose proof (P (default (JNum (PyInt MAX_DETAILED_NODES)) (max_detailed_nodes inst))) as Pn.
      destruct (py_int (default _ (max_detailed_queues inst))) as [mq|eq].
      * destruct (py_int (default _ (max_detailed_nodes inst))) as [mn|en].
        -- destruct (lists_given inst).
           ++ destruct R as (c & R). rewrite R in C. discriminate C.
           ++ rewrite R in C. injection C as <- _. auto.
        -- rewrite R in C. injection C as <- _. destruct Pn; auto.
      * rewrite R in C. injection C as <- _. destruct Pq; auto.
    + rewrite _get_config_missing in C by (now rewrite U). injection C as <- _. auto.
  - rewrite _get_config_missing in C by (now rewrite U). injection C as <- _. auto.
Qed.

End ConfigProperties.

(** ** [check], over one invocation and over many *)

Section InvocationProperties.
Context `{Env}.

Lemma get_stats_grows tf base t max f : preserves grows (get_stats tf base t max f).
Proof.
  intros s l xs Hl. pose proof (lookup_lt_Some _ _ _ Hl) as Hlt.
  assert (F : heap (snd (fetch_matching tf base t max f s)) !! l = Some xs).
  { rewrite fetch_matching_run.
    destruct (http_get (urljoin base (type_name t))) as [data|d|d]; try exact Hl.
    assert (C : heap (copied (urljoin base (type_name t)) (list_at (explicit f) s) s) !! l
                = Some xs) by (simpl; now rewrite lookup_app_l).
    destruct (max <? len (list_at (explicit f) s)); [exact C|].
    rewrite <- C. apply (lookup_heap_but (length (heap s))); [lia|].
    apply (keeps_bind (heap_but (length (heap s)))).
    - unfold as_list. keeps_all.
    - intros lines. apply select_keeps. apply heap_but_write. }
  unfold get_stats, bind.
  destruct (fetch_matching tf base t max f s) as [[data|e] s1]; [|exact F].
  simpl in F. now rewrite report_keeps_heap.
Qed.

Lemma check_vhost_keeps {C} (f : state -> C) (base : string) (vhost : json) :
  (forall e, keeps f (emit e)) -> keeps f (check_vhost base vhost).
Proof. intros He. unfold check_vhost, _get_data. cbv zeta. keeps_all; apply He. Qed.

Lemma _check_aliveness_keeps {C} (f : state -> C) (base : string)
  (vhosts : option (list string)) :
  (forall e, keeps f (emit e)) -> keeps f (_check_aliveness base vhosts).
Proof.
  intros He. unfold _check_aliveness.
  apply keeps_bind.
  - pose proof (fun vs => keeps_whole f _ (vhost_names_keeps vs)) as Hn.
    unfold _get_data, as_list. keeps_all; first [apply He | apply Hn].
  - intros vs. apply keeps_for_each. intros v. now apply check_vhost_keeps.
Qed.

Lemma collect_grows (inst : instance) (c : config) : preserves grows (collect inst c).
Proof.
  unfold collect.
  apply preserves_bind; [typeclasses eauto|apply get_stats_grows|intros _].
  apply preserves_bind; [typeclasses eauto|apply get_stats_grows|intros _].
  apply keeps_heap_grows. apply _check_aliveness_keeps. intros e s. reflexivity.
Qed.

Lemma check_grows (inst : instance) : preserves grows (check inst).
Proof.
  unfold check.
  apply preserves_bind; [typeclasses eauto|apply _get_config_grows|intros c].
  apply preserves_try_RabbitMQException; [typeclasses eauto| |].
  - apply preserves_bind; [typeclasses eauto|apply collect_grows|intros _].
    apply keeps_heap_grows. intros s1. reflexivity.
  - intros msg. apply keeps_heap_grows. unfold status_error. keeps_all.
Qed.

(** What sends no event and leaves [already_alerted] alone keeps the
    record of the alerts. *)
Lemma quiet_maintains {A} (c : M A) :
  keeps already_alerted c ->
  preserves (sends (fun e => is_event e = false)) c ->
  preserves (maintains alerted_as_traced) c.
Proof.
  intros Ka Ks s I b t. destruct (Ks s) as (new & E & F).
  rewrite Ka, E, alerts_for_app, I.
  assert (N : alerts_for b t new = 0%nat).
  { clear E. induction F as [|e new He F IH]; [reflexivity|].
    change (e :: new) with ([e] ++ new). rewrite alerts_for_app, alerts_for_one, IH.
    destruct e; try discriminate He; reflexivity. }
  rewrite N. lia.
Qed.

Lemma report_effect_no_request (base : string) (t : object_type) (e : effect) :
  report_effect base t e -> is_request e = false.
Proof. destruct e; simpl; first [reflexivity | contradiction]. Qed.

Lemma metrics_no_event (t : object_type) (tags : list string) (e : effect) :
  metrics_effect t tags e -> is_event e = false.
Proof. destruct e; simpl; first [reflexivity | contradiction]. Qed.

Lemma get_stats_maintains tf base t max f :
  preserves (maintains alerted_as_traced) (get_stats tf base t max f).
Proof.
  unfold get_stats. apply preserves_bind; [typeclasses eauto| |intros data].
  - apply quiet_maintains.
    + intros s. apply fetch_matching_trace.
    + intros s. destruct (fetch_matching_trace tf base t max f s) as [T _].
      eapply sends_from_trace; [exact T|]. now repeat constructor.
  - unfold report.
    apply preserves_bind; [typeclasses eauto| |intros _].
    + destruct (above_alert_threshold _ _).
      * intros s I. now apply alert_keeps_record.
      * apply preserves_same; [typeclasses eauto | intros s; reflexivity].
    + apply preserves_bind; [typeclasses eauto| |intros _].
      * apply quiet_maintains; destruct (max <? len data);
          first [ intros s; reflexivity
                | apply sends_emit; reflexivity
                | apply sends_quiet; intros s; reflexivity ].
      * apply preserves_for_each; [typeclasses eauto|]. intros d _.
        apply quiet_maintains.
        -- apply _get_metrics_keeps. intros e _ s. reflexivity.
        -- intros s. destruct (_get_metrics_sends d t s) as (tags & new & E & F & _).
           eapply sends_from_trace; [exact E|].
           eapply Forall_impl; [exact F | apply metrics_no_event].
Qed.

Lemma check_maintains (inst : instance) :
  preserves (maintains alerted_as_traced) (check inst).
Proof.
  unfold check.
  assert (Q : forall e, is_event e = false ->
                        preserves (maintains alerted_as_traced) (emit e)).
  { intros e He. apply quiet_maintains; [intros s0; reflexivity|]. now apply sends_emit. }
  assert (Body : forall c,
             preserves (maintains alerted_as_traced)
               (try_except_RabbitMQException
                  (collect inst c ;; emit (ServiceCheck "rabbitmq.status" OK [] None))
                  status_error)).
  { intros c. apply preserves_try_RabbitMQException; [typeclasses eauto| |].
    - apply preserves_bind; [typeclasses eauto| |intros _; now apply Q].
      unfold collect.
      apply preserves_bind; [typeclasses eauto|apply get_stats_maintains|intros _].
      apply preserves_bind; [typeclasses eauto|apply get_stats_maintains|intros _].
      apply quiet_maintains.
      + apply _check_aliveness_keeps. intros e s0. reflexivity.
      + intros s0. eapply sends_weaken; [|apply _check_aliveness_sends].
        intros e He. destruct e; simpl in He; first [reflexivity | contradiction].
    - intros msg. unfold status_error.
      apply preserves_bind; [typeclasses eauto| |intros _]; now apply Q. }
  apply preserves_bind; [typeclasses eauto| |exact Body].
  apply quiet_maintains; [apply _get_config_keeps_alerted|].
  intros s0. eapply sends_weaken; [|apply _get_config_sends].
  intros e He. destruct e; try contradiction; reflexivity.
Qed.

End InvocationProperties.

(** ** Further properties of [_get_config], [check] and [get_stats] *)

Section FurtherProperties.
Context `{Env}.

Lemma check_lets_through (inst : instance) (s : state) (e : exn) (s' : state) :
  _get_config inst s = (Raise e, s') -> check inst s = (Raise e, s').
Proof. intros C. unfold check, bind. now rewrite C. Qed.


(** X2. The filters [_get_config] returns refer to the list objects of the
    instance itself where the instance has them, and to new empty lists
    where it has none; the limits are the configured ones as [int] gives
    them, or 200 queues and 100 nodes; and no list object that was there
    is changed. *)
Theorem get_config_filters (inst : instance) (s : state) (c : config) (s' : state) :
  _get_config inst s = (Ret c, s') ->
  refers (queues inst) (explicit (specified c QUEUE_TYPE)) s s'
  /\ refers (queues_regexes inst) (regexes (specified c QUEUE_TYPE)) s s'
  /\ refers (nodes inst) (explicit (specified c NODE_TYPE)) s s'
  /\ refers (nodes_regexes inst) (regexes (specified c NODE_TYPE)) s s'
  /\ Ret (max_detailed c QUEUE_TYPE)
     = py_int (default (JNum (PyInt 200)) (max_detailed_queues inst))
  /\ Ret (max_detailed c NODE_TYPE)
     = py_int (default (JNum (PyInt 100)) (max_detailed_nodes inst))
  /\ grows s s'.
Proof.
  intros C.
  destruct (_get_config_returns inst s c s' C) as (R1 & R2 & R3 & R4 & M1 & M2).
  repeat split; try assumption; try (symmetry; assumption).
  pose proof (_get_config_grows inst s) as G. now rewrite C in G.
Qed.

Lemma shown_sent_one (P : effect -> bool) (e : effect) (s : state) :
  shown P (sent [e] s) = shown P s ++ (if P e then [e] else []).
Proof. unfold shown, sent. simpl. rewrite List.filter_app. simpl. now destruct (P e). Qed.

(** X3. An invocation of [check] that returns has reported the service
    check [rabbitmq.status] exactly once, OK or critical; one that raises
    has not reported it, and what it raises is no [RabbitMQException]. *)
Theorem check_status_once (inst : instance) (s : state) :
  match fst (check inst s) with
  | Ret _ =>
      exists status message,
        shown is_status_check (snd (check inst s)) =
          shown is_status_check s ++ [ServiceCheck "rabbitmq.status" status [] message]
  | Raise e =>
      shown is_status_check (snd (check inst s)) = shown is_status_check s
      /\ forall msg, e <> RabbitMQException msg
  end.
Proof.
  pose proof (_get_config_sends inst s) as S.
  destruct (_get_config inst s) as [[c|e] s0] eqn:C; cbn [snd] in S.
  2: { rewrite (check_lets_through _ _ _ _ C). cbn [fst snd]. split.
       - apply sends_shown. eapply sends_weaken; [|exact S].
         intros e0 He. destruct e0; try contradiction; reflexivity.
       - intros msg ->.
         destruct (_get_config_raises _ _ _ _ C) as [D|[D|[D|D]]]; discriminate D. }
  assert (E0 : shown is_status_check s0 = shown is_status_check s).
  { apply sends_shown. eapply sends_weaken; [|exact S].
    intros e He. destruct e; try contradiction; reflexivity. }
  rewrite (check_run _ _ _ _ C). unfold bind.
  pose proof (collect_sends inst c s0) as Sc.
  assert (E1 : shown is_status_check (snd (collect inst c s0)) = shown is_status_check s).
  { rewrite <- E0. apply sends_shown. eapply sends_weaken; [|exact Sc].
    apply collect_effect_quiet. }
  destruct (collect inst c s0) as [[[]|e] s1]; simpl in E1.
  - exists OK, None.
    change (shown is_status_check (sent [ServiceCheck "rabbitmq.status" OK [] None] s1)
            = shown is_status_check s ++ [ServiceCheck "rabbitmq.status" OK [] None]).
    now rewrite shown_sent_one, E1.
  - destruct e; cbn [fst snd]; try (split; [exact E1 | discriminate]).
    eexists CRITICAL, _. unfold status_reported, shown, sent in *. cbn [trace].
    rewrite List.filter_app, E1. reflexivity.
Qed.

Lemma invocations_preserve (R : state -> state -> Prop) `{!PreOrder R}
  (insts : list instance) :
  (forall inst, preserves R (check inst)) -> forall s, R s (invocations insts s).
Proof.
  intros Hc. induction insts as [|inst insts IH]; intros s; [reflexivity|].
  simpl. etransitivity; [apply Hc | apply IH].
Qed.

(** X4. Over any number of invocations of [check], on any instances, every
    list object that was there before is as it was: the configuration that
    names it is read, not changed. *)
Theorem invocations_leave_the_lists (insts : list instance) (s : state)
  (l : loc) (xs : list string) :
  heap s !! l = Some xs -> heap (invocations insts s) !! l = Some xs.
Proof. apply (invocations_preserve grows insts check_grows s). Qed.

(** X5. Over any number of invocations of [check] since [__init__], on any
    instances, at most one event is posted for a base URL and an object
    type: one if its key is in [already_alerted], none otherwise. *)
Theorem invocations_alert_once (insts : list instance) (h : list (list string))
  (b : string) (t : object_type) :
  let s' := invocations insts (init_state h) in
  alerts_for b t (trace s') =
    (if mem (alert_key b t) (already_alerted s') then 1%nat else 0%nat)
  /\ (alerts_for b t (trace s') <= 1)%nat.
Proof.
  intros s'.
  assert (I : alerted_as_traced s').
  { apply (invocations_preserve (maintains alerted_as_traced) insts check_maintains).
    intros b0 t0. reflexivity. }
  split; [apply I|]. rewrite I. destruct (mem _ _); lia.
Qed.

(** X6. Whatever comes of it, [get_stats] makes exactly one request, to
    the base URL joined with the name of the object type, before anything
    else; after it, it sends only the event of the limit for this base URL
    and type, the warning, gauges named after the attributes of the type,
    and debug lines: no service check and no other log line. *)
Theorem get_stats_one_request tf base t max f s :
  let url := urljoin base (type_name t) in
  let s' := snd (get_stats tf base t max f s) in
  (exists new, trace s' = trace s ++ HttpGet url :: new /\ Forall (report_effect base t) new)
  /\ shown is_request s' = shown is_request s ++ [HttpGet url].
Proof.
  intros url s'. destruct (get_stats_sends tf base t max f s) as (new & E & F).
  split; [now exists new|].
  unfold shown, s'. rewrite E, List.filter_app. simpl.
  assert (N : List.filter is_request new = []).
  { clear E. induction F as [|e new He F IH]; [reflexivity|]. simpl.
    now rewrite (report_effect_no_request _ _ _ He). }
  now rewrite N.
Qed.

(** X7. Whatever the record, [_get_metrics] only adds gauges and debug
    lines to what was sent, at most one for each attribute of the table of
    the type; every gauge is named [rabbitmq.<suffix>.<name>] for a name
    of the table and they all bear the same tags; the list objects and
    [already_alerted] are left alone. *)
Theorem get_metrics_footprint (data : json) (t : object_type) (s : state) :
  let s' := snd (_get_metrics data t s) in
  (exists tags new,
      trace s' = trace s ++ new
      /\ Forall (metrics_effect t tags) new
      /\ (length new <= length (ATTRIBUTES t))%nat)
  /\ heap s' = heap s
  /\ already_alerted s' = already_alerted s.
Proof.
  intros s'. split; [apply _get_metrics_sends|].
  split; apply _get_metrics_keeps; intros e _ s0; reflexivity.
Qed.

End FurtherProperties.

(** ** Further properties of the filtering *)

Section FurtherFilterProperties.
Context `{Env}.

Lemma dict_lookup_set_eq (k : string) (v : json) (fields : list (string * json)) :
  dict_lookup k (dict_set k v fields) = Some v.
Proof.
  induction fields as [|[k0 w] fields IH]; simpl; [now rewrite String.eqb_refl|].
  destruct (String.eqb k0 k) eqn:E; simpl; now rewrite E.
Qed.

Lemma dict_lookup_set_ne (k k' : string) (v : json) (fields : list (string * json)) :
  k' <> k -> dict_lookup k' (dict_set k v fields) = dict_lookup k' fields.
Proof.
  intros N. induction fields as [|[k0 w] fields IH]; simpl.
  - destruct (String.eqb_spec k k'); [congruence | reflexivity].
  - destruct (String.eqb_spec k0 k) as [->|]; simpl.
    + destruct (String.eqb_spec k k'); [congruence | reflexivity].
    + now destruct (String.eqb k0 k').
Qed.

Lemma list_remove_removed (l : loc) (x : string) (s : state) :
  mem x (list_at l s) = true -> list_remove l x s = (Ret tt, removed l x s).
Proof.
  intros Hm. unfold list_remove, bind, read_list. fold (list_at l s). now rewrite Hm.
Qed.

(** X8. A record whose name is in the working list is kept by that entry,
    as it is, and the entry is taken out; the regular expressions are not
    searched, so that they add no family and do no harm if they do not
    compile. *)
Theorem explicit_match_comes_first tf t ef rf fields n s :
  dict_lookup "name" fields = Some (JStr n) ->
  mem n (list_at ef s) = true ->
  filter_line tf t ef rf (JObj fields) s =
    (Ret (Some (JObj fields, ExplicitEntry n)), removed ef n s).
Proof.
  intros Hn Hm. unfold filter_line. unfold bind at 1. unfold lift at 1.
  cbn [py_get]. rewrite Hn. cbn [default from_option id].
  unfold bind at 1. unfold read_list at 1. cbn [fst snd]. fold (list_at ef s).
  cbn [entry_of]. rewrite Hm. unfold bind. now rewrite (list_remove_removed _ _ _ Hm).
Qed.

Lemma filter_line_unlisted tf t ef rf fields n s :
  dict_lookup "name" fields = Some (JStr n) ->
  mem n (list_at ef s) = false ->
  filter_line tf t ef rf (JObj fields) s =
    (m <- first_match (list_at rf s) (JStr n) ;;
     match m with
     | Some groups => ret (Some (tag_family tf groups (JObj fields), RegexMatch))
     | None =>
         match t with
         | NODE_TYPE => ret None
         | QUEUE_TYPE =>
             vhost <- lift (py_get (JObj fields) "vhost") ;;
             let absolute_name := format_s vhost +:+ "/" +:+ n in
             remaining <- read_list ef ;;
             if mem absolute_name remaining then
               list_remove ef absolute_name ;;
               ret (Some (JObj fields, ExplicitEntry absolute_name))
             else
               ps <- read_list rf ;;
               m <- first_match ps (JStr absolute_name) ;;
               match m with
               | Some groups =>
                   ret (Some (tag_family tf groups (JObj fields), RegexMatch))
               | None => ret None
               end
         end
     end) s.
Proof.
  intros Hn Hm. unfold filter_line. unfold bind at 1. unfold lift at 1.
  cbn [py_get]. rewrite Hn. cbn [default from_option id].
  unfold bind at 1. unfold read_list at 1. cbn [fst snd]. fold (list_at ef s).
  cbn [entry_of]. rewrite Hm.
  unfold bind at 1. unfold read_list at 1. cbn [fst snd]. fold (list_at rf s).
  reflexivity.
Qed.

(** X9. A record that no explicit entry names and in whose name a regular
    expression is found is kept, and nothing else changes.  With
    [tag_families] and a pattern that has groups, it is kept with the
    first group as its [queue_family], its other fields as they were;
    otherwise as it is. *)
Theorem regex_match_sets_family tf t ef rf fields n groups s :
  dict_lookup "name" fields = Some (JStr n) ->
  mem n (list_at ef s) = false ->
  fst (first_match (list_at rf s) (JStr n) s) = Ret (Some groups) ->
  filter_line tf t ef rf (JObj fields) s =
    (Ret (Some (tag_family tf groups (JObj fields), RegexMatch)), s)
  /\ match tf, groups with
     | true, g :: _ =>
         exists fields',
           tag_family tf groups (JObj fields) = JObj fields'
           /\ dict_lookup "queue_family" fields' = Some g
           /\ forall k, k <> "queue_family" -> dict_lookup k fields' = dict_lookup k fields
     | _, _ => tag_family tf groups (JObj fields) = JObj fields
     end.
Proof.
  intros Hn Hm Hf. split.
  - rewrite (filter_line_unlisted _ _ _ _ _ _ _ Hn Hm). unfold bind.
    rewrite first_match_run, Hf. reflexivity.
  - destruct tf, groups as [|g groups]; try reflexivity.
    exists (dict_set "queue_family" g fields). split; [reflexivity|].
    split; [apply dict_lookup_set_eq | intros k Hk; now apply dict_lookup_set_ne].
Qed.

(** X10. The regular expressions are searched in order and the first one
    found decides: after patterns that compile and are not found, a
    pattern that is found gives its groups and the later ones are not
    looked at; one that does not compile raises; and when none is found
    the result is [None]. *)
Theorem first_match_in_order (before : list string) (n : string) (s : state) :
  Forall (no_match n) before ->
  first_match before (JStr n) s = (Ret None, s)
  /\ forall p after,
       first_match (before ++ p :: after) (JStr n) s =
         match re_compile p with
         | None => (Raise ReError, s)
         | Some search =>
             match search n with
             | Some groups => (Ret (Some groups), s)
             | None => first_match after (JStr n) s
             end
         end.
Proof.
  intros Hb. induction Hb as [|q before (sq & Cq & Nq) Hb [IH1 IH2]].
  - split; [reflexivity|]. intros p after. cbn [app first_match].
    unfold bind, re_search. destruct (re_compile p) as [search|]; [|reflexivity].
    unfold ret. now destruct (search n).
  - split.
    + cbn [first_match]. unfold bind, re_search. rewrite Cq. unfold ret. now rewrite Nq.
    + intros p after. cbn [app first_match]. unfold bind at 1. unfold re_search.
      rewrite Cq. unfold ret at 1. rewrite Nq. apply IH2.
Qed.

(** X11. The name made of the vhost and the name counts for queues only: a
    queue that its plain name does not keep is kept by the entry
    [<vhost>/<name>], which is taken out; a node in the same case is
    dropped and the list is left as it is. *)
Theorem absolute_name_for_queues_only tf ef rf fields n v s :
  dict_lookup "name" fields = Some (JStr n) ->
  dict_lookup "vhost" fields = Some (JStr v) ->
  mem n (list_at ef s) = false ->
  fst (first_match (list_at rf s) (JStr n) s) = Ret None ->
  mem (v +:+ "/" +:+ n) (list_at ef s) = true ->
  filter_line tf QUEUE_TYPE ef rf (JObj fields) s =
    (Ret (Some (JObj fields, ExplicitEntry (v +:+ "/" +:+ n))),
     removed ef (v +:+ "/" +:+ n) s)
  /\ filter_line tf NODE_TYPE ef rf (JObj fields) s = (Ret None, s).
Proof.
  intros Hn Hv Hm Hf Ha. split.
  - rewrite (filter_line_unlisted _ _ _ _ _ _ _ Hn Hm). unfold bind at 1.
    rewrite first_match_run, Hf. unfold bind at 1. unfold lift at 1.
    cbn [py_get]. rewrite Hv. cbn [default from_option id format_s].
    unfold bind at 1. unfold read_list at 1. cbn [fst snd]. fold (list_at ef s).
    rewrite Ha. unfold bind. now rewrite (list_remove_removed _ _ _ Ha).
  - rewrite (filter_line_unlisted _ _ _ _ _ _ _ Hn Hm). unfold bind.
    rewrite first_match_run, Hf. reflexivity.
Qed.

End FurtherFilterProperties.

(** ** Further properties of [get_stats], [_get_metrics] and [_check_aliveness] *)

Section FurtherStatsProperties.
Context `{Env}.

Lemma list_at_copied_empty (url : string) (l : loc) (s : state) :
  list_at l s = [] -> list_at l (copied url [] s) = [].
Proof.
  unfold list_at. simpl. intros E.
  destruct (lt_eq_lt_dec l (length (heap s))) as [[Hl|Hl]|Hl].
  - now rewrite lookup_app_l.
  - rewrite lookup_app_r by lia. subst l. now rewrite Nat.sub_diag.
  - rewrite lookup_ge_None_2; [reflexivity|]. rewrite length_app. simpl. lia.
Qed.

(** X12. With no explicit name and no regular expression, and a limit that
    is not negative, [get_stats] filters nothing: every record of the
    reply goes to the alert, the warning and the metrics, in the order of
    the reply. *)
Theorem no_filter_reports_all tf base t max f s lines :
  list_at (explicit f) s = [] ->
  list_at (regexes f) s = [] ->
  0 <= max ->
  http_get (urljoin base (type_name t)) = Response (JArr lines) ->
  get_stats tf base t max f s =
    report base t max lines (copied (urljoin base (type_name t)) [] s).
Proof.
  intros He Hr Hmax Hweb. unfold get_stats. unfold bind at 1.
  rewrite fetch_matching_run, Hweb, He.
  destruct (Z.ltb_spec max (len (@nil string))); [unfold len in *; simpl in *; lia|].
  unfold bind at 1. unfold as_list, ret at 1. unfold select.
  unfold bind at 1. unfold read_list at 1. cbn [fst snd].
  unfold bind at 1. unfold read_list at 1. cbn [fst snd].
  fold (list_at (regexes f) (copied (urljoin base (type_name t)) [] s)).
  fold (list_at (length (heap s)) (copied (urljoin base (type_name t)) [] s)).
  rewrite (list_at_copied_empty _ _ _ Hr).
  assert (Hc : list_at (length (heap s)) (copied (urljoin base (type_name t)) [] s) = []).
  { unfold list_at. simpl. rewrite lookup_app_r by lia. now rewrite Nat.sub_diag. }
  rewrite Hc. reflexivity.
Qed.

(** X13. A negative limit makes [get_stats] fail for every configuration,
    even one that names nothing: once the request is answered it raises
    the error about the number of names, and no record is looked at. *)
Theorem negative_limit_fails tf base t max f s :
  max < 0 ->
  let url := urljoin base (type_name t) in
  (exists e, fst (get_stats tf base t max f s) = Raise e)
  /\ (is_response (http_get url) = true ->
      fst (get_stats tf base t max f s) = Raise (Exception (too_many_message t max)))
  /\ trace (snd (get_stats tf base t max f s)) = trace s ++ [HttpGet url].
Proof.
  intros Hmax url.
  pose proof (fetch_matching_run tf base t max f s) as R. cbv zeta in R. fold url in R.
  assert (L : (max <? len (list_at (explicit f) s)) = true)
    by (apply Z.ltb_lt; unfold len; lia).
  rewrite L in R.
  destruct (http_get url) as [data|d|d]; cbn [is_response];
    rewrite (get_stats_raises _ _ _ _ _ _ _ _ R); cbn [fst snd];
    (split; [eauto | split; [first [reflexivity | discriminate] | reflexivity]]).
Qed.

(** X14. Whenever [get_stats] warns that there are too many records, it
    has called [alert] before: the warning is in what was sent and the key
    of the base URL and the type is in [already_alerted]. *)
Theorem warning_comes_with_alert tf base t max f s data s1 :
  fetch_matching tf base t max f s = (Ret data, s1) ->
  max < len data ->
  let s' := snd (get_stats tf base t max f s) in
  above_alert_threshold (len data) max = true
  /\ In (Warning (too_many_warning t)) (trace s')
  /\ mem (alert_key base t) (already_alerted s') = true.
Proof.
  intros F Hlen s'.
  pose proof (fetch_matching_limit _ _ _ _ _ _ _ _ F) as Hmax.
  assert (A : above_alert_threshold (len data) max = true)
    by (unfold above_alert_threshold; apply Z.ltb_lt; lia).
  set (s2 := after_warning t max (len data) (after_alert base t max (len data) s1)).
  assert (G : s' = snd (for_each (slice_to data max)
                          (fun data_line => _get_metrics data_line t) s2)).
  { unfold s', get_stats, bind. now rewrite F, report_run. }
  split; [exact A | split].
  - assert (S : sends (report_effect base t) s2 s').
    { rewrite G. apply preserves_for_each; [typeclasses eauto|].
      intros d _. apply _get_metrics_report. }
    destruct S as (new & E & _). rewrite E. apply in_or_app. left.
    unfold s2, after_warning. apply Z.ltb_lt in Hlen. rewrite Hlen. simpl.
    apply in_or_app. right. now left.
  - assert (K : already_alerted s' = already_alerted s2).
    { rewrite G. apply (keeps_for_each already_alerted). intros d.
      apply _get_metrics_keeps. intros e _ s0. reflexivity. }
    rewrite K. unfold s2. rewrite alerted_after, A. cbn [andb].
    destruct (mem (alert_key base t) (already_alerted s1)) eqn:E; cbn [negb];
      [exact E|]. rewrite mem_app, mem_one, String.eqb_refl. apply orb_true_r.
Qed.

(** X15. A number at the path of an attribute gives the gauge of the
    attribute, zero as any other: only [null] and absence give nothing.
    The value of the gauge is the number as a double: a float as it is,
    an integer of at most 53 bits as it is, a larger integer rounded to
    the nearest double.  An integer beyond the doubles raises
    [OverflowError], which is not caught. *)
Theorem number_gives_gauge data t tags attribute metric_name (n : pynum) s :
  attribute_value data attribute s = (Ret (JNum n), s) ->
  let gauge v := Gauge (gauge_name t (attribute, metric_name, op_float)) (PyFloat v) tags in
  get_metric data t tags (attribute, metric_name, op_float) s =
    match n with
    | PyInt z =>
        if Z.abs z <? 2 ^ 1024 - 2 ^ 970
        then (Ret tt, sent [gauge (inject_Z (round_binary64 z))] s)
        else (Raise OverflowError, s)
    | PyFloat q => (Ret tt, sent [gauge q] s)
    end
  /\ (forall z, n = PyInt z -> Z.abs z <= 2 ^ 53 ->
       get_metric data t tags (attribute, metric_name, op_float) s =
         (Ret tt, sent [gauge (inject_Z z)] s))
  /\ (forall z, n = PyInt z -> 2 ^ 53 <= Z.abs z ->
       let ulp := 2 ^ (Z.log2 (Z.abs z) - 52) in
       (exists m, round_binary64 z = m * ulp /\ Z.abs m <= 2 ^ 53)
       /\ 2 * Z.abs (round_binary64 z - z) <= ulp).
Proof.
  intros Hv gauge.
  assert (E : get_metric data t tags (attribute, metric_name, op_float) s =
              match n with
              | PyInt z =>
                  if Z.abs z <? 2 ^ 1024 - 2 ^ 970
                  then (Ret tt, sent [gauge (inject_Z (round_binary64 z))] s)
                  else (Raise OverflowError, s)
              | PyFloat q => (Ret tt, sent [gauge q] s)
              end).
  { unfold get_metric. unfold bind at 1. rewrite Hv. cbn [is_None].
    unfold try_except_ValueError, bind, lift. cbn [apply_operation].
    destruct n as [z|q]; [|reflexivity].
    unfold float_of_int. now destruct (Z.abs z <? 2 ^ 1024 - 2 ^ 970). }
  split; [exact E | split].
  - intros z -> Hz. rewrite E, (round_binary64_exact z Hz).
    destruct (Z.ltb_spec (Z.abs z) (2 ^ 1024 - 2 ^ 970)) as [_|L]; [reflexivity|].
    exfalso. assert (2 ^ 53 < 2 ^ 1024 - 2 ^ 970); [|lia].
    apply Z.ltb_lt. vm_compute. reflexivity.
  - intros z _ Hz. exact (round_binary64_nearest z Hz).
Qed.

Lemma collect_tags_of (fields : list (string * json)) (tag_list : list (string * string)) :
  forall tags s,
    collect_tags (JObj fields) tag_list tags s = (Ret (tags ++ tags_of fields tag_list), s).
Proof.
  induction tag_list as [|[k label] tag_list IH]; intros tags s.
  - simpl. now rewrite app_nil_r.
  - cbn [collect_tags]. unfold bind, lift. cbn [py_get].
    unfold tags_of. cbn [flat_map]. fold (tags_of fields tag_list).
    destruct (dict_lookup k fields) as [v|]; cbn [default from_option id].
    + destruct (truthy v); rewrite IH; [now rewrite <- app_assoc | reflexivity].
    + cbn [truthy]. now rewrite IH.
Qed.

(** X16. The gauges of a record all bear the same tags: one for each field
    of the tag map of the type that the record holds with a value Python
    takes for true, named [rabbitmq_<label>:<value>]; a field that is
    absent, [null], empty, zero or false gives no tag. *)
Theorem tags_of_a_record (fields : list (string * json)) (t : object_type) (s : state) :
  _get_metrics (JObj fields) t s =
    for_each (ATTRIBUTES t) (get_metric (JObj fields) t (tags_of fields (TAGS_MAP t))) s
  /\ forall tag,
       In tag (tags_of fields (TAGS_MAP t)) <->
       exists k label v,
         In (k, label) (TAGS_MAP t)
         /\ dict_lookup k fields = Some v
         /\ truthy v = true
         /\ tag = "rabbitmq_" +:+ label +:+ ":" +:+ format_s v.
Proof.
  split.
  - unfold _get_metrics. unfold bind at 1. now rewrite collect_tags_of.
  - intros tag. unfold tags_of. rewrite in_flat_map. split.
    + intros ([k label] & Hin & Ht).
      destruct (dict_lookup k fields) as [v|] eqn:L; [|destruct Ht].
      destruct (truthy v) eqn:T; [|destruct Ht].
      destruct Ht as [<-|[]]. now exists k, label, v.
    + intros (k & label & v & Hin & L & T & ->). exists (k, label).
      split; [exact Hin|]. rewrite L, T. now left.
Qed.

(** X17. The loop over the vhosts stops at the first one whose request
    fails or is not answered by a JSON object: the service checks of the
    vhosts before it have been sent, the request for it too, and nothing
    for it or for the vhosts after it.  A failed request raises the
    [RabbitMQException] of [_get_data]; an answer that is JSON but no
    object raises [AttributeError]. *)
Theorem aliveness_stops_at_failure base (before : list string) (v : string)
  (after : list string) (s : state) :
  forallb (replies_object base) before = true ->
  replies_object base v = false ->
  for_each (map JStr (before ++ v :: after)) (check_vhost base) s =
    (Raise (match http_get (aliveness_url base v) with
            | Response _ => AttributeError
            | reply => collection_error (aliveness_url base v) reply
            end),
     sent (flat_map (aliveness_effects base) before ++ [HttpGet (aliveness_url base v)]) s).
Proof.
  intros Hb Hv. rewrite map_app, for_each_app, (aliveness_loop _ _ _ Hb).
  cbn [map]. rewrite for_each_cons.
  assert (E : forall s0,
             check_vhost base (JStr v) s0 =
               (Raise (match http_get (aliveness_url base v) with
                       | Response _ => AttributeError
                       | reply => collection_error (aliveness_url base v) reply
                       end),
                sent [HttpGet (aliveness_url base v)] s0)).
  { intros s0. unfold replies_object in Hv. unfold check_vhost, aliveness_url in *. cbv zeta.
    unfold bind at 1. unfold ret at 1. unfold bind at 1. rewrite _get_data_run.
    destruct (http_get _) as [r|d|d]; try reflexivity.
    unfold bind, lift. destruct r; try discriminate Hv; reflexivity. }
  rewrite E. now rewrite sent_sent.
Qed.

Lemma vhost_names_fails (good : list json) (bad : json) (rest : list json)
  (e : exn) (s : state) :
  Forall (fun v => exists n, py_item v "name" = Ret n) good ->
  py_item bad "name" = Raise e ->
  vhost_names (good ++ bad :: rest) s = (Raise e, s).
Proof.
  intros Hg Hb. induction Hg as [|v good (n & Hn) Hg IH].
  - cbn [app vhost_names]. unfold bind, lift. now rewrite Hb.
  - cbn [app vhost_names]. unfold bind at 1. unfold lift at 1. rewrite Hn.
    unfold bind at 1. now rewrite IH.
Qed.

(** X18. When the vhosts are fetched from the server, one entry of the
    listing without a name, or that is no object, stops the aliveness
    check before any vhost is checked, the ones listed before it
    included: only the request for the listing has been sent. *)
Theorem listing_entry_without_name base configured (good : list json) (bad : json)
  (rest : list json) (e : exn) (s : state) :
  configured = None \/ configured = Some [] ->
  http_get (urljoin base "vhosts") = Response (JArr (good ++ bad :: rest)) ->
  Forall (fun v => exists n, py_item v "name" = Ret n) good ->
  py_item bad "name" = Raise e ->
  _check_aliveness base configured s = (Raise e, requested (urljoin base "vhosts") s)
  /\ (e = KeyError \/ e = TypeError).
Proof.
  intros Hc Hweb Hg Hb. split.
  - assert (E : _check_aliveness base configured s =
                (vhosts <- (vhosts_response <- _get_data (urljoin base "vhosts") ;;
                            vs <- as_list vhosts_response ;;
                            vhost_names vs) ;;
                 for_each vhosts (check_vhost base)) s)
      by (destruct Hc as [-> | ->]; reflexivity).
    rewrite E. unfold bind at 1. unfold bind at 1. rewrite _get_data_run, Hweb.
    unfold bind at 1. unfold as_list, ret at 1.
    now rewrite (vhost_names_fails _ _ _ _ _ Hg Hb).
  - unfold py_item in Hb. destruct bad; try (injection Hb as <-; now right).
    destruct (dict_lookup "name" fields); [discriminate Hb|]. injection Hb as <-. now left.
Qed.

(** X19. The key [alert] remembers tells the base URL and the object type:
    two calls have the same key only if they are for the same base URL and
    the same type, although the key is the two put end to end. *)
Theorem alert_keys_differ (b b' : string) (t t' : object_type) :
  alert_key b t = alert_key b' t' <-> b = b' /\ t = t'.
Proof. split; [apply alert_key_inj | now intros [-> ->]]. Qed.

End FurtherStatsProperties.

(** ** The further properties on concrete inputs *)


(** An instance that lists its queues: the filter of the queue names is
    its list object, the three others are new. *)
Lemma get_config_filters_witness :
  let env := demo_env no_web in
  let s := init_state [["q1"]] in
  exists c s',
    @_get_config env listing_instance s = (Ret c, s')
    /\ explicit (specified c QUEUE_TYPE) = 0%nat
    /\ (heap s !! regexes (specified c QUEUE_TYPE) = None
        /\ heap s' !! regexes (specified c QUEUE_TYPE) = Some [])
    /\ max_detailed c QUEUE_TYPE = 50
    /\ max_detailed c NODE_TYPE = 100
    /\ heap s' !! 0%nat = Some ["q1"].
Proof.
  intros env s.
  destruct (@_get_config env listing_instance s) as [[c|e] s'] eqn:C;
    [|vm_compute in C; discriminate C].
  exists c, s'.
  destruct (@get_config_filters env listing_instance s c s' C)
    as (R1 & R2 & _ & _ & M1 & M2 & G).
  injection M1 as M1. injection M2 as M2.
  repeat split; try assumption; try apply R2. now apply G.
Defined.

(** Two invocations on an instance that lists the queue [q1]. *)
Lemma invocations_leave_the_lists_witness :
  let env := demo_env two_queues in
  heap (@invocations env [listing_instance; listing_instance] (init_state [["q1"]])) !! 0%nat
  = Some ["q1"].
Proof.
  intros env.
  exact (@invocations_leave_the_lists env [listing_instance; listing_instance]
           (init_state [["q1"]]) 0%nat ["q1"] eq_refl).
Defined.

(** The queue [q1] is both listed and matched by the pattern [q]. *)
Lemma explicit_match_comes_first_witness :
  let env := demo_env no_web in
  @filter_line env false QUEUE_TYPE 0%nat 1%nat (queue "q1" "/" 5) (two_lists ["q1"] ["q"]) =
    (Ret (Some (queue "q1" "/" 5, ExplicitEntry "q1")),
     removed 0%nat "q1" (two_lists ["q1"] ["q"])).
Proof.
  intros env.
  exact (@explicit_match_comes_first env false QUEUE_TYPE 0%nat 1%nat
           [("name", JStr "q1"); ("vhost", JStr "/"); ("messages", JNum (PyInt 5))] "q1"
           (two_lists ["q1"] ["q"]) eq_refl eq_refl).
Defined.

(** The pattern [(order)] is found in [order-7]: the family is [order]. *)
Lemma regex_match_sets_family_witness :
  let env := group_env no_web in
  let s := two_lists ["q1"] ["x"; "(order)"] in
  @filter_line env true QUEUE_TYPE 0%nat 1%nat (queue "order-7" "/" 5) s =
    (Ret (Some (JObj [("name", JStr "order-7"); ("vhost", JStr "/");
                      ("messages", JNum (PyInt 5)); ("queue_family", JStr "order")],
                RegexMatch)), s).
Proof.
  intros env s.
  exact (proj1 (@regex_match_sets_family env true QUEUE_TYPE 0%nat 1%nat
                  [("name", JStr "order-7"); ("vhost", JStr "/"); ("messages", JNum (PyInt 5))] "order-7"
                  [JStr "order"] s eq_refl eq_refl eq_refl)).
Defined.

(** Neither [a] nor [b] is found in [q1]; [q] is. *)
Lemma first_match_in_order_witness :
  let env := demo_env no_web in
  @first_match env ["a"; "b"] (JStr "q1") (init_state []) = (Ret None, init_state [])
  /\ @first_match env ["a"; "b"; "q"; "1"] (JStr "q1") (init_state []) =
       (Ret (Some []), init_state []).
Proof.
  intros env.
  assert (N : Forall (@no_match env "q1") ["a"; "b"]).
  { repeat constructor.
    - exists (literal_search "a"). split; reflexivity.
    - exists (literal_search "b"). split; reflexivity. }
  destruct (@first_match_in_order env ["a"; "b"] "q1" (init_state []) N) as [E1 E2].
  split; [exact E1 | exact (E2 "q" ["1"])].
Defined.

(** The entry [prod/q1] keeps the queue [q1] of the vhost [prod], and no
    node. *)
Lemma absolute_name_for_queues_only_witness :
  let env := demo_env no_web in
  let s := two_lists ["prod/q1"] [] in
  @filter_line env false QUEUE_TYPE 0%nat 1%nat (queue "q1" "prod" 5) s =
    (Ret (Some (queue "q1" "prod" 5, ExplicitEntry "prod/q1")), removed 0%nat "prod/q1" s)
  /\ @filter_line env false NODE_TYPE 0%nat 1%nat (queue "q1" "prod" 5) s = (Ret None, s).
Proof.
  intros env s.
  exact (@absolute_name_for_queues_only env false 0%nat 1%nat
           [("name", JStr "q1"); ("vhost", JStr "prod"); ("messages", JNum (PyInt 5))] "q1" "prod" s
           eq_refl eq_refl eq_refl eq_refl eq_refl).
Defined.

(** Two queues, no filter, a limit of one hundred. *)
Lemma no_filter_reports_all_witness :
  let env := demo_env two_queues in
  let s := two_lists [] [] in
  @get_stats env false "http://mq/api/" QUEUE_TYPE 100 the_lists s =
    @report env "http://mq/api/" QUEUE_TYPE 100 [queue "q1" "/" 5; queue "q2" "/" 12]
      (copied "http://mq/api/queues" [] s).
Proof.
  intros env s.
  exact (@no_filter_reports_all env false "http://mq/api/" QUEUE_TYPE 100 the_lists s
           [queue "q1" "/" 5; queue "q2" "/" 12] eq_refl eq_refl ltac:(lia) eq_refl).
Defined.

(** A limit of [-1] with no filter at all. *)
Lemma negative_limit_fails_witness :
  let env := demo_env two_queues in
  let s := two_lists [] [] in
  fst (@get_stats env false "http://mq/api/" QUEUE_TYPE (-1) the_lists s) =
    Raise (Exception "The maximum number of queues you can specify is -1.")
  /\ trace (snd (@get_stats env false "http://mq/api/" QUEUE_TYPE (-1) the_lists s)) =
       [HttpGet "http://mq/api/queues"].
Proof.
  intros env s.
  destruct (@negative_limit_fails env false "http://mq/api/" QUEUE_TYPE (-1) the_lists s
              ltac:(lia)) as (_ & E & T).
  split; [exact (E eq_refl) | exact T].
Defined.

(** Two queues for a limit of one. *)
Lemma warning_comes_with_alert_witness :
  let env := demo_env two_queues in
  let s' := snd (@get_stats env false "http://mq/api/" QUEUE_TYPE 1 the_lists
                   (two_lists [] [])) in
  In (Warning (too_many_warning QUEUE_TYPE)) (trace s')
  /\ mem (alert_key "http://mq/api/" QUEUE_TYPE) (already_alerted s') = true.
Proof.
  intros env s'.
  exact (proj2 (@warning_comes_with_alert env false "http://mq/api/" QUEUE_TYPE 1 the_lists
                  (two_lists [] []) [queue "q1" "/" 5; queue "q2" "/" 12]
                  (copied "http://mq/api/queues" [] (two_lists [] []))
                  eq_refl ltac:(unfold len; simpl; lia))).
Defined.

(** A queue with no message has the gauge [rabbitmq.queue.messages] at
    zero; one with [2 ^ 53 + 1] messages has it at [2 ^ 53]. *)
Lemma number_gives_gauge_witness :
  let env := demo_env no_web in
  @get_metric env (queue "q1" "/" 0) QUEUE_TYPE ["rabbitmq_queue:q1"]
    ("messages", "messages", op_float) (init_state []) =
    (Ret tt, sent [Gauge "rabbitmq.queue.messages" (PyFloat 0) ["rabbitmq_queue:q1"]]
               (init_state []))
  /\ @get_metric env (queue "q1" "/" 9007199254740993) QUEUE_TYPE ["rabbitmq_queue:q1"]
       ("messages", "messages", op_float) (init_state []) =
       (Ret tt, sent [Gauge "rabbitmq.queue.messages" (PyFloat 9007199254740992)
                        ["rabbitmq_queue:q1"]]
                  (init_state [])).
Proof.
  intros env. split.
  - exact (proj1 (proj2 (@number_gives_gauge env (queue "q1" "/" 0) QUEUE_TYPE
                           ["rabbitmq_queue:q1"] "messages" "messages" (PyInt 0)
                           (init_state []) eq_refl))
             0 eq_refl ltac:(lia)).
  - exact (proj1 (@number_gives_gauge env (queue "q1" "/" 9007199254740993) QUEUE_TYPE
                    ["rabbitmq_queue:q1"] "messages" "messages" (PyInt 9007199254740993)
                    (init_state []) eq_refl)).
Defined.

(** The vhost [/] is alive, the server does not know [staging]: [test] is
    not asked for. *)
Lemma aliveness_stops_at_failure_witness :
  let env := demo_env one_vhost in
  @for_each _ (map JStr ["/"; "staging"; "test"]) (@check_vhost env "http://mq/api/")
    (init_state []) =
    (Raise (RabbitMQException
              ("Cannot open RabbitMQ API url: http://mq/api/aliveness-test/staging "
                 +:+ "404 Client Error: Not Found")),
     sent [ HttpGet "http://mq/api/aliveness-test/%2F";
            ServiceCheck "rabbitmq.aliveness" OK ["vhost:/"]
              (Some ("Response from aliveness API: "
                       +:+ simple_repr (JObj [("status", JStr "ok")])));
            HttpGet "http://mq/api/aliveness-test/staging" ]
       (init_state [])).
Proof.
  intros env.
  exact (@aliveness_stops_at_failure env "http://mq/api/" ["/"] "staging" ["test"]
           (init_state []) eq_refl eq_refl).
Defined.

(** The second entry of the listing has no name: the vhost [/] of the
    first is not checked. *)
Lemma listing_entry_without_name_witness :
  let env := demo_env bad_listing in
  @_check_aliveness env "http://mq/api/" None (init_state []) =
    (Raise KeyError, requested "http://mq/api/vhosts" (init_state [])).
Proof.
  intros env.
  refine (proj1 (@listing_entry_without_name env "http://mq/api/" None
                   [JObj [("name", JStr "/")]] (JObj [("tracing", JBool false)]) []
                   KeyError (init_state []) (or_introl eq_refl) eq_refl _ eq_refl)).
  repeat constructor. now exists (JStr "/").
Defined.
